(** * Police Smart Analytics API: the incident endpoints of [main.py]
    and the [Incident] schema of [schemas.py], embedded in Rocq.

    Documents are Python dictionaries as the document store returns
    them: insertion-ordered association lists from field names to
    values.  Python floats are IEEE binary64 numbers (Rocq's primitive
    floats), Python integers are [Z], strings are byte strings (UTF-8),
    whose byte-wise order is the code-point order Python compares by.

    Exceptions are explicit: a computation returns [Ok v] or
    [Raise e]; an endpoint turns them into HTTP responses the way its
    [try ... except Exception] block does. *)

From Stdlib Require Import ZArith QArith Bool Ascii String DecimalString List Lia Floats.
From Stdlib Require Import Sorted Permutation.
Import ListNotations.

Local Set Warnings "-register-all".
Local Open Scope string_scope.
Local Open Scope list_scope.
Local Open Scope Z_scope.

(** ** Exceptions and the error monad *)

Inductive exn : Type :=
| TypeError
| ValueError
| OverflowError
| ValidationError
| StoreError (msg : string).

Inductive result (A : Type) : Type :=
| Ok (a : A)
| Raise (e : exn).

Arguments Ok {A} a.
Arguments Raise {A} e.

Definition bind {A B : Type} (r : result A) (k : A -> result B) : result B :=
  match r with
  | Ok a => k a
  | Raise e => Raise e
  end.

Notation "x <- e ;; k" := (bind e (fun x => k))
  (at level 61, e at next level, right associativity).

(** What an endpoint answers: a 200 body, or the [HTTPException] it
    raises (the detail is [str(e)]; the model keeps [e] itself). *)
Inductive response (A : Type) : Type :=
| Resp (body : A)
| HTTPException (status_code : Z) (detail : exn).

Arguments Resp {A} body.
Arguments HTTPException {A} status_code detail.

(** [try: ... except Exception as e: raise HTTPException(500, str(e))]. *)
Definition try_500 {A : Type} (r : result A) : response A :=
  match r with
  | Ok a => Resp a
  | Raise e => HTTPException 500 e
  end.

(** ** Values of a stored document *)

(** What a field of a document read from the store may hold (the
    Python values of the BSON types): [None], a boolean, an integer, a
    float, a string, an ObjectId (its hexadecimal text), a naive
    datetime (in microseconds), a list, an embedded document.  The
    store does not validate on read, so any field may hold any of
    them. *)
Inductive value : Type :=
| VNone
| VBool (b : bool)
| VInt (z : Z)
| VFloat (f : float)
| VStr (s : string)
| VObjectId (oid : string)
| VDatetime (t : Z)
| VList (items : list value)
| VDict (fields : list (string * value)).

Definition document : Type := list (string * value).

(** [d.get(k)] / [k in d]: the first binding of [k]. *)
Fixpoint assoc_get {A : Type} (d : list (string * A)) (k : string) : option A :=
  match d with
  | [] => None
  | (k', v) :: d' => if String.eqb k' k then Some v else assoc_get d' k
  end.

(** [d.get(k, default)]: the default is used only when the key is absent. *)
Definition get_default (d : document) (k : string) (default : value) : value :=
  match assoc_get d k with
  | Some v => v
  | None => default
  end.

(** [d.get(k)] with Python's implicit default [None]. *)
Definition get_or_none (d : document) (k : string) : value :=
  get_default d k VNone.

(** [d.pop(k)] on a dictionary that has the key: the remaining bindings. *)
Fixpoint assoc_remove {A : Type} (d : list (string * A)) (k : string) : list (string * A) :=
  match d with
  | [] => []
  | (k', v) :: d' =>
      if String.eqb k' k then assoc_remove d' k else (k', v) :: assoc_remove d' k
  end.

(** [d[k] = v]: replaces in place, or appends a new binding. *)
Fixpoint assoc_set {A : Type} (d : list (string * A)) (k : string) (v : A) : list (string * A) :=
  match d with
  | [] => [(k, v)]
  | (k', v') :: d' =>
      if String.eqb k' k then (k', v) :: d' else (k', v') :: assoc_set d' k v
  end.

(** ** Numbers: Python compares int, bool and float by exact value *)

Inductive xnum : Type :=
| XNaN
| XInf (negative : bool)
| XFin (n d : Z).  (* the rational n/d, d > 0 *)

Definition float_xnum (f : float) : xnum :=
  match Prim2SF f with
  | S754_nan => XNaN
  | S754_infinity s => XInf s
  | S754_zero _ => XFin 0 1
  | S754_finite s m e =>
      let v := if s then Z.neg m else Z.pos m in
      if 0 <=? e then XFin (v * 2 ^ e) 1 else XFin v (2 ^ (- e))
  end.

Definition num_of (v : value) : option xnum :=
  match v with
  | VBool b => Some (XFin (if b then 1 else 0) 1)
  | VInt z => Some (XFin z 1)
  | VFloat f => Some (float_xnum f)
  | _ => None
  end.

Definition xnum_compare (a b : xnum) : option comparison :=
  match a, b with
  | XNaN, _ | _, XNaN => None
  | XInf s1, XInf s2 =>
      Some (match s1, s2 with
            | true, false => Lt
            | false, true => Gt
            | _, _ => Eq
            end)
  | XInf s, XFin _ _ => Some (if s then Lt else Gt)
  | XFin _ _, XInf s => Some (if s then Gt else Lt)
  | XFin n1 d1, XFin n2 d2 => Some (n1 * d2 ?= n2 * d1)
  end.

Definition xnum_eqb (a b : xnum) : bool :=
  match xnum_compare a b with
  | Some Eq => true
  | _ => false
  end.

Definition xnum_ltb (a b : xnum) : bool :=
  match xnum_compare a b with
  | Some Lt => true
  | _ => false
  end.

(** ** Python's [==], [<] and hashing on values *)

Fixpoint py_eq (a b : value) {struct a} : bool :=
  match a, b with
  | VNone, VNone => true
  | VStr s, VStr t => String.eqb s t
  | VObjectId s, VObjectId t => String.eqb s t
  | VDatetime s, VDatetime t => Z.eqb s t
  | VList l, VList m =>
      (fix all2 (l m : list value) {struct l} : bool :=
         match l, m with
         | [], [] => true
         | x :: l', y :: m' => py_eq x y && all2 l' m'
         | _, _ => false
         end) l m
  | VDict d, VDict e =>
      Nat.eqb (List.length d) (List.length e) &&
      (fix all_in (d : list (string * value)) : bool :=
         match d with
         | [] => true
         | (k, x) :: d' =>
             match assoc_get e k with
             | Some y => py_eq x y
             | None => false
             end && all_in d'
         end) d
  | _, _ =>
      match num_of a, num_of b with
      | Some x, Some y => xnum_eqb x y
      | _, _ => false
      end
  end.

(** [a < b]; [TypeError] where Python has no ordering between the two. *)
Fixpoint py_lt (a b : value) {struct a} : result bool :=
  match a, b with
  | VStr s, VStr t => Ok (String.ltb s t)
  | VObjectId s, VObjectId t => Ok (String.ltb s t)
  | VDatetime s, VDatetime t => Ok (s <? t)
  | VList l, VList m =>
      (fix lex (l m : list value) {struct l} : result bool :=
         match l, m with
         | [], [] => Ok false
         | [], _ :: _ => Ok true
         | _ :: _, [] => Ok false
         | x :: l', y :: m' => if py_eq x y then lex l' m' else py_lt x y
         end) l m
  | _, _ =>
      match num_of a, num_of b with
      | Some x, Some y => Ok (xnum_ltb x y)
      | _, _ => Raise TypeError
      end
  end.

(** Lists and embedded documents are unhashable. *)
Definition hashable (v : value) : bool :=
  match v with
  | VList _ | VDict _ => false
  | _ => true
  end.

(** ** Python dictionaries keyed by values ([by_type], [by_severity]) *)

Definition pydict : Type := list (value * Z).

Fixpoint pydict_lookup (d : pydict) (k : value) : option Z :=
  match d with
  | [] => None
  | (k', v) :: d' => if py_eq k' k then Some v else pydict_lookup d' k
  end.

Fixpoint pydict_store (d : pydict) (k : value) (v : Z) : pydict :=
  match d with
  | [] => [(k, v)]
  | (k', v') :: d' =>
      if py_eq k' k then (k', v) :: d' else (k', v') :: pydict_store d' k v
  end.

(** [d.get(k, default)]: hashes [k] first. *)
Definition pydict_get (d : pydict) (k : value) (default : Z) : result Z :=
  if hashable k then
    Ok (match pydict_lookup d k with
        | Some v => v
        | None => default
        end)
  else Raise TypeError.

(** [d[k] = v]. *)
Definition pydict_setitem (d : pydict) (k : value) (v : Z) : result pydict :=
  if hashable k then Ok (pydict_store d k v) else Raise TypeError.

(** [v in {s1, s2, ...}] for a set of strings. *)
Definition in_str_set (v : value) (members : list string) : result bool :=
  if hashable v then Ok (existsb (fun s => py_eq (VStr s) v) members)
  else Raise TypeError.

(** [sum(d.values())]. *)
Definition pydict_sum (d : pydict) : Z :=
  fold_right (fun kv acc => snd kv + acc) 0 d.

(** ** Floats: conversion from integers and [round(x, ndigits)] *)

(** The binary64 number nearest to [z] (ties to even). *)
Definition float_of_Z (z : Z) : float :=
  SF2Prim (binary_normalize prec emax z 0 false).

(** [float(z)] / the int operand of a float operation. *)
Definition int_to_float (z : Z) : result float :=
  let f := float_of_Z z in
  if is_infinity f then Raise OverflowError else Ok f.

(** Sign, numerator and denominator of a finite float. *)
Definition exact_pair (f : float) : option (bool * Z * Z) :=
  match Prim2SF f with
  | S754_finite s m e =>
      if 0 <=? e then Some (s, Z.pos m * 2 ^ e, 1) else Some (s, Z.pos m, 2 ^ (- e))
  | _ => None
  end.

(** [n/d] rounded to an integer, ties to the even one ([0 <= n], [0 < d]). *)
Definition round_half_even (n d : Z) : Z :=
  let q := n / d in
  match 2 * (n mod d) ?= d with
  | Lt => q
  | Gt => q + 1
  | Eq => if Z.even q then q else q + 1
  end.

(** The binary64 number nearest to [(-1)^s * n/d] ([0 <= n], [0 < d]). *)
Definition nearest_float (s : bool) (n d : Z) : float :=
  match n with
  | Z0 => SF2Prim (S754_zero s)
  | _ =>
      let '(q, e, l) := SFdiv_core_binary prec emax n 0 d 0 in
      SF2Prim (binary_round_aux prec emax s q e l)
  end.

(** [round(x, ndigits)] for [0 <= ndigits]: the decimal with [ndigits]
    fractional digits nearest to the exact value of [x] (ties to even),
    converted back to the nearest float; zeros, infinities and NaN
    round to themselves. *)
Definition py_round (x : float) (ndigits : nat) : result float :=
  match exact_pair x with
  | Some (s, n, d) =>
      if (323 <? Z.of_nat ndigits) then Ok x
      else
        let p := 10 ^ Z.of_nat ndigits in
        let r := nearest_float s (round_half_even (n * p) d) p in
        if is_infinity r then Raise OverflowError else Ok r
  | None => Ok x
  end.

(** ** The analytics summary ([analytics_summary], main.py 101-143) *)

(** The response body of [GET /analytics/summary]. *)
Record summary : Type := {
  total : Z;
  open : Z;
  avg_response_minutes : option float;
  by_type : pydict;
  by_severity : pydict
}.

(** The local variables the aggregation loop updates. *)
Record locals : Type := {
  l_by_type : pydict;
  l_by_severity : pydict;
  open_cases : Z;
  response_sum : float;
  response_count : Z
}.

Definition open_statuses : list string := ["reported"; "dispatched"; "on_scene"].

Definition init_locals : locals :=
  {| l_by_type := []; l_by_severity := []; open_cases := 0;
     response_sum := 0%float; response_count := 0 |}.

(** [if x:] on an optional query parameter. *)
Definition truthy (p : option string) : bool :=
  match p with
  | Some s => negb (String.eqb s "")
  | None => false
  end.

Section Analytics.

(** [float(s)] on a [str]: the parsed number, or [None] where Python
    raises [ValueError].  Python's parser is a parameter of the model. *)
Variable float_of_str : string -> option float.

(** [database.get_documents(collection, filters, limit)]: the store's
    query, which may raise. *)
Variable get_documents : string -> document -> option Z -> result (list document).

(** [float(v)]. *)
Definition py_float (v : value) : result float :=
  match v with
  | VFloat f => Ok f
  | VInt z => int_to_float z
  | VBool b => Ok (if b then 1%float else 0%float)
  | VStr s =>
      match float_of_str s with
      | Some f => Ok f
      | None => Raise ValueError
      end
  | _ => Raise TypeError
  end.

(** One iteration of [for d in docs:] (lines 122-130). *)
Definition loop_body (l : locals) (d : document) : result locals :=
  let t := get_default d "type" (VStr "other") in
  n <- pydict_get (l_by_type l) t 0 ;;
  by_type' <- pydict_setitem (l_by_type l) t (n + 1) ;;
  let s := get_default d "severity" (VStr "medium") in
  m <- pydict_get (l_by_severity l) s 0 ;;
  by_severity' <- pydict_setitem (l_by_severity l) s (m + 1) ;;
  is_open <- in_str_set (get_or_none d "status") open_statuses ;;
  let open_cases' := if is_open then open_cases l + 1 else open_cases l in
  match get_or_none d "response_minutes" with
  | VNone =>
      Ok {| l_by_type := by_type'; l_by_severity := by_severity';
            open_cases := open_cases';
            response_sum := response_sum l;
            response_count := response_count l |}
  | v =>
      x <- py_float v ;;
      Ok {| l_by_type := by_type'; l_by_severity := by_severity';
            open_cases := open_cases';
            response_sum := (response_sum l + x)%float;
            response_count := response_count l + 1 |}
  end.

Fixpoint loop (docs : list document) (l : locals) : result locals :=
  match docs with
  | [] => Ok l
  | d :: docs' => l' <- loop_body l d ;; loop docs' l'
  end.

(** [if response_count: avg_response = round(response_sum / response_count, 2)]. *)
Definition average (l : locals) : result (option float) :=
  if response_count l =? 0 then Ok None
  else
    c <- int_to_float (response_count l) ;;
    r <- py_round (response_sum l / c)%float 2 ;;
    Ok (Some r).

(** Lines 113-141: the aggregation over the fetched documents. *)
Definition aggregate (docs : list document) : result summary :=
  let total := Z.of_nat (List.length docs) in
  l <- loop docs init_locals ;;
  avg_response <- average l ;;
  Ok {| total := total;
        open := open_cases l;
        avg_response_minutes := avg_response;
        by_type := l_by_type l;
        by_severity := l_by_severity l |}.

Definition summary_filters (precinct : option string) : document :=
  match precinct with
  | Some p => if truthy precinct then [("precinct", VStr p)] else []
  | None => []
  end.

(** [GET /analytics/summary]; [period] is accepted and not used. *)
Definition analytics_summary (precinct period : option string) : response summary :=
  try_500 (docs <- get_documents "incident" (summary_filters precinct) None ;;
           aggregate docs).

End Analytics.

(** ** The incident listing ([list_incidents], main.py 76-98) *)

(** [if p: filters[name] = p]. *)
Definition add_filter (name : string) (p : option string) (filters : document) : document :=
  match p with
  | Some s => if truthy p then assoc_set filters name (VStr s) else filters
  | None => filters
  end.

(** The sort key [lambda x: x.get("reported_at", "")]. *)
Definition sort_key (x : document) : value :=
  get_default x "reported_at" (VStr "").

(** [l.sort(key=..., reverse=True)]: a stable sort into descending key
    order, comparing keys with [<] only.  Modelled as a stable insertion
    sort; whenever [<] is a total preorder on the keys every stable sort
    returns this same list.  The first failing comparison raises.  On
    keys that [<] does not order totally (a NaN among numbers)
    [list.sort] compares other pairs and may return another permutation;
    no statement below depends on the order of such keys. *)
Fixpoint insert_desc {A : Type} (key : A -> value) (x : A) (l : list A) : result (list A) :=
  match l with
  | [] => Ok [x]
  | y :: l' =>
      b <- py_lt (key x) (key y) ;;
      if b then (r <- insert_desc key x l' ;; Ok (y :: r)) else Ok (x :: y :: l')
  end.

Fixpoint sort_reverse {A : Type} (key : A -> value) (l : list A) : result (list A) :=
  match l with
  | [] => Ok []
  | x :: l' => s <- sort_reverse key l' ;; insert_desc key x s
  end.

Section Listing.

(** [str(v)], used on the store's [_id]. *)
Variable py_str : value -> string.

Variable get_documents : string -> document -> option Z -> result (list document).

(** [if "_id" in d: d["id"] = str(d.pop("_id"))]. *)
Definition rename_id (d : document) : document :=
  match assoc_get d "_id" with
  | Some v => assoc_set (assoc_remove d "_id") "id" (VStr (py_str v))
  | None => d
  end.

Definition listing_filters (type severity status precinct : option string) : document :=
  add_filter "precinct" precinct
    (add_filter "status" status
       (add_filter "severity" severity
          (add_filter "type" type []))).

(** Lines 90-96, on the documents the store returned. *)
Definition list_items (docs : list document) : result (list document) :=
  sort_reverse sort_key (map rename_id docs).

(** [GET /incidents]: [limit] is [Query(100, ge=1, le=1000)], checked by
    the framework before the handler runs; the body is [items]. *)
Definition list_incidents (type severity status precinct : option string)
    (limit : option Z) : response (list document) :=
  let limit := match limit with Some n => n | None => 100 end in
  if (1 <=? limit) && (limit <=? 1000) then
    try_500 (docs <- get_documents "incident"
                       (listing_filters type severity status precinct) (Some limit) ;;
             list_items docs)
  else HTTPException 422 ValidationError.

End Listing.

(** ** The [Incident] schema (schemas.py 43-80) *)

Module schemas.

Record Incident : Type := {
  incident_id : option string;
  type : string;
  description : option string;
  severity : string;
  status : string;
  latitude : option float;
  longitude : option float;
  occurred_at : option string;
  reported_at : option string;
  response_minutes : option float;
  precinct : option string;
  officer_id : option string
}.

Definition TYPES : list string :=
  ["theft"; "assault"; "burglary"; "fraud"; "vandalism"; "traffic";
   "narcotics"; "homicide"; "disturbance"; "other"].

Definition SEVERITIES : list string := ["low"; "medium"; "high"; "critical"].

Definition STATUSES : list string :=
  ["reported"; "dispatched"; "on_scene"; "resolved"; "closed"].

Definition mem (s : string) (l : list string) : bool := existsb (String.eqb s) l.

Section Validation.

(** What pydantic's lax mode converts to [str] / [float] besides the
    exact type (and [int] for [float]); it depends on the pydantic
    version and is a parameter here. *)
Variable lax_str : value -> option string.
Variable lax_float : value -> option float.

(** [Optional[str] = Field(None)]. *)
Definition optional_str (v : option value) : result (option string) :=
  match v with
  | None | Some VNone => Ok None
  | Some (VStr s) => Ok (Some s)
  | Some x =>
      match lax_str x with
      | Some s => Ok (Some s)
      | None => Raise ValidationError
      end
  end.

(** [Literal[...] = Field(default)]: an absent field takes the default;
    a present one must be one of the literals. *)
Definition literal (allowed : list string) (default : string) (v : option value) : result string :=
  match v with
  | None => Ok default
  | Some (VStr s) => if mem s allowed then Ok s else Raise ValidationError
  | Some _ => Raise ValidationError
  end.

Definition to_float (x : value) : result float :=
  match x with
  | VFloat f => Ok f
  | VInt z => if is_infinity (float_of_Z z) then Raise ValidationError else Ok (float_of_Z z)
  | _ =>
      match lax_float x with
      | Some f => Ok f
      | None => Raise ValidationError
      end
  end.

Definition ge_ok (bound : option Z) (f : float) : bool :=
  match bound with
  | Some b => (float_of_Z b <=? f)%float
  | None => true
  end.

Definition le_ok (bound : option Z) (f : float) : bool :=
  match bound with
  | Some b => (f <=? float_of_Z b)%float
  | None => true
  end.

(** [Optional[float] = Field(None, ge=..., le=...)]. *)
Definition optional_float (ge le : option Z) (v : option value) : result (option float) :=
  match v with
  | None | Some VNone => Ok None
  | Some x =>
      f <- to_float x ;;
      if ge_ok ge f && le_ok le f then Ok (Some f) else Raise ValidationError
  end.

(** The constructor [Incident] applied to keyword fields (also the
    validation of a request body): every field is validated. *)
Definition new_Incident (fields : document) : result Incident :=
  incident_id <- optional_str (assoc_get fields "incident_id") ;;
  type <- literal TYPES "other" (assoc_get fields "type") ;;
  description <- optional_str (assoc_get fields "description") ;;
  severity <- literal SEVERITIES "medium" (assoc_get fields "severity") ;;
  status <- literal STATUSES "reported" (assoc_get fields "status") ;;
  latitude <- optional_float (Some (-90)) (Some 90) (assoc_get fields "latitude") ;;
  longitude <- optional_float (Some (-180)) (Some 180) (assoc_get fields "longitude") ;;
  occurred_at <- optional_str (assoc_get fields "occurred_at") ;;
  reported_at <- optional_str (assoc_get fields "reported_at") ;;
  response_minutes <- optional_float (Some 0) None (assoc_get fields "response_minutes") ;;
  precinct <- optional_str (assoc_get fields "precinct") ;;
  officer_id <- optional_str (assoc_get fields "officer_id") ;;
  Ok {| incident_id := incident_id; type := type; description := description;
        severity := severity; status := status;
        latitude := latitude; longitude := longitude;
        occurred_at := occurred_at; reported_at := reported_at;
        response_minutes := response_minutes;
        precinct := precinct; officer_id := officer_id |}.

End Validation.

End schemas.

(** ** Creation and seeding ([create_incident], [seed_incidents]) *)

(** What one iteration of the seeding loop draws from [random]. *)
Record draw : Type := {
  d_type : string;        (* random.choice(types) *)
  d_severity : string;    (* random.choices(severities, weights)[0] *)
  d_status : string;      (* random.choices(statuses, weights)[0] *)
  d_when : Z;             (* random.randint(10, 60 * 24 * 14) *)
  d_report : Z;           (* random.randint(0, 120) *)
  d_response : Z;         (* random.randint(2, 60) *)
  d_incident : Z;         (* random.randint(100000, 999999) *)
  d_lat : float;          (* random.uniform(lat_min, lat_max) *)
  d_lon : float;          (* random.uniform(lon_min, lon_max) *)
  d_precinct : string;    (* random.choice(precincts) *)
  d_officer : Z           (* random.randint(1000, 9999) *)
}.

Definition types : list string :=
  ["theft"; "assault"; "burglary"; "fraud"; "vandalism"; "traffic";
   "narcotics"; "disturbance"; "other"].

Definition severities : list string := ["low"; "medium"; "high"; "critical"].

Definition statuses : list string :=
  ["reported"; "dispatched"; "on_scene"; "resolved"; "closed"].

Definition precincts : list string := ["Central"; "North"; "South"; "East"; "West"].

Local Set Warnings "-inexact-float".

Definition lat_min : float := 37.70%float.
Definition lat_max : float := 37.82%float.
Definition lon_min : float := (-122.52)%float.
Definition lon_max : float := (-122.36)%float.

(** What the [random] module documents about its results: [choice] and
    [choices] return members of the population, [randint(a, b)] an
    integer with [a <= N <= b], [uniform(a, b)] a float with
    [a <= N <= b]. *)
Definition draw_ok (r : draw) : Prop :=
  In (d_type r) types /\
  In (d_severity r) severities /\
  In (d_status r) statuses /\
  10 <= d_when r <= 60 * 24 * 14 /\
  0 <= d_report r <= 120 /\
  2 <= d_response r <= 60 /\
  100000 <= d_incident r <= 999999 /\
  (lat_min <=? d_lat r)%float = true /\ (d_lat r <=? lat_max)%float = true /\
  (lon_min <=? d_lon r)%float = true /\ (d_lon r <=? lon_max)%float = true /\
  In (d_precinct r) precincts /\
  1000 <= d_officer r <= 9999.

(** [timedelta(minutes=k)] on datetimes counted in microseconds. *)
Definition minutes (k : Z) : Z := k * 60000000.

(** The body [{"created": created}] of the seeding response. *)
Record seeded : Type := { created : Z }.

Section Store.

Variable py_str : value -> string.

(** [datetime.isoformat()]. *)
Variable isoformat : Z -> string.

Variable lax_str : value -> option string.
Variable lax_float : value -> option float.

(** The document store, and [database.create_document(collection, data)]:
    the inserted id or an exception, and the store afterwards. *)
Variable Store : Type.
Variable create_document : string -> schemas.Incident -> Store -> result string * Store.

(** [POST /incidents]: the framework validates the body as an
    [IncidentIn] (422 on failure) before the handler inserts it. *)
Definition create_incident (body : document) (st : Store) : response string * Store :=
  match schemas.new_Incident lax_str lax_float body with
  | Raise e => (HTTPException 422 e, st)
  | Ok payload =>
      let '(r, st') := create_document "incident" payload st in
      (try_500 r, st')
  end.

(** Lines 172-191: the [Incident] built from one iteration's draws. *)
Definition seed_doc (now : Z) (r : draw) : result schemas.Incident :=
  let t := d_type r in
  let sev := d_severity r in
  let status := d_status r in
  let when := now - minutes (d_when r) in
  let report_when := when + minutes (d_report r) in
  let response_minutes :=
    if negb (String.eqb status "reported") then VInt (d_response r) else VNone in
  latitude <- py_round (d_lat r) 6 ;;
  longitude <- py_round (d_lon r) 6 ;;
  schemas.new_Incident lax_str lax_float
    [("incident_id", VStr ("INC-" ++ py_str (VInt (d_incident r))));
     ("type", VStr t);
     ("description", VStr ("Random " ++ t ++ " incident"));
     ("severity", VStr sev);
     ("status", VStr status);
     ("latitude", VFloat latitude);
     ("longitude", VFloat longitude);
     ("occurred_at", VStr (isoformat when));
     ("reported_at", VStr (isoformat report_when));
     ("response_minutes", response_minutes);
     ("precinct", VStr (d_precinct r));
     ("officer_id", VStr (py_str (VInt (d_officer r))))].

(** [for i in range(n):] with [rng i] the draws of iteration [i]. *)
Fixpoint seed_loop (now : Z) (rng : nat -> draw) (iters : list nat)
    (created : Z) (st : Store) : result Z * Store :=
  match iters with
  | [] => (Ok created, st)
  | i :: iters' =>
      match seed_doc now (rng i) with
      | Raise e => (Raise e, st)
      | Ok doc =>
          match create_document "incident" doc st with
          | (Raise e, st') => (Raise e, st')
          | (Ok _, st') => seed_loop now rng iters' (created + 1) st'
          end
      end
  end.

(** [POST /incidents/seed]; [n] is [Query(50, ge=1, le=500)]. *)
Definition seed_incidents (n : option Z) (now : Z) (rng : nat -> draw) (st : Store)
    : response seeded * Store :=
  let n := match n with Some k => k | None => 50 end in
  if (1 <=? n) && (n <=? 500) then
    let '(r, st') := seed_loop now rng (seq 0 (Z.to_nat n)) 0 st in
    (try_500 (c <- r ;; Ok {| created := c |}), st')
  else (HTTPException 422 ValidationError, st).

(** The store after inserting the given incidents in order, when every
    insertion succeeds. *)
Fixpoint insert_all (incs : list schemas.Incident) (st : Store) : option Store :=
  match incs with
  | [] => Some st
  | inc :: incs' =>
      match create_document "incident" inc st with
      | (Ok _, st') => insert_all incs' st'
      | (Raise _, _) => None
      end
  end.

End Store.

(** * Vocabulary of the statements *)

(** The number of documents satisfying a test. *)
Definition count_docs (p : document -> bool) (docs : list document) : Z :=
  Z.of_nat (List.length (filter p docs)).

(** The count a mapping holds for a key, 0 when the key is absent. *)
Definition label_count (d : pydict) (k : value) : Z :=
  match pydict_lookup d k with
  | Some n => n
  | None => 0
  end.

(** The status is exactly one of the three open strings. *)
Definition has_open_status (d : document) : bool :=
  match assoc_get d "status" with
  | Some (VStr s) =>
      String.eqb s "reported" || String.eqb s "dispatched" || String.eqb s "on_scene"
  | _ => false
  end.

(** The field is present and holds [None]. *)
Definition null_field (k : string) (d : document) : bool :=
  match assoc_get d k with
  | Some VNone => true
  | _ => false
  end.

(** The field is present and holds the string [s]. *)
Definition str_field (k s : string) (d : document) : bool :=
  match assoc_get d k with
  | Some (VStr t) => String.eqb t s
  | _ => false
  end.

(** The field is absent. *)
Definition absent_field (k : string) (d : document) : bool :=
  match assoc_get d k with
  | None => true
  | Some _ => false
  end.

(** The record supplies a [response_minutes]: present and not [None]. *)
Definition supplies_response (d : document) : bool :=
  match assoc_get d "response_minutes" with
  | None | Some VNone => false
  | Some _ => true
  end.

(** The [response_minutes] values supplied, in document order. *)
Definition supplied (docs : list document) : list value :=
  map (fun d => get_or_none d "response_minutes") (filter supplies_response docs).

(** [type], [severity] and [status] hold hashable values where present. *)
Definition labels_hashable (d : document) : bool :=
  hashable (get_default d "type" (VStr "other")) &&
  hashable (get_default d "severity" (VStr "medium")) &&
  hashable (get_or_none d "status").

(** Keys whose Python equality class is the key alone ([None], strings). *)
Definition plain_key (k : value) : Prop :=
  (forall x, py_eq x k = true -> x = k) /\
  (forall x, py_eq k x = true -> x = k) /\
  py_eq k k = true.

(** The locals after a document was processed without an exception;
    [x] is its converted [response_minutes] when it supplies one. *)
Definition next_locals (l : locals) (d : document) (x : option float) : locals :=
  let t := get_default d "type" (VStr "other") in
  let s := get_default d "severity" (VStr "medium") in
  {| l_by_type := pydict_store (l_by_type l) t (label_count (l_by_type l) t + 1);
     l_by_severity := pydict_store (l_by_severity l) s (label_count (l_by_severity l) s + 1);
     open_cases := if has_open_status d then open_cases l + 1 else open_cases l;
     response_sum :=
       match x with
       | Some x => (response_sum l + x)%float
       | None => response_sum l
       end;
     response_count :=
       match x with
       | Some _ => response_count l + 1
       | None => response_count l
       end |}.

(** * Instances and inputs of the worked examples *)

(** An instance of [float_of_str]: Python's [float(s)] on the strings
    of ASCII decimal digits.  (The other spellings Python accepts are
    left out of this instance; the theorems hold for every parser.) *)
Definition float_of_digits (s : string) : option float :=
  option_map (fun u => float_of_Z (Z.of_uint u)) (NilZero.uint_of_string s).

Definition example_docs : list document :=
  [ [("type", VStr "theft"); ("severity", VStr "high");
     ("status", VStr "dispatched"); ("response_minutes", VInt 10)];
    [("type", VNone); ("status", VStr "closed"); ("response_minutes", VStr "15")];
    [("severity", VNone); ("response_minutes", VFloat 20%float)] ].

Definition example_summary : summary :=
  {| total := 3; open := 1; avg_response_minutes := Some 15%float;
     by_type := [(VStr "theft", 1); (VNone, 1); (VStr "other", 1)];
     by_severity := [(VStr "high", 1); (VStr "medium", 1); (VNone, 1)] |}.

Definition rm (z : Z) : document := [("response_minutes", VInt z)].

(** Forty records: twenty-seven answered in 3 minutes, thirteen in 2. *)
Definition docs40 : list document := repeat (rm 3) 27 ++ repeat (rm 2) 13.

Section AverageDefs.

Variable float_of_str : string -> option float.

(** [float(v)] on each value, left to right. *)
Fixpoint floats_of (vs : list value) : result (list float) :=
  match vs with
  | [] => Ok []
  | v :: vs' =>
      x <- py_float float_of_str v ;;
      xs <- floats_of vs' ;;
      Ok (x :: xs)
  end.

(** The exact number a supplied value stands for. *)
Definition exact_value (v : value) : option Q :=
  let of_xnum x :=
    match x with
    | XFin n d => Some (n # Z.to_pos d)%Q
    | _ => None
    end in
  match v with
  | VStr s =>
      match float_of_str s with
      | Some f => of_xnum (float_xnum f)
      | None => None
      end
  | _ =>
      match num_of v with
      | Some x => of_xnum x
      | None => None
      end
  end.

Fixpoint exact_values (vs : list value) : option (list Q) :=
  match vs with
  | [] => Some []
  | v :: vs' =>
      match exact_value v, exact_values vs' with
      | Some q, Some qs => Some (q :: qs)
      | _, _ => None
      end
  end.

(** The arithmetic mean, in exact rational arithmetic. *)
Definition exact_mean (qs : list Q) : Q :=
  Qred (fold_right Qplus 0%Q qs / inject_Z (Z.of_nat (List.length qs)))%Q.

(** The average as the specification words it: the exact arithmetic mean of the
    supplied values, rounded to 2 decimal places (ties to even), as the
    float nearest to that decimal; null when nothing is supplied. *)
Definition mean_rounded_to_2_places (docs : list document) : option float :=
  match exact_values (supplied docs) with
  | Some (q :: qs) =>
      let m := (exact_mean (q :: qs) * 100)%Q in
      let k := round_half_even (Qnum m) (Z.pos (Qden m)) in
      Some (nearest_float (k <? 0) (Z.abs k) 100)
  | _ => None
  end.

End AverageDefs.

(** An in-memory document store for the worked examples: the stored
    documents matching every filter field, at most [limit] of them. *)
Definition matches (filters d : document) : bool :=
  forallb (fun kv => match assoc_get d (fst kv) with
                     | Some v => py_eq v (snd kv)
                     | None => false
                     end) filters.

Definition memory_get_documents (stored : list document)
    (collection : string) (filters : document) (limit : option Z) : result (list document) :=
  let found := filter (matches filters) stored in
  Ok (match limit with
      | Some n => firstn (Z.to_nat n) found
      | None => found
      end).

(** Processing the document raises, whatever the locals hold. *)
Definition doc_raises (float_of_str : string -> option float) (d : document) : Prop :=
  labels_hashable d = false \/
  (supplies_response d = true /\
   exists e, py_float float_of_str (get_or_none d "response_minutes") = Raise e).

Definition bad_docs : list document :=
  [ [("type", VStr "fraud"); ("response_minutes", VInt 12)];
    [("type", VStr "theft"); ("response_minutes", VStr "soon")] ].

(** The timestamp the listing orders by: [reported_at] when it is a
    string, the empty string otherwise. *)
Definition timestamp (d : document) : string :=
  match assoc_get d "reported_at" with
  | Some (VStr s) => s
  | _ => ""
  end.

(** [reported_at] is absent or a string. *)
Definition timestamp_str_or_absent (d : document) : bool :=
  match assoc_get d "reported_at" with
  | None | Some (VStr _) => true
  | Some _ => false
  end.

(** [a] may stand before [b] in the listing: its timestamp is not
    smaller in the lexicographic order of the raw strings. *)
Definition not_older (a b : document) : Prop :=
  String.ltb (timestamp a) (timestamp b) = false.

(** The key of [a] is the string [skey a]. *)
Definition keyed {A : Type} (key : A -> value) (skey : A -> string) (a : A) : Prop :=
  key a = VStr (skey a).

(** [a] may stand before [b] in a descending list of string keys. *)
Definition desc {A : Type} (skey : A -> string) (a b : A) : Prop :=
  String.ltb (skey a) (skey b) = false.

(** A three-record store: one record without [reported_at], two dated. *)
Definition undated : document := [("type", VStr "fraud")].
Definition day1 : document := [("type", VStr "theft"); ("reported_at", VStr "2024-01-01")].
Definition day2 : document := [("reported_at", VStr "2024-01-02"); ("type", VStr "other")].

(** A record whose [reported_at] is present and null. *)
Definition null_dated : document := [("type", VStr "theft"); ("reported_at", VNone)].

(** An instance of [py_str]: [str(v)] on strings, ObjectIds, integers,
    booleans and [None]; the other values are not rendered. *)
Definition str_of_value (v : value) : string :=
  match v with
  | VStr s => s
  | VObjectId oid => oid
  | VInt z => NilZero.string_of_int (Z.to_int z)
  | VBool true => "True"
  | VBool false => "False"
  | VNone => "None"
  | _ => ""
  end.

Definition stored3 : list document :=
  [ ("_id", VObjectId "65a000000000000000000001") :: undated;
    ("_id", VObjectId "65a000000000000000000002") :: day1;
    ("_id", VObjectId "65a000000000000000000003") :: day2 ].

(** The field constraints of the data model. *)
Definition field_constraints (i : schemas.Incident) : Prop :=
  In (schemas.type i) schemas.TYPES /\
  In (schemas.severity i) schemas.SEVERITIES /\
  In (schemas.status i) schemas.STATUSES /\
  (forall f, schemas.latitude i = Some f ->
             ((-90) <=? f)%float = true /\ (f <=? 90)%float = true) /\
  (forall f, schemas.longitude i = Some f ->
             ((-180) <=? f)%float = true /\ (f <=? 180)%float = true) /\
  (forall f, schemas.response_minutes i = Some f -> (0 <=? f)%float = true).

(** Pydantic with no conversion beyond the exact types. *)
Definition no_lax {A : Type} (v : value) : option A := None.

(** An in-memory store of incidents for the worked examples: the
    inserted id is the position of the new incident. *)
Definition memory_create_document (collection : string) (inc : schemas.Incident)
    (st : list schemas.Incident) : result string * list schemas.Incident :=
  (Ok (NilZero.string_of_uint (Nat.to_uint (List.length st))), st ++ [inc]).

(** A stand-in for [isoformat] in the worked examples: the datetime's
    microsecond count in decimal. *)
Definition microsecond_stamp (t : Z) : string := NilZero.string_of_int (Z.to_int t).

Definition example_draw : draw :=
  {| d_type := "burglary"; d_severity := "high"; d_status := "on_scene";
     d_when := 90; d_report := 15; d_response := 7; d_incident := 123456;
     d_lat := 37.7749296%float; d_lon := (-122.4194157)%float;
     d_precinct := "North"; d_officer := 4711 |}.

(** * Vocabulary of the further properties *)

(** The binding a non-empty query parameter adds to the filters. *)
Definition filter_binding (name : string) (p : option string) : document :=
  match p with
  | Some s => if String.eqb s "" then [] else [(name, VStr s)]
  | None => []
  end.

(** The kinds of values [<] orders among themselves: numbers (booleans
    included), strings, ObjectIds, datetimes and lists.  [None] and
    embedded documents are ordered with nothing. *)
Inductive kind : Type :=
| KNumber
| KString
| KObjectId
| KDatetime
| KList.

Definition kind_of (v : value) : option kind :=
  match v with
  | VBool _ | VInt _ | VFloat _ => Some KNumber
  | VStr _ => Some KString
  | VObjectId _ => Some KObjectId
  | VDatetime _ => Some KDatetime
  | VList _ => Some KList
  | VNone | VDict _ => None
  end.

(** The records that carry the timestamp [t], in list order. *)
Definition with_timestamp (t : string) (l : list document) : list document :=
  filter (fun d => String.eqb (timestamp d) t) l.

(** No two keys of the mapping are equal: each key is stored once. *)
Definition keys_distinct (d : pydict) : Prop :=
  ForallOrdPairs (fun a b => py_eq (fst a) (fst b) = false) d.

(** A well-formed count mapping: hashable keys, each stored once, every
    count at least 1. *)
Definition counts_well_formed (d : pydict) : Prop :=
  Forall (fun kv => hashable (fst kv) = true /\ 1 <= snd kv) d /\ keys_distinct d.

(** An in-memory store that holds at most [capacity] incidents: a
    further insertion raises and leaves the store as it is. *)
Definition bounded_create_document (capacity : nat) (collection : string)
    (inc : schemas.Incident) (st : list schemas.Incident)
    : result string * list schemas.Incident :=
  if (List.length st <? capacity)%nat then memory_create_document collection inc st
  else (Raise (StoreError "store is full"), st).

(** The incident every iteration builds from [example_draw] at the
    example time. *)
Definition example_incident : schemas.Incident :=
  {| schemas.incident_id := Some "INC-123456";
     schemas.type := "burglary";
     schemas.description := Some "Random burglary incident";
     schemas.severity := "high";
     schemas.status := "on_scene";
     schemas.latitude := Some 37.77493%float;
     schemas.longitude := Some (-122.419416)%float;
     schemas.occurred_at := Some "1699994600000000";
     schemas.reported_at := Some "1699995500000000";
     schemas.response_minutes := Some 7%float;
     schemas.precinct := Some "North";
     schemas.officer_id := Some "4711" |}.

(** * The diagnostic endpoint and the example schemas *)

(** ** [test_database] (main.py 27-58) *)

(** What the endpoint uses of [database.db]: its [name], when it has
    one, and the outcome of [list_collection_names()]. *)
Record db_handle : Type := {
  db_name : option string;
  list_collection_names : result (list string)
}.

(** The [response] dictionary: its six keys never change, only their
    values are assigned. *)
Record diagnostics : Type := {
  backend : string;
  database : string;
  database_url : option string;
  database_name : option string;
  connection_status : string;
  collections : list string
}.

Definition set_database (r : diagnostics) (v : string) : diagnostics :=
  {| backend := backend r; database := v; database_url := database_url r;
     database_name := database_name r; connection_status := connection_status r;
     collections := collections r |}.

Definition set_database_url (r : diagnostics) (v : string) : diagnostics :=
  {| backend := backend r; database := database r; database_url := Some v;
     database_name := database_name r; connection_status := connection_status r;
     collections := collections r |}.

Definition set_database_name (r : diagnostics) (v : string) : diagnostics :=
  {| backend := backend r; database := database r; database_url := database_url r;
     database_name := Some v; connection_status := connection_status r;
     collections := collections r |}.

Definition set_connection_status (r : diagnostics) (v : string) : diagnostics :=
  {| backend := backend r; database := database r; database_url := database_url r;
     database_name := database_name r; connection_status := v;
     collections := collections r |}.

Definition set_collections (r : diagnostics) (v : list string) : diagnostics :=
  {| backend := backend r; database := database r; database_url := database_url r;
     database_name := database_name r; connection_status := connection_status r;
     collections := v |}.

Section Diagnostics.

(** [database.db]: [None] or a handle. *)
Variable db : option db_handle.

(** [os.getenv]. *)
Variable getenv : string -> option string.

(** The first 50 characters of [str(e)]. *)
Variable short_text : exn -> string.

(** The outer [try] guards assignments, [hasattr] and the attribute
    read only; its handler is reached by none of the modelled
    operations. *)
Definition test_database : diagnostics :=
  let response :=
    {| backend := "✅ Running";
       database := "❌ Not Available";
       database_url := None;
       database_name := None;
       connection_status := "Not Connected";
       collections := [] |} in
  let response :=
    match db with
    | Some h =>
        let response := set_database response "✅ Available" in
        let response := set_database_url response "✅ Configured" in
        let response :=
          set_database_name response
            (match db_name h with Some n => n | None => "✅ Connected" end) in
        let response := set_connection_status response "Connected" in
        match list_collection_names h with
        | Ok names =>
            let response := set_collections response (firstn 10 names) in
            set_database response "✅ Connected & Working"
        | Raise e =>
            set_database response ("⚠️  Connected but Error: " ++ short_text e)%string
        end
    | None => set_database response "⚠️  Available but not initialized"
    end in
  let response :=
    set_database_url response
      (if truthy (getenv "DATABASE_URL") then "✅ Set" else "❌ Not Set") in
  let response :=
    set_database_name response
      (if truthy (getenv "DATABASE_NAME") then "✅ Set" else "❌ Not Set") in
  response.

End Diagnostics.

(** ** [User] and [Product] (schemas.py 19-39) *)

Module example_schemas.

Record User : Type := {
  name : string;
  email : string;
  address : string;
  age : option Z;
  is_active : bool
}.

Record Product : Type := {
  title : string;
  description : option string;
  price : float;
  category : string;
  in_stock : bool
}.

Section Validation.

(** What pydantic converts beyond the exact types, as for [Incident];
    [lax_int] and [lax_bool] are asked about values that are not an
    [int], respectively not a [bool]. *)
Variable lax_str : value -> option string.
Variable lax_float : value -> option float.
Variable lax_int : value -> option Z.
Variable lax_bool : value -> option bool.

(** [str = Field(...)]: required, and [None] is not a string. *)
Definition required_str (v : option value) : result string :=
  match v with
  | None | Some VNone => Raise ValidationError
  | Some (VStr s) => Ok s
  | Some x =>
      match lax_str x with
      | Some s => Ok s
      | None => Raise ValidationError
      end
  end.

Definition to_int (x : value) : result Z :=
  match x with
  | VInt z => Ok z
  | _ =>
      match lax_int x with
      | Some z => Ok z
      | None => Raise ValidationError
      end
  end.

(** [Optional[int] = Field(None, ge=..., le=...)]. *)
Definition optional_int (ge le : Z) (v : option value) : result (option Z) :=
  match v with
  | None | Some VNone => Ok None
  | Some x =>
      z <- to_int x ;;
      if (ge <=? z) && (z <=? le) then Ok (Some z) else Raise ValidationError
  end.

(** [bool = Field(default)]. *)
Definition bool_field (default : bool) (v : option value) : result bool :=
  match v with
  | None => Ok default
  | Some (VBool b) => Ok b
  | Some VNone => Raise ValidationError
  | Some x =>
      match lax_bool x with
      | Some b => Ok b
      | None => Raise ValidationError
      end
  end.

(** [float = Field(..., ge=...)]. *)
Definition required_float (ge : Z) (v : option value) : result float :=
  match v with
  | None | Some VNone => Raise ValidationError
  | Some x =>
      f <- schemas.to_float lax_float x ;;
      if schemas.ge_ok (Some ge) f then Ok f else Raise ValidationError
  end.

Definition new_User (fields : document) : result User :=
  name <- required_str (assoc_get fields "name") ;;
  email <- required_str (assoc_get fields "email") ;;
  address <- required_str (assoc_get fields "address") ;;
  age <- optional_int 0 120 (assoc_get fields "age") ;;
  is_active <- bool_field true (assoc_get fields "is_active") ;;
  Ok {| name := name; email := email; address := address; age := age;
        is_active := is_active |}.

Definition new_Product (fields : document) : result Product :=
  title <- required_str (assoc_get fields "title") ;;
  description <- schemas.optional_str lax_str (assoc_get fields "description") ;;
  price <- required_float 0 (assoc_get fields "price") ;;
  category <- required_str (assoc_get fields "category") ;;
  in_stock <- bool_field true (assoc_get fields "in_stock") ;;
  Ok {| title := title; description := description; price := price;
        category := category; in_stock := in_stock |}.

End Validation.

End example_schemas.

(** The field is given and not null. *)
Definition given (fields : document) (k : string) : Prop :=
  exists v, assoc_get fields k = Some v /\ v <> VNone.

(** * Inputs of the further examples *)

(** The listing of [stored3]. *)
Definition listed3 : list document :=
  [ day2 ++ [("id", VStr "65a000000000000000000003")];
    day1 ++ [("id", VStr "65a000000000000000000002")];
    undated ++ [("id", VStr "65a000000000000000000001")] ].

(** A record whose [reported_at] is a number. *)
Definition numeric_dated : document := [("reported_at", VInt 20240101)].

(** Two thefts of the same day around a later record. *)
Definition theft_a : document := [("type", VStr "theft"); ("reported_at", VStr "2024-01-01")].
Definition theft_b : document := [("type", VStr "theft"); ("reported_at", VStr "2024-01-01");
                                  ("precinct", VStr "North")].

(** A record whose response time is stored as NaN. *)
Definition nan_doc : document := [("response_minutes", VFloat nan)].

(** * Proofs *)

(** ** Facts about the mappings *)

Lemma plain_key_none : plain_key VNone.
Proof.
  repeat split; intros x H; destruct x; simpl in H; try discriminate; reflexivity.
Qed.

Lemma plain_key_str (s : string) : plain_key (VStr s).
Proof.
  repeat split.
  - intros x H; destruct x; simpl in H; try discriminate.
    apply String.eqb_eq in H. now subst.
  - intros x H; destruct x; simpl in H; try discriminate.
    apply String.eqb_eq in H. now subst.
  - simpl. apply String.eqb_refl.
Qed.

Lemma pydict_sum_store (d : pydict) (k : value) :
  pydict_sum (pydict_store d k (label_count d k + 1)) = pydict_sum d + 1.
Proof.
  unfold label_count.
  induction d as [|[k' v'] d IH]; simpl.
  - lia.
  - destruct (py_eq k' k); simpl.
    + lia.
    + rewrite IH. lia.
Qed.

Lemma label_count_store (d : pydict) (t k : value) :
  plain_key k ->
  label_count (pydict_store d t (label_count d t + 1)) k
  = label_count d k + (if py_eq t k then 1 else 0).
Proof.
  intros (P1 & P2 & P3).
  unfold label_count.
  induction d as [|[k' v'] d IH]; simpl.
  - destruct (py_eq t k); reflexivity.
  - destruct (py_eq k' t) eqn:Et; simpl.
    + destruct (py_eq k' k) eqn:Ek.
      * apply P1 in Ek. subst k'. apply P2 in Et. subst t. rewrite P3. reflexivity.
      * destruct (py_eq t k) eqn:Etk; [|lia].
        apply P1 in Etk. subst t. congruence.
    + destruct (py_eq k' k) eqn:Ek.
      * apply P1 in Ek. subst k'.
        destruct (py_eq t k) eqn:Etk; [|lia].
        apply P1 in Etk. subst t. congruence.
      * apply IH.
Qed.

(** ** The aggregation loop, one document at a time *)

Lemma in_str_set_open (d : document) :
  hashable (get_or_none d "status") = true ->
  in_str_set (get_or_none d "status") open_statuses = Ok (has_open_status d).
Proof.
  unfold in_str_set, has_open_status, get_or_none, get_default.
  intros H. rewrite H. f_equal.
  destruct (assoc_get d "status") as [v|]; [|reflexivity].
  destruct v; try reflexivity; try discriminate.
  simpl. rewrite !(String.eqb_sym s). now rewrite orb_false_r, orb_assoc.
Qed.

Section LoopFacts.

Variable float_of_str : string -> option float.

Lemma loop_body_eq (l : locals) (d : document) :
  loop_body float_of_str l d =
  if labels_hashable d then
    if supplies_response d then
      x <- py_float float_of_str (get_or_none d "response_minutes") ;;
      Ok (next_locals l d (Some x))
    else Ok (next_locals l d None)
  else Raise TypeError.
Proof.
  unfold loop_body, labels_hashable, pydict_get, pydict_setitem.
  destruct (hashable (get_default d "type" (VStr "other"))) eqn:Ht; simpl; [|reflexivity].
  destruct (hashable (get_default d "severity" (VStr "medium"))) eqn:Hs; simpl; [|reflexivity].
  destruct (hashable (get_or_none d "status")) eqn:Hst; simpl.
  - rewrite (in_str_set_open d Hst). simpl.
    unfold supplies_response, get_or_none, get_default.
    destruct (assoc_get d "response_minutes") as [v|]; [|reflexivity].
    destruct v; reflexivity.
  - unfold in_str_set. rewrite Hst. reflexivity.
Qed.

Lemma loop_app (docs1 docs2 : list document) (l : locals) :
  loop float_of_str (docs1 ++ docs2) l =
  (l' <- loop float_of_str docs1 l ;; loop float_of_str docs2 l').
Proof.
  revert l. induction docs1 as [|d docs1 IH]; intros l; simpl.
  - reflexivity.
  - destruct (loop_body float_of_str l d); simpl; [apply IH|reflexivity].
Qed.

(** What a completed loop leaves in the locals. *)
Lemma loop_ok_inv (docs : list document) (l l' : locals) :
  loop float_of_str docs l = Ok l' ->
  pydict_sum (l_by_type l') = pydict_sum (l_by_type l) + Z.of_nat (List.length docs) /\
  pydict_sum (l_by_severity l') = pydict_sum (l_by_severity l) + Z.of_nat (List.length docs) /\
  open_cases l' = open_cases l + count_docs has_open_status docs /\
  response_count l' = response_count l + count_docs supplies_response docs /\
  forallb labels_hashable docs = true.
Proof.
  revert l. induction docs as [|d docs IH]; intros l H.
  - simpl in H. injection H as <-. unfold count_docs. simpl. repeat split; lia.
  - simpl in H. rewrite loop_body_eq in H.
    destruct (labels_hashable d) eqn:Hh; [|discriminate].
    assert (Hn : exists x, loop float_of_str docs (next_locals l d x) = Ok l' /\
                           (supplies_response d = true <-> x <> None)).
    { destruct (supplies_response d).
      - destruct (py_float float_of_str (get_or_none d "response_minutes")) as [x|]; [|discriminate].
        exists (Some x). split; [exact H|]. split; congruence.
      - exists None. split; [exact H|]. split; congruence. }
    destruct Hn as (x & Hl & Hx).
    apply IH in Hl. destruct Hl as (H1 & H2 & H3 & H4 & H5).
    cbn [next_locals l_by_type l_by_severity open_cases response_count] in H1, H2, H3, H4.
    rewrite pydict_sum_store in H1, H2.
    unfold count_docs in *. cbn [filter forallb]. rewrite Hh, H5.
    repeat split.
    + cbn [List.length]. lia.
    + cbn [List.length]. lia.
    + destruct (has_open_status d); cbn [List.length]; lia.
    + destruct (supplies_response d), x; cbn [List.length]; try lia.
      * exfalso. apply (proj1 Hx); reflexivity.
      * exfalso. assert (false = true) by (apply Hx; discriminate). discriminate.
Qed.

End LoopFacts.

(** ** Claims about the summary *)

Section SummaryClaims.

Variable float_of_str : string -> option float.

(** C7: for the empty record sequence the aggregation returns exactly
    total 0, open 0, a null average and two empty mappings. *)
Theorem aggregate_empty :
  aggregate float_of_str [] =
  Ok {| total := 0; open := 0; avg_response_minutes := None;
        by_type := []; by_severity := [] |}.
Proof. reflexivity. Qed.

Lemma aggregate_inv (docs : list document) (s : summary) :
  aggregate float_of_str docs = Ok s ->
  exists l,
    loop float_of_str docs init_locals = Ok l /\
    average l = Ok (avg_response_minutes s) /\
    total s = Z.of_nat (List.length docs) /\
    open s = open_cases l /\
    by_type s = l_by_type l /\
    by_severity s = l_by_severity l.
Proof.
  unfold aggregate. intros H.
  destruct (loop float_of_str docs init_locals) as [l|] eqn:Hl; [|discriminate].
  simpl in H. destruct (average l) as [a|] eqn:Ha; [|discriminate].
  simpl in H. injection H as <-. exists l. simpl. repeat split; auto.
Qed.

(** C1: whenever the aggregation returns a summary, its total is the
    number of input records, and the counts of by_type, and those of
    by_severity, add up to the total. *)
Theorem summary_counts_add_up (docs : list document) (s : summary) :
  aggregate float_of_str docs = Ok s ->
  total s = Z.of_nat (List.length docs) /\
  pydict_sum (by_type s) = total s /\
  pydict_sum (by_severity s) = total s.
Proof.
  intros H. apply aggregate_inv in H.
  destruct H as (l & Hl & _ & Ht & _ & Hbt & Hbs).
  apply loop_ok_inv in Hl. destruct Hl as (H1 & H2 & _).
  rewrite Ht, Hbt, Hbs, H1, H2. simpl. auto.
Qed.

(** C2: the open field counts exactly the records whose status is one
    of the strings reported, dispatched, on_scene, compared exactly; a
    record without status or with status closed is not among them, one
    with status dispatched is, and a differently cased spelling is not. *)
Theorem open_counts_open_statuses (docs : list document) (s : summary) :
  aggregate float_of_str docs = Ok s ->
  open s = count_docs has_open_status docs /\
  (forall d, assoc_get d "status" = None -> has_open_status d = false) /\
  (forall d, assoc_get d "status" = Some (VStr "closed") -> has_open_status d = false) /\
  (forall d, assoc_get d "status" = Some (VStr "dispatched") -> has_open_status d = true) /\
  (forall d, assoc_get d "status" = Some (VStr "Dispatched") -> has_open_status d = false).
Proof.
  intros H. apply aggregate_inv in H.
  destruct H as (l & Hl & _ & _ & Ho & _).
  apply loop_ok_inv in Hl. destruct Hl as (_ & _ & H3 & _).
  split; [rewrite Ho, H3; reflexivity|].
  unfold has_open_status.
  repeat split; intros d Hd; rewrite Hd; reflexivity.
Qed.

(** How often a plain key labels the documents, as the loop counts it. *)
Lemma loop_label_counts (k : value) (docs : list document) (l l' : locals) :
  plain_key k ->
  loop float_of_str docs l = Ok l' ->
  label_count (l_by_type l') k =
    label_count (l_by_type l) k +
    count_docs (fun d => py_eq (get_default d "type" (VStr "other")) k) docs /\
  label_count (l_by_severity l') k =
    label_count (l_by_severity l) k +
    count_docs (fun d => py_eq (get_default d "severity" (VStr "medium")) k) docs.
Proof.
  intros Hk. revert l. induction docs as [|d docs IH]; intros l H.
  - simpl in H. injection H as <-. unfold count_docs. simpl. lia.
  - simpl in H. rewrite loop_body_eq in H.
    destruct (labels_hashable d); [|discriminate].
    assert (Hn : exists x, loop float_of_str docs (next_locals l d x) = Ok l').
    { destruct (supplies_response d).
      - destruct (py_float float_of_str (get_or_none d "response_minutes")) as [x|]; [|discriminate].
        now exists (Some x).
      - now exists None. }
    destruct Hn as (x & Hl). apply IH in Hl. destruct Hl as (H1 & H2).
    cbn [next_locals l_by_type l_by_severity] in H1, H2.
    rewrite (label_count_store _ _ _ Hk) in H1.
    rewrite (label_count_store _ _ _ Hk) in H2.
    unfold count_docs in *. cbn [filter].
    split.
    + destruct (py_eq (get_default d "type" (VStr "other")) k); cbn [List.length]; lia.
    + destruct (py_eq (get_default d "severity" (VStr "medium")) k); cbn [List.length]; lia.
Qed.

Lemma count_docs_ext (p q : document -> bool) (docs : list document) :
  (forall d, p d = q d) -> count_docs p docs = count_docs q docs.
Proof.
  intros H. unfold count_docs. f_equal. f_equal.
  induction docs as [|d docs IH]; simpl; [reflexivity|].
  rewrite H, IH. reflexivity.
Qed.

(** The counts a completed loop holds under None and under the default labels. *)
Lemma loop_default_labels (docs : list document) (l : locals) :
  loop float_of_str docs init_locals = Ok l ->
  label_count (l_by_type l) VNone = count_docs (null_field "type") docs /\
  label_count (l_by_type l) (VStr "other") =
    count_docs (fun d => absent_field "type" d || str_field "type" "other" d) docs /\
  label_count (l_by_severity l) VNone = count_docs (null_field "severity") docs /\
  label_count (l_by_severity l) (VStr "medium") =
    count_docs (fun d => absent_field "severity" d || str_field "severity" "medium" d) docs.
Proof.
  intros Hl.
  pose proof (loop_label_counts VNone docs _ _ plain_key_none Hl) as (Ht0 & Hs0).
  pose proof (loop_label_counts (VStr "other") docs _ _ (plain_key_str _) Hl) as (Ht1 & _).
  pose proof (loop_label_counts (VStr "medium") docs _ _ (plain_key_str _) Hl) as (_ & Hs1).
  rewrite Ht0, Ht1, Hs0, Hs1. cbn [init_locals l_by_type l_by_severity label_count pydict_lookup].
  repeat split; rewrite Z.add_0_l; apply count_docs_ext; intros d;
    unfold get_default, null_field, absent_field, str_field;
    (destruct (assoc_get d _) as [v|]; [destruct v; reflexivity|reflexivity]).
Qed.

(** C10: a record whose type (severity) is present and null is counted
    under the key None; the default label other (medium) counts the
    records where the key is absent, besides those that spell it. *)
Theorem null_label_counted_under_none (docs : list document) (s : summary) :
  aggregate float_of_str docs = Ok s ->
  label_count (by_type s) VNone = count_docs (null_field "type") docs /\
  label_count (by_type s) (VStr "other") =
    count_docs (fun d => absent_field "type" d || str_field "type" "other" d) docs /\
  label_count (by_severity s) VNone = count_docs (null_field "severity") docs /\
  label_count (by_severity s) (VStr "medium") =
    count_docs (fun d => absent_field "severity" d || str_field "severity" "medium" d) docs.
Proof.
  intros H. apply aggregate_inv in H.
  destruct H as (l & Hl & _ & _ & _ & Hbt & Hbs).
  rewrite Hbt, Hbs. now apply loop_default_labels.
Qed.

End SummaryClaims.

(** ** Worked examples *)

(** The counts of the example summary add up to its total. *)
Lemma summary_counts_add_up_example :
  aggregate float_of_digits example_docs = Ok example_summary /\
  (total example_summary = Z.of_nat (List.length example_docs) /\
   pydict_sum (by_type example_summary) = total example_summary /\
   pydict_sum (by_severity example_summary) = total example_summary).
Proof.
  split; [vm_compute; reflexivity|].
  apply (summary_counts_add_up float_of_digits example_docs example_summary).
  vm_compute. reflexivity.
Defined.

(** One example record is open: the dispatched one. *)
Lemma open_counts_open_statuses_example :
  aggregate float_of_digits example_docs = Ok example_summary /\
  open example_summary = count_docs has_open_status example_docs.
Proof.
  split; [vm_compute; reflexivity|].
  apply (open_counts_open_statuses float_of_digits example_docs example_summary).
  vm_compute. reflexivity.
Defined.

(** The example record with a null type is counted under None. *)
Lemma null_label_counted_under_none_example :
  aggregate float_of_digits example_docs = Ok example_summary /\
  label_count (by_type example_summary) VNone = count_docs (null_field "type") example_docs.
Proof.
  split; [vm_compute; reflexivity|].
  apply (null_label_counted_under_none float_of_digits example_docs example_summary).
  vm_compute. reflexivity.
Defined.

(** ** The average response time *)

Section AverageClaims.

Variable float_of_str : string -> option float.

Lemma supplied_cons (d : document) (docs : list document) :
  supplied (d :: docs) =
  if supplies_response d then get_or_none d "response_minutes" :: supplied docs
  else supplied docs.
Proof.
  unfold supplied. simpl. destruct (supplies_response d); reflexivity.
Qed.

(** The loop adds the converted values up from left to right. *)
Lemma loop_response (docs : list document) (l l' : locals) :
  loop float_of_str docs l = Ok l' ->
  exists xs,
    floats_of float_of_str (supplied docs) = Ok xs /\
    response_sum l' = fold_left PrimFloat.add xs (response_sum l) /\
    response_count l' = response_count l + Z.of_nat (List.length xs).
Proof.
  revert l. induction docs as [|d docs IH]; intros l H.
  - simpl in H. injection H as <-. exists []. simpl. repeat split; lia.
  - simpl in H. rewrite loop_body_eq in H. rewrite supplied_cons.
    destruct (labels_hashable d); [|discriminate].
    destruct (supplies_response d).
    + destruct (py_float float_of_str (get_or_none d "response_minutes")) as [x|] eqn:Hx;
        [|discriminate].
      simpl in H. apply IH in H. destruct H as (xs & H1 & H2 & H3).
      exists (x :: xs). simpl. rewrite Hx. simpl. rewrite H1. simpl.
      cbn [next_locals response_sum response_count] in H2, H3.
      repeat split; [exact H2|]. rewrite H3. lia.
    + apply IH in H. destruct H as (xs & H1 & H2 & H3).
      exists xs. cbn [next_locals response_sum response_count] in H2, H3. auto.
Qed.

Lemma floats_of_length (vs : list value) (xs : list float) :
  floats_of float_of_str vs = Ok xs -> List.length xs = List.length vs.
Proof.
  revert xs. induction vs as [|v vs IH]; intros xs H; simpl in H.
  - injection H as <-. reflexivity.
  - destruct (py_float float_of_str v); [|discriminate]. simpl in H.
    destruct (floats_of float_of_str vs) as [ys|]; [|discriminate].
    simpl in H. injection H as <-. simpl. f_equal. now apply IH.
Qed.

Lemma floats_of_In (vs : list value) (xs : list float) (v : value) :
  floats_of float_of_str vs = Ok xs -> In v vs ->
  exists x, py_float float_of_str v = Ok x.
Proof.
  revert xs. induction vs as [|w vs IH]; intros xs H Hin; simpl in H.
  - destruct Hin.
  - destruct (py_float float_of_str w) as [x|] eqn:Hw; [|discriminate]. simpl in H.
    destruct (floats_of float_of_str vs) as [ys|]; [|discriminate].
    destruct Hin as [<-|Hin]; [now exists x|]. now apply (IH ys).
Qed.

(** C3, as amended: the average is null exactly when no record
    supplies a response_minutes; every supplied value is one float()
    converts; and a non-null average is round(sum / count, 2) computed
    on binary64 floats, the sum taken left to right.  For response
    minutes 10, 15, 20 it is the float 15.0, for 10, 15 it is 12.5. *)
Theorem average_is_rounded_float_quotient (docs : list document) (s : summary) :
  aggregate float_of_str docs = Ok s ->
  (avg_response_minutes s = None <-> count_docs supplies_response docs = 0) /\
  (exists xs,
     floats_of float_of_str (supplied docs) = Ok xs /\
     forall r, avg_response_minutes s = Some r ->
       exists c, int_to_float (Z.of_nat (List.length xs)) = Ok c /\
                 py_round (fold_left PrimFloat.add xs 0%float / c)%float 2 = Ok r) /\
  (exists s3, aggregate float_of_str [rm 10; rm 15; rm 20] = Ok s3 /\
              avg_response_minutes s3 = Some 15%float) /\
  (exists s2, aggregate float_of_str [rm 10; rm 15] = Ok s2 /\
              avg_response_minutes s2 = Some 12.5%float).
Proof.
  intros H. apply aggregate_inv in H.
  destruct H as (l & Hl & Ha & _).
  pose proof (loop_ok_inv _ _ _ _ Hl) as (_ & _ & _ & Hc & _).
  pose proof (loop_response _ _ _ Hl) as (xs & Hxs & Hsum & Hcnt).
  cbn [init_locals response_sum response_count] in Hc, Hsum, Hcnt.
  unfold average in Ha.
  split; [|split; [|split]].
  - destruct (response_count l =? 0) eqn:E.
    + apply Z.eqb_eq in E. injection Ha as <-. split; [lia|reflexivity].
    + apply Z.eqb_neq in E.
      destruct (int_to_float (response_count l)); [|discriminate]. simpl in Ha.
      destruct (py_round _ 2); [|discriminate]. simpl in Ha. injection Ha as <-.
      split; [discriminate|lia].
  - exists xs. split; [exact Hxs|]. intros r Hr. rewrite Hr in Ha.
    destruct (response_count l =? 0); [discriminate|].
    rewrite Hcnt, Z.add_0_l in Ha.
    destruct (int_to_float (Z.of_nat (List.length xs))) as [c|]; [|discriminate].
    simpl in Ha. exists c. split; [reflexivity|].
    rewrite <- Hsum. destruct (py_round _ 2) as [r'|]; [|discriminate].
    simpl in Ha. injection Ha as ->. reflexivity.
  - eexists. split; vm_compute; reflexivity.
  - eexists. split; vm_compute; reflexivity.
Qed.

End AverageClaims.

(** C3 as stated fails: for twenty-seven records with 3 minutes and
    thirteen with 2 the mean is 107/40 = 2.675, which rounds to 2.68
    (ties to even and ties away from zero agree here); the code returns
    2.67, the rounding of the double nearest 2.675, which lies below
    the tie. *)
Lemma average_differs_from_rounded_mean :
  aggregate float_of_digits docs40 =
    Ok {| total := 40; open := 0; avg_response_minutes := Some 2.67%float;
          by_type := [(VStr "other", 40)]; by_severity := [(VStr "medium", 40)] |} /\
  option_map exact_mean (exact_values float_of_digits (supplied docs40)) = Some (107 # 40)%Q /\
  mean_rounded_to_2_places float_of_digits docs40 = Some 2.68%float /\
  (2.67 <? 2.68)%float = true.
Proof.
  repeat split; vm_compute; reflexivity.
Qed.

(** The example documents supply three values, and the average is not null. *)
Lemma average_is_rounded_float_quotient_example :
  aggregate float_of_digits example_docs = Ok example_summary /\
  (avg_response_minutes example_summary = None <->
   count_docs supplies_response example_docs = 0).
Proof.
  split; [vm_compute; reflexivity|].
  apply (average_is_rounded_float_quotient float_of_digits example_docs example_summary).
  vm_compute. reflexivity.
Defined.

(** ** Failures of the aggregation *)

Section FailureClaims.

Variable float_of_str : string -> option float.
Variable get_documents : string -> document -> option Z -> result (list document).

Lemma loop_raises (docs : list document) :
  Exists (doc_raises float_of_str) docs -> forall l, exists e, loop float_of_str docs l = Raise e.
Proof.
  induction 1 as [d docs Hd|d docs _ IH]; intros l; simpl; rewrite loop_body_eq.
  - destruct Hd as [Hh|(Hs & e & He)].
    + rewrite Hh. now exists TypeError.
    + rewrite Hs, He. destruct (labels_hashable d); simpl; eauto.
  - destruct (labels_hashable d); [|now exists TypeError].
    destruct (supplies_response d).
    + destruct (py_float float_of_str (get_or_none d "response_minutes")); simpl; eauto.
    + simpl. apply IH.
Qed.

Lemma loop_completes (docs : list document) :
  forallb labels_hashable docs = true ->
  (forall v, In v (supplied docs) -> exists x, py_float float_of_str v = Ok x) ->
  forall l, exists l', loop float_of_str docs l = Ok l'.
Proof.
  induction docs as [|d docs IH]; intros Hh Hv l; simpl.
  - now exists l.
  - simpl in Hh. apply andb_true_iff in Hh. destruct Hh as (Hd & Hh).
    rewrite loop_body_eq, Hd. rewrite supplied_cons in Hv.
    destruct (supplies_response d).
    + destruct (Hv (get_or_none d "response_minutes")) as (x & Hx); [now left|].
      rewrite Hx. simpl. apply IH; [exact Hh|]. intros v Hin. apply Hv. now right.
    + apply IH; assumption.
Qed.

Lemma forallb_false_Exists {A : Type} (p : A -> bool) (l : list A) :
  forallb p l = false -> Exists (fun x => p x = false) l.
Proof.
  induction l as [|x l IH]; simpl; [discriminate|].
  destruct (p x) eqn:E; simpl; intros H.
  - right. now apply IH.
  - now left.
Qed.

Lemma endpoint_on (precinct period : option string) (docs : list document) :
  get_documents "incident" (summary_filters precinct) None = Ok docs ->
  analytics_summary float_of_str get_documents precinct period =
  try_500 (aggregate float_of_str docs).
Proof.
  intros H. unfold analytics_summary. rewrite H. reflexivity.
Qed.

End FailureClaims.

(** C6 as stated fails: a record whose type is a list (and which has no
    response_minutes at all) makes the aggregation raise TypeError, and
    the endpoint answers HTTP 500 instead of tolerating the field. *)
Lemma unhashable_type_is_http_500 :
  aggregate float_of_digits [[("type", VList [VStr "theft"])]] = Raise TypeError /\
  analytics_summary float_of_digits
    (memory_get_documents [[("type", VList [VStr "theft"])]]) None (Some "7d")
  = HTTPException 500 TypeError.
Proof.
  split; vm_compute; reflexivity.
Qed.

(** ** Order of strings *)

Lemma ascii_compare_lt (a b : ascii) :
  Ascii.compare a b = Lt <-> (N_of_ascii a < N_of_ascii b)%N.
Proof. unfold Ascii.compare. apply N.compare_lt_iff. Qed.

Lemma string_compare_lt_trans (a b c : string) :
  String.compare a b = Lt -> String.compare b c = Lt -> String.compare a c = Lt.
Proof.
  revert b c. induction a as [|x a IH]; intros [|y b] [|z c]; simpl; try congruence.
  destruct (Ascii.compare x y) eqn:Exy; try discriminate.
  - apply Ascii.compare_eq_iff in Exy. subst y.
    destruct (Ascii.compare x z); try congruence. apply IH.
  - intros _. destruct (Ascii.compare y z) eqn:Eyz; try discriminate.
    + apply Ascii.compare_eq_iff in Eyz. subst z. now rewrite Exy.
    + intros _. apply (proj1 (ascii_compare_lt _ _)) in Exy.
      apply (proj1 (ascii_compare_lt _ _)) in Eyz.
      assert (H : Ascii.compare x z = Lt) by (apply ascii_compare_lt; lia).
      now rewrite H.
Qed.

Lemma string_ltb_asym (a b : string) :
  String.ltb a b = true -> String.ltb b a = false.
Proof.
  unfold String.ltb. intros H. rewrite (String.compare_antisym b a).
  destruct (String.compare a b); simpl; congruence.
Qed.

(** Not-less-than, the order of a descending list, is transitive. *)
Lemma string_ge_trans (a b c : string) :
  String.ltb a b = false -> String.ltb b c = false -> String.ltb a c = false.
Proof.
  unfold String.ltb. intros Hab Hbc.
  destruct (String.compare a b) eqn:Eab; try discriminate.
  - apply String.compare_eq_iff in Eab. now subst b.
  - destruct (String.compare b c) eqn:Ebc; try discriminate.
    + apply String.compare_eq_iff in Ebc. subst c. now rewrite Eab.
    + assert (Hca : String.compare c a = Lt).
      { apply (string_compare_lt_trans c b a).
        - rewrite String.compare_antisym, Ebc. reflexivity.
        - rewrite String.compare_antisym, Eab. reflexivity. }
      rewrite String.compare_antisym, Hca. reflexivity.
Qed.

Lemma string_ltb_empty (s : string) : String.ltb "" s = false -> s = "".
Proof. destruct s; [reflexivity|discriminate]. Qed.

(** ** The listing sort *)

Lemma py_lt_none_l (b : value) : py_lt VNone b = Raise TypeError.
Proof. destruct b; reflexivity. Qed.

Lemma py_lt_none_r (a : value) : py_lt a VNone = Raise TypeError.
Proof. destruct a; reflexivity. Qed.

(** [<] raises nothing but [TypeError]. *)
Lemma py_lt_raises_TypeError : forall (a b : value) (e : exn),
  py_lt a b = Raise e -> e = TypeError.
Proof.
  fix IH 1. intros a b e.
  destruct a as [| | | | | | |l|]; destruct b as [| | | | | | |m|]; simpl;
    try (intros H; inversion H; reflexivity).
  revert m. induction l as [|x l IHl]; intros [|y m]; try discriminate.
  destruct (py_eq x y).
  - apply IHl.
  - apply IH.
Qed.

Section SortFacts.

Context {A : Type}.
Variable key : A -> value.

Lemma insert_desc_length (x : A) (l r : list A) :
  insert_desc key x l = Ok r -> List.length r = S (List.length l).
Proof.
  revert r. induction l as [|y l IH]; intros r H; simpl in H.
  - injection H as <-. reflexivity.
  - destruct (py_lt (key x) (key y)) as [[|]|]; simpl in H; try discriminate.
    + destruct (insert_desc key x l) as [r'|]; [|discriminate].
      simpl in H. injection H as <-. simpl. f_equal. now apply IH.
    + injection H as <-. reflexivity.
Qed.

Lemma sort_reverse_length (l r : list A) :
  sort_reverse key l = Ok r -> List.length r = List.length l.
Proof.
  revert r. induction l as [|x l IH]; intros r H; simpl in H.
  - injection H as <-. reflexivity.
  - destruct (sort_reverse key l) as [s|]; [|discriminate]. simpl in H.
    apply insert_desc_length in H. rewrite H. simpl. f_equal. now apply IH.
Qed.

Lemma insert_desc_raises_TypeError (x : A) (l : list A) (e : exn) :
  insert_desc key x l = Raise e -> e = TypeError.
Proof.
  induction l as [|y l IH]; simpl; [discriminate|].
  destruct (py_lt (key x) (key y)) as [[|]|e'] eqn:E; simpl.
  - destruct (insert_desc key x l); simpl; [discriminate|].
    intros H. injection H as <-. now apply IH.
  - discriminate.
  - intros H. injection H as <-. now apply (py_lt_raises_TypeError _ _ _ E).
Qed.

Lemma sort_reverse_raises_TypeError (l : list A) (e : exn) :
  sort_reverse key l = Raise e -> e = TypeError.
Proof.
  induction l as [|x l IH]; simpl; [discriminate|].
  destruct (sort_reverse key l) as [s|e']; simpl.
  - apply insert_desc_raises_TypeError.
  - intros H. injection H as <-. now apply IH.
Qed.

(** A list of two or more elements that was sorted has no [None] key:
    every element went through a comparison. *)
Lemma sort_reverse_ok_no_none (l r : list A) :
  sort_reverse key l = Ok r -> (2 <= List.length l)%nat ->
  Forall (fun a => key a <> VNone) l.
Proof.
  revert r. induction l as [|x l IH]; intros r H Hlen; [simpl in Hlen; lia|].
  simpl in H. destruct (sort_reverse key l) as [s|] eqn:Hs; [|discriminate].
  simpl in H. pose proof (sort_reverse_length _ _ Hs) as Hls.
  destruct s as [|y s]; [simpl in Hls, Hlen; lia|].
  simpl in H. destruct (py_lt (key x) (key y)) as [b|] eqn:Hlt; [|discriminate].
  assert (Hx : key x <> VNone).
  { intros E. rewrite E, py_lt_none_l in Hlt. discriminate. }
  assert (Hy : key y <> VNone).
  { intros E. rewrite E, py_lt_none_r in Hlt. discriminate. }
  constructor; [exact Hx|].
  destruct l as [|z [|z' l]].
  - constructor.
  - simpl in Hs. injection Hs as Hzy _. rewrite Hzy.
    constructor; [exact Hy|constructor].
  - apply (IH (y :: s)); [reflexivity|simpl; lia].
Qed.

Variable skey : A -> string.

Lemma insert_desc_keyed (x : A) (l : list A) :
  keyed key skey x -> Forall (keyed key skey) l ->
  exists r, insert_desc key x l = Ok r /\ Permutation (x :: l) r /\
            (StronglySorted (desc skey) l -> StronglySorted (desc skey) r).
Proof.
  intros Hx. induction l as [|y l IH]; intros Hl.
  - exists [x]. simpl. repeat split; auto. intros _. repeat constructor.
  - inversion Hl as [|? ? Hy Hl']; subst. simpl.
    rewrite Hx, Hy. simpl.
    destruct (String.ltb (skey x) (skey y)) eqn:E.
    + destruct (IH Hl') as (r & Hr & Hp & Hs). rewrite Hr. simpl.
      exists (y :: r). repeat split.
      * eapply perm_trans; [apply perm_swap|]. now apply perm_skip.
      * intros Hsort. inversion Hsort as [|? ? Hsl Hfa]; subst.
        constructor; [now apply Hs|].
        eapply Permutation_Forall; [exact Hp|].
        constructor; [|exact Hfa]. now apply string_ltb_asym.
    + exists (x :: y :: l). repeat split; auto.
      intros Hsort. constructor; [exact Hsort|].
      inversion Hsort as [|? ? Hsl Hfa]; subst.
      constructor; [exact E|].
      eapply Forall_impl; [|exact Hfa]. intros b Hb.
      now apply (string_ge_trans _ (skey y)).
Qed.

Lemma sort_reverse_keyed (l : list A) :
  Forall (keyed key skey) l ->
  exists r, sort_reverse key l = Ok r /\ Permutation l r /\ StronglySorted (desc skey) r.
Proof.
  induction l as [|x l IH]; intros Hl.
  - exists []. simpl. repeat split; auto. constructor.
  - inversion Hl as [|? ? Hx Hl']; subst.
    destruct (IH Hl') as (s & Hs & Hp & Hsort). simpl. rewrite Hs. simpl.
    destruct (insert_desc_keyed x s Hx) as (r & Hr & Hpr & Hsr).
    { eapply Permutation_Forall; [exact Hp|exact Hl']. }
    exists r. repeat split; auto.
    eapply perm_trans; [apply perm_skip; exact Hp|exact Hpr].
Qed.

End SortFacts.

(** ** Claims about the listing *)

Lemma assoc_get_remove_other {A : Type} (d : list (string * A)) (k k' : string) :
  String.eqb k k' = false -> assoc_get (assoc_remove d k) k' = assoc_get d k'.
Proof.
  intros Hk. induction d as [|[j v] d IH]; simpl; [reflexivity|].
  destruct (String.eqb j k) eqn:Ejk.
  - apply String.eqb_eq in Ejk. subst j. rewrite Hk. exact IH.
  - simpl. rewrite IH. reflexivity.
Qed.

Lemma assoc_get_set_other {A : Type} (d : list (string * A)) (k k' : string) (v : A) :
  String.eqb k k' = false -> assoc_get (assoc_set d k v) k' = assoc_get d k'.
Proof.
  intros Hk. induction d as [|[j w] d IH]; simpl.
  - rewrite Hk. reflexivity.
  - destruct (String.eqb j k) eqn:Ejk; simpl.
    + apply String.eqb_eq in Ejk. subst j. rewrite Hk. reflexivity.
    + rewrite IH. reflexivity.
Qed.

Lemma two_members {A : Type} (l : list A) (a b : A) :
  In a l -> In b l -> a <> b -> (2 <= List.length l)%nat.
Proof.
  destruct l as [|x [|y l]]; simpl; intros Ha Hb Hab; try lia.
  destruct Ha as [<-|[]], Hb as [<-|[]]. congruence.
Qed.

Lemma StronglySorted_suffix {A : Type} (R : A -> A -> Prop) (l1 l2 : list A) :
  StronglySorted R (l1 ++ l2) -> StronglySorted R l2.
Proof.
  induction l1 as [|x l1 IH]; simpl; [auto|].
  intros H. inversion H; subst. auto.
Qed.

Section ListingClaims.

Variable py_str : value -> string.
Variable get_documents : string -> document -> option Z -> result (list document).

Lemma rename_id_reported_at (d : document) :
  assoc_get (rename_id py_str d) "reported_at" = assoc_get d "reported_at".
Proof.
  unfold rename_id. destruct (assoc_get d "_id"); [|reflexivity].
  rewrite assoc_get_set_other by reflexivity.
  now rewrite assoc_get_remove_other by reflexivity.
Qed.

Lemma sort_key_rename_id (d : document) :
  sort_key (rename_id py_str d) = sort_key d.
Proof. unfold sort_key, get_default. now rewrite rename_id_reported_at. Qed.

Lemma timestamp_rename_id (d : document) :
  timestamp (rename_id py_str d) = timestamp d.
Proof. unfold timestamp. now rewrite rename_id_reported_at. Qed.

Lemma list_incidents_on (type severity status precinct : option string)
    (limit : Z) (docs : list document) :
  1 <= limit <= 1000 ->
  get_documents "incident" (listing_filters type severity status precinct) (Some limit)
  = Ok docs ->
  list_incidents py_str get_documents type severity status precinct (Some limit)
  = try_500 (list_items py_str docs).
Proof.
  intros Hl Hg. unfold list_incidents.
  replace ((1 <=? limit) && (limit <=? 1000)) with true
    by (symmetry; apply andb_true_iff; split; apply Z.leb_le; lia).
  rewrite Hg. reflexivity.
Qed.

(** C9: when one fetched record has reported_at present with a null
    value and another has a string, the sort raises TypeError and the
    listing answers HTTP 500; the null is the sort key itself, the
    empty-string fallback being used only for an absent key. *)
Theorem null_timestamp_fails_listing
    (type severity status precinct : option string) (limit : Z)
    (docs : list document) (d1 d2 : document) (s : string) :
  1 <= limit <= 1000 ->
  get_documents "incident" (listing_filters type severity status precinct) (Some limit)
  = Ok docs ->
  In d1 docs -> assoc_get d1 "reported_at" = Some VNone ->
  In d2 docs -> assoc_get d2 "reported_at" = Some (VStr s) ->
  list_incidents py_str get_documents type severity status precinct (Some limit)
  = HTTPException 500 TypeError /\
  sort_key d1 = VNone /\
  (forall d, assoc_get d "reported_at" = None -> sort_key d = VStr "").
Proof.
  intros Hl Hg Hin1 Hd1 Hin2 Hd2. rewrite (list_incidents_on _ _ _ _ _ _ Hl Hg).
  assert (Hk1 : sort_key d1 = VNone) by (unfold sort_key, get_default; now rewrite Hd1).
  repeat split; [|exact Hk1|intros d Hd; unfold sort_key, get_default; now rewrite Hd].
  unfold list_items.
  destruct (sort_reverse sort_key (map (rename_id py_str) docs)) as [r|e] eqn:Hs; simpl.
  - exfalso. apply sort_reverse_ok_no_none in Hs.
    + rewrite Forall_forall in Hs.
      apply (Hs (rename_id py_str d1)); [now apply in_map|].
      now rewrite sort_key_rename_id.
    + rewrite length_map. apply (two_members docs d1 d2 Hin1 Hin2). congruence.
  - f_equal. now apply (sort_reverse_raises_TypeError sort_key _ _ Hs).
Qed.

End ListingClaims.

(** The listing of the three stored records, evaluated. *)
Example listing_of_stored3 :
  list_incidents str_of_value (memory_get_documents stored3) None None None None (Some 100)
  = Resp [ day2 ++ [("id", VStr "65a000000000000000000003")];
           day1 ++ [("id", VStr "65a000000000000000000002")];
           undated ++ [("id", VStr "65a000000000000000000001")] ].
Proof. vm_compute. reflexivity. Qed.

(** A dated record and one with a null reported_at: HTTP 500. *)
Lemma null_timestamp_fails_listing_example :
  memory_get_documents [day2; null_dated] "incident"
    (listing_filters None None None None) (Some 100) = Ok [day2; null_dated] /\
  list_incidents str_of_value (memory_get_documents [day2; null_dated])
    None None None None (Some 100) = HTTPException 500 TypeError.
Proof.
  split; [reflexivity|].
  apply (null_timestamp_fails_listing str_of_value (memory_get_documents [day2; null_dated])
           None None None None 100 [day2; null_dated] null_dated day2 "2024-01-02").
  - lia.
  - reflexivity.
  - right. left. reflexivity.
  - reflexivity.
  - left. reflexivity.
  - reflexivity.
Defined.

(** ** Claims about the schema *)

Ltac bind_ok H :=
  match type of H with
  | bind ?r _ = Ok _ =>
      let E := fresh "E" in
      destruct r eqn:E; [cbn [bind] in H | discriminate H]
  end.

Lemma mem_In (s : string) (l : list string) : schemas.mem s l = true -> In s l.
Proof.
  unfold schemas.mem. intros H. apply existsb_exists in H.
  destruct H as (t & Hin & Ht). apply String.eqb_eq in Ht. now subst.
Qed.

Lemma In_mem (s : string) (l : list string) : In s l -> schemas.mem s l = true.
Proof.
  intros H. apply existsb_exists. exists s. split; [exact H|apply String.eqb_refl].
Qed.

Section SchemaFacts.

Variable lax_str : value -> option string.
Variable lax_float : value -> option float.




Lemma literal_ok (allowed : list string) (default : string) (v : option value) (s : string) :
  schemas.literal allowed default v = Ok s ->
  (v = None /\ s = default) \/ (v = Some (VStr s) /\ In s allowed).
Proof.
  unfold schemas.literal. destruct v as [[]|]; try discriminate.
  - destruct (schemas.mem s0 allowed) eqn:E; [|discriminate].
    intros H. injection H as <-. right. split; [reflexivity|now apply mem_In].
  - intros H. injection H as <-. now left.
Qed.

Lemma optional_float_ok (ge le : option Z) (v : option value) (f : float) :
  schemas.optional_float lax_float ge le v = Ok (Some f) ->
  schemas.ge_ok ge f = true /\ schemas.le_ok le f = true.
Proof.
  unfold schemas.optional_float. destruct v as [v|]; [|discriminate].
  assert (H : forall r : result float,
             (x <- r ;; (if schemas.ge_ok ge x && schemas.le_ok le x then Ok (Some x)
                         else Raise ValidationError)) = Ok (Some f) ->
             schemas.ge_ok ge f = true /\ schemas.le_ok le f = true).
  { intros [x|e']; simpl; [|discriminate].
    destruct (schemas.ge_ok ge x && schemas.le_ok le x) eqn:E; [|discriminate].
    intros H. injection H as <-. now apply andb_true_iff in E. }
  destruct v; try discriminate; apply H.
Qed.

(** What a validated incident tells about the fields it came from. *)
Lemma new_Incident_ok (fields : document) (inc : schemas.Incident) :
  schemas.new_Incident lax_str lax_float fields = Ok inc ->
  schemas.literal schemas.TYPES "other" (assoc_get fields "type") = Ok (schemas.type inc) /\
  schemas.literal schemas.SEVERITIES "medium" (assoc_get fields "severity")
    = Ok (schemas.severity inc) /\
  schemas.literal schemas.STATUSES "reported" (assoc_get fields "status")
    = Ok (schemas.status inc) /\
  schemas.optional_float lax_float (Some (-90)) (Some 90) (assoc_get fields "latitude")
    = Ok (schemas.latitude inc) /\
  schemas.optional_float lax_float (Some (-180)) (Some 180) (assoc_get fields "longitude")
    = Ok (schemas.longitude inc) /\
  schemas.optional_float lax_float (Some 0) None (assoc_get fields "response_minutes")
    = Ok (schemas.response_minutes inc).
Proof.
  unfold schemas.new_Incident. intros H.
  do 12 bind_ok H. injection H as <-. simpl. repeat split; reflexivity.
Qed.


(** Every validated incident satisfies the field constraints. *)
Lemma new_Incident_constraints (fields : document) (inc : schemas.Incident) :
  schemas.new_Incident lax_str lax_float fields = Ok inc -> field_constraints inc.
Proof.
  intros H. apply new_Incident_ok in H. destruct H as (Ht & Hs & Hst & Hla & Hlo & Hr).
  assert (Hlit : forall allowed default v s,
             schemas.literal allowed default v = Ok s -> In default allowed -> In s allowed).
  { intros allowed default v s Hl Hd. apply literal_ok in Hl.
    destruct Hl as [(_ & ->)|(_ & Hin)]; assumption. }
  unfold field_constraints.
  split; [apply (Hlit _ _ _ _ Ht); simpl; tauto|].
  split; [apply (Hlit _ _ _ _ Hs); simpl; tauto|].
  split; [apply (Hlit _ _ _ _ Hst); simpl; tauto|].
  split; [|split]; intros f Hf.
  - rewrite Hf in Hla. apply optional_float_ok in Hla. exact Hla.
  - rewrite Hf in Hlo. apply optional_float_ok in Hlo. exact Hlo.
  - rewrite Hf in Hr. apply optional_float_ok in Hr. apply Hr.
Qed.

End SchemaFacts.

Section CreationClaims.

Variable lax_str : value -> option string.
Variable lax_float : value -> option float.
Variable Store : Type.
Variable create_document : string -> schemas.Incident -> Store -> result string * Store.


End CreationClaims.



(** ** Rounding inside one binade *)

Lemma digits2_pos_size (p : positive) : digits2_pos p = Pos.size p.
Proof. induction p; simpl; congruence. Qed.

Lemma Zdigits2_range (z n : Z) :
  0 < n -> 2 ^ (n - 1) <= z < 2 ^ n -> Zdigits2 z = n.
Proof.
  intros Hn Hz.
  assert (Hpos : 0 < z) by (pose proof (Z.pow_pos_nonneg 2 (n - 1)); lia).
  destruct z as [|p|p]; try lia.
  simpl. rewrite digits2_pos_size.
  assert (Hlog : Z.log2 (Z.pos p) = n - 1).
  { apply Z.log2_unique; [lia|]. replace (Z.succ (n - 1)) with n by lia. exact Hz. }
  destruct p; simpl in Hlog |- *; lia.
Qed.

Lemma div_eucl_div_mod (a b : Z) : Z.div_eucl a b = (a / b, a mod b).
Proof. unfold Z.div, Z.modulo. now destruct (Z.div_eucl a b). Qed.

Lemma shr_fexp_noshift (m e : Z) (l : location) :
  Zdigits2 m = 53 -> fexp prec emax (53 + e) = e ->
  shr_fexp prec emax m e l = (shr_record_of_loc m l, e).
Proof.
  intros Hd He. unfold shr_fexp. rewrite Hd, He, Z.sub_diag. reflexivity.
Qed.

Lemma binary_round_aux_binade (s : bool) (q e : Z) (l : location) :
  2 ^ 52 <= q -> q + 1 < 2 ^ 53 -> fexp prec emax (53 + e) = e -> e <= 971 ->
  exists m, binary_round_aux prec emax s q e l = S754_finite s m e /\
            Zdigits2 (Z.pos m) = 53.
Proof.
  intros Hlo Hhi He Hemax.
  unfold binary_round_aux.
  rewrite shr_fexp_noshift; [|apply Zdigits2_range; lia|exact He].
  assert (Hm : shr_m (shr_record_of_loc q l) = q) by (destruct l as [|[]]; reflexivity).
  assert (Hl : loc_of_shr_record (shr_record_of_loc q l) = l)
    by (destruct l as [|[]]; reflexivity).
  rewrite Hm, Hl.
  assert (Hq' : q <= round_nearest_even q l <= q + 1).
  { destruct l as [|[]]; simpl; try lia. destruct (Z.even q); lia. }
  set (q' := round_nearest_even q l) in *.
  assert (Hd' : Zdigits2 q' = 53) by (apply Zdigits2_range; lia).
  rewrite shr_fexp_noshift; [|exact Hd'|exact He].
  simpl shr_m.
  destruct q' as [|m|m]; try lia.
  replace (e <=? emax - prec) with true by (symmetry; apply Z.leb_le; unfold emax, prec; lia).
  exists m. split; [reflexivity|exact Hd'].
Qed.

Lemma nearest_float_binade (s : bool) (k dk : Z) (sh : positive) :
  0 < dk -> 2 ^ (dk - 1) <= k < 2 ^ dk ->
  Z.min (fexp prec emax (dk - 20)) 0 = Z.neg sh ->
  fexp prec emax (53 + Z.neg sh) = Z.neg sh ->
  2 ^ 52 <= k * 2 ^ Z.pos sh / 1000000 ->
  k * 2 ^ Z.pos sh / 1000000 + 1 < 2 ^ 53 ->
  exists m, nearest_float s k 1000000 = SF2Prim (S754_finite s m (Z.neg sh)) /\
            Zdigits2 (Z.pos m) = 53.
Proof.
  intros Hdk Hk He Hfexp Hlo Hhi.
  assert (Hkpos : 0 < k) by (pose proof (Z.pow_pos_nonneg 2 (dk - 1)); lia).
  unfold nearest_float. destruct k as [|p|p]; try lia.
  unfold SFdiv_core_binary.
  rewrite (Zdigits2_range (Z.pos p) dk Hdk Hk).
  change (Zdigits2 1000000) with 20.
  replace (dk + 0 - (20 + 0)) with (dk - 20) by lia.
  change (0 - 0) with 0. rewrite He.
  change (0 - Z.neg sh) with (Z.pos sh).
  cbv beta iota zeta.
  rewrite Z.shiftl_mul_pow2 by lia.
  rewrite div_eucl_div_mod.
  destruct (binary_round_aux_binade s (Z.pos p * 2 ^ Z.pos sh / 1000000) (Z.neg sh)
              (new_location 1000000 (Z.pos p * 2 ^ Z.pos sh mod 1000000)))
    as (m & Hm & Hd); try assumption.
  { lia. }
  exists m. rewrite Hm. split; [reflexivity|exact Hd].
Qed.

Lemma finite_53_valid (s : bool) (m : positive) (e : Z) :
  Zdigits2 (Z.pos m) = 53 -> fexp prec emax (53 + e) = e -> e <= 971 ->
  Prim2SF (SF2Prim (S754_finite s m e)) = S754_finite s m e.
Proof.
  intros Hd He Hemax. apply Prim2SF_SF2Prim.
  unfold SpecFloat.valid_binary, bounded, canonical_mantissa.
  simpl in Hd. rewrite Hd, He, Z.eqb_refl. simpl.
  apply Z.leb_le. unfold emax, prec. lia.
Qed.

Lemma finite_not_infinity (x : float) (s : bool) (m : positive) (e : Z) :
  Prim2SF x = S754_finite s m e -> is_infinity x = false.
Proof.
  intros H. unfold is_infinity. rewrite eqb_spec, abs_spec, H. reflexivity.
Qed.

Lemma between_positive (lo hi u : float) (mlo mhi : positive) (e : Z) :
  Prim2SF lo = S754_finite false mlo e ->
  Prim2SF hi = S754_finite false mhi e ->
  (lo <=? u)%float = true -> (u <=? hi)%float = true ->
  exists m, Prim2SF u = S754_finite false m e /\ (mlo <= m <= mhi)%positive.
Proof.
  intros Hlo Hhi H1 H2. rewrite leb_spec, Hlo in H1. rewrite leb_spec, Hhi in H2.
  unfold SFleb, SFcompare in H1, H2.
  destruct (Prim2SF u) as [s'|s'| |s' m e']; try discriminate;
    try (destruct s'; discriminate).
  destruct s'; [discriminate|].
  destruct (Z.compare_spec e e') as [Heq|Hlt|Hgt]; try discriminate.
  - subst e'. rewrite Z.compare_refl in H2. exists m. split; [reflexivity|].
    unfold Pos.le, Pos.compare. split; intros E; rewrite E in *; discriminate.
  - destruct (Z.compare_spec e' e); try discriminate; lia.
Qed.

Lemma between_negative (lo hi u : float) (mlo mhi : positive) (e : Z) :
  Prim2SF lo = S754_finite true mlo e ->
  Prim2SF hi = S754_finite true mhi e ->
  (lo <=? u)%float = true -> (u <=? hi)%float = true ->
  exists m, Prim2SF u = S754_finite true m e /\ (mhi <= m <= mlo)%positive.
Proof.
  intros Hlo Hhi H1 H2. rewrite leb_spec, Hlo in H1. rewrite leb_spec, Hhi in H2.
  unfold SFleb, SFcompare in H1, H2.
  destruct (Prim2SF u) as [s'|s'| |s' m e']; try discriminate;
    try (destruct s'; discriminate).
  destruct s'; [|discriminate].
  destruct (Z.compare_spec e e') as [Heq|Hlt|Hgt]; try discriminate.
  - subst e'. rewrite Z.compare_refl in H2. exists m. split; [reflexivity|].
    unfold Pos.le. rewrite (Pos.compare_antisym m mhi), (Pos.compare_antisym mlo m).
    unfold Pos.compare.
    destruct (Pos.compare_cont Eq m mhi), (Pos.compare_cont Eq mlo m);
      simpl in *; try discriminate; split; discriminate.
  - destruct (Z.compare_spec e' e); try discriminate; lia.
Qed.

Lemma round_half_even_bounds (n d : Z) :
  0 < d -> n / d <= round_half_even n d <= n / d + 1.
Proof.
  intros Hd. unfold round_half_even.
  destruct (2 * (n mod d) ?= d); [destruct (Z.even (n / d))| |]; lia.
Qed.

(** [round(u, 6)] of a float with 53 significant bits and exponent
    [- sh] stays in the binade, when the decimal does. *)
Lemma py_round6_binade (u : float) (s : bool) (m : positive) (sh : positive) (dk : Z) :
  Prim2SF u = S754_finite s m (Z.neg sh) ->
  0 < dk ->
  Z.min (fexp prec emax (dk - 20)) 0 = Z.neg sh ->
  fexp prec emax (53 + Z.neg sh) = Z.neg sh ->
  (forall k, Z.pos m * 1000000 / 2 ^ Z.pos sh <= k <= Z.pos m * 1000000 / 2 ^ Z.pos sh + 1 ->
             2 ^ (dk - 1) <= k < 2 ^ dk /\
             2 ^ 52 <= k * 2 ^ Z.pos sh / 1000000 /\
             k * 2 ^ Z.pos sh / 1000000 + 1 < 2 ^ 53) ->
  exists r m', py_round u 6 = Ok r /\ Prim2SF r = S754_finite s m' (Z.neg sh).
Proof.
  intros Hu Hdk He Hfexp Hk.
  unfold py_round, exact_pair. rewrite Hu.
  change (0 <=? Z.neg sh) with false. change (- Z.neg sh) with (Z.pos sh).
  change (323 <? Z.of_nat 6) with false. change (10 ^ Z.of_nat 6) with 1000000.
  cbv beta iota zeta.
  set (k := round_half_even (Z.pos m * 1000000) (2 ^ Z.pos sh)).
  destruct (Hk k) as (Hk1 & Hk2 & Hk3).
  { apply round_half_even_bounds. apply Z.pow_pos_nonneg; lia. }
  destruct (nearest_float_binade s k dk sh Hdk Hk1 He Hfexp Hk2 Hk3) as (m' & Hr & Hd).
  assert (Hp : Prim2SF (nearest_float s k 1000000) = S754_finite s m' (Z.neg sh)).
  { rewrite Hr. apply finite_53_valid; [exact Hd|exact Hfexp|lia]. }
  rewrite (finite_not_infinity _ _ _ _ Hp).
  exists (nearest_float s k 1000000), m'. split; [reflexivity|exact Hp].
Qed.

Lemma round6_latitude (u : float) :
  (lat_min <=? u)%float = true -> (u <=? lat_max)%float = true ->
  exists r m', py_round u 6 = Ok r /\ Prim2SF r = S754_finite false m' (-47).
Proof.
  intros H1 H2.
  destruct (between_positive lat_min lat_max u 5305803310995866 5322691809598505 (-47))
    as (m & Hu & Hm1 & Hm2);
    [vm_compute; reflexivity|vm_compute; reflexivity|exact H1|exact H2|].
  apply (py_round6_binade u false m 47 26 Hu);
    [reflexivity|vm_compute; reflexivity|vm_compute; reflexivity|].
  intros k Hk.
  assert (H : 5305803310995866 <= Z.pos m <= 5322691809598505) by exact (conj Hm1 Hm2).
  clear H1 H2 Hu Hm1 Hm2.
  generalize dependent (Z.pos m). clear m. intros z Hk H.
  change (2 ^ 47) with 140737488355328 in *.
  change (2 ^ (26 - 1)) with 33554432. change (2 ^ 26) with 67108864.
  change (2 ^ 52) with 4503599627370496. change (2 ^ 53) with 9007199254740992.
  assert (Hb : 37699000 <= k <= 37821000) by (Z.div_mod_to_equations; lia).
  clear Hk H.
  repeat split; try lia; Z.div_mod_to_equations; lia.
Qed.

Lemma round6_longitude (u : float) :
  (lon_min <=? u)%float = true -> (u <=? lon_max)%float = true ->
  exists r m', py_round u 6 = Ok r /\ Prim2SF r = S754_finite true m' (-46).
Proof.
  intros H1 H2.
  destruct (between_negative lon_min lon_max u 8621578536647393 8610319537578967 (-46))
    as (m & Hu & Hm1 & Hm2);
    [vm_compute; reflexivity|vm_compute; reflexivity|exact H1|exact H2|].
  apply (py_round6_binade u true m 46 27 Hu);
    [reflexivity|vm_compute; reflexivity|vm_compute; reflexivity|].
  intros k Hk.
  assert (H : 8610319537578967 <= Z.pos m <= 8621578536647393) by exact (conj Hm1 Hm2).
  clear H1 H2 Hu Hm1 Hm2.
  generalize dependent (Z.pos m). clear m. intros z Hk H.
  change (2 ^ 46) with 70368744177664 in *.
  change (2 ^ (27 - 1)) with 67108864. change (2 ^ 27) with 134217728.
  change (2 ^ 52) with 4503599627370496. change (2 ^ 53) with 9007199254740992.
  assert (Hb : 122350000 <= k <= 122530000) by (Z.div_mod_to_equations; lia).
  clear Hk H.
  repeat split; try lia; Z.div_mod_to_equations; lia.
Qed.

(** ** Rounding in the normal range *)

Ltac pow2_side :=
  first [lia | apply Z.pow_pos_nonneg; lia | apply Z.pow_nonzero; lia].

Lemma fexp_normal (z : Z) : -1074 <= z - 53 -> fexp prec emax z = z - 53.
Proof. unfold fexp, emin, prec, emax. lia. Qed.

Lemma Zdigits2_bounds (p : positive) :
  2 ^ (Zdigits2 (Z.pos p) - 1) <= Z.pos p < 2 ^ Zdigits2 (Z.pos p).
Proof.
  assert (H : Zdigits2 (Z.pos p) = Z.log2 (Z.pos p) + 1).
  { simpl. rewrite digits2_pos_size. destruct p; simpl; lia. }
  rewrite H. replace (Z.log2 (Z.pos p) + 1 - 1) with (Z.log2 (Z.pos p)) by lia.
  apply Z.log2_spec. lia.
Qed.

Lemma shr_1_half (r : shr_record) : 0 <= shr_m r -> shr_m (shr_1 r) = shr_m r / 2.
Proof.
  destruct r as [m r s]. simpl. intros Hm.
  destruct m as [|[p|p|]|p]; cbn [shr_m]; try lia.
  - reflexivity.
  - apply Z.div_unique with (r := 1); lia.
  - apply Z.div_unique with (r := 0); lia.
  - reflexivity.
Qed.


Lemma pow2_xO (n : positive) : 2 ^ Z.pos n~0 = 2 ^ Z.pos n * 2 ^ Z.pos n.
Proof. rewrite <- Z.pow_add_r by lia. f_equal. lia. Qed.

Lemma pow2_xI (n : positive) : 2 ^ Z.pos n~1 = 2 * (2 ^ Z.pos n * 2 ^ Z.pos n).
Proof.
  rewrite <- Z.pow_add_r by lia. rewrite <- (Z.pow_succ_r 2) by lia. f_equal. lia.
Qed.

Lemma shr_m_iter_pos (n : positive) :
  forall r, 0 <= shr_m r -> shr_m (iter_pos shr_1 n r) = shr_m r / 2 ^ Z.pos n.
Proof.
  induction n as [n IH|n IH|]; intros r Hr; cbn [iter_pos].
  - assert (H1 : 0 <= shr_m (shr_1 r)) by (rewrite shr_1_half by exact Hr; apply Z.div_pos; lia).
    assert (H2 : 0 <= shr_m (iter_pos shr_1 n (shr_1 r)))
      by (rewrite IH by exact H1; apply Z.div_pos; [exact H1|apply Z.pow_pos_nonneg; lia]).
    rewrite IH by exact H2. rewrite IH by exact H1. rewrite shr_1_half by exact Hr.
    rewrite !Z.div_div by pow2_side.
    rewrite pow2_xI. reflexivity.
  - assert (H1 : 0 <= shr_m (iter_pos shr_1 n r))
      by (rewrite IH by exact Hr; apply Z.div_pos; [exact Hr|apply Z.pow_pos_nonneg; lia]).
    rewrite IH by exact H1. rewrite IH by exact Hr.
    rewrite Z.div_div by pow2_side.
    rewrite pow2_xO. reflexivity.
  - rewrite shr_1_half by exact Hr. reflexivity.
Qed.

(** Shifting out zero bits is exact. *)
Lemma iter_pos_shr_exact (n : positive) :
  forall z, 0 < z ->
  iter_pos shr_1 n {| shr_m := z * 2 ^ Z.pos n; shr_r := false; shr_s := false |}
  = {| shr_m := z; shr_r := false; shr_s := false |}.
Proof.
  assert (H1 : forall z, 0 < z ->
            shr_1 {| shr_m := z * 2; shr_r := false; shr_s := false |}
            = {| shr_m := z; shr_r := false; shr_s := false |}).
  { intros z Hz. destruct z as [|p|p]; try lia.
    replace (Z.pos p * 2) with (Z.pos p~0) by lia. reflexivity. }
  induction n as [n IH|n IH|]; intros z Hz; cbn [iter_pos].
  - assert (Hp : 0 < 2 ^ Z.pos n) by (apply Z.pow_pos_nonneg; lia).
    replace (z * 2 ^ Z.pos n~1) with (z * 2 ^ Z.pos n * 2 ^ Z.pos n * 2)
      by (rewrite pow2_xI; ring).
    rewrite H1 by nia. rewrite IH by nia. apply IH. exact Hz.
  - assert (Hp : 0 < 2 ^ Z.pos n) by (apply Z.pow_pos_nonneg; lia).
    replace (z * 2 ^ Z.pos n~0) with (z * 2 ^ Z.pos n * 2 ^ Z.pos n)
      by (rewrite pow2_xO; ring).
    rewrite IH by nia. apply IH. exact Hz.
  - change (2 ^ 1) with 2. apply H1. exact Hz.
Qed.

(** The second step of the rounding: the rounded mantissa has 53 bits,
    or is [2^53] and is shifted once more. *)
Lemma round_carry (m1 e1 : Z) (l1 : location) :
  2 ^ 52 <= m1 < 2 ^ 53 -> -1074 <= e1 ->
  exists mrs e2 m,
    shr_fexp prec emax (round_nearest_even m1 l1) e1 loc_Exact = (mrs, e2) /\
    shr_m mrs = Z.pos m /\ Zdigits2 (Z.pos m) = 53 /\ e1 <= e2 <= e1 + 1.
Proof.
  intros Hm He.
  assert (Hq : round_nearest_even m1 l1 = m1 \/ round_nearest_even m1 l1 = m1 + 1).
  { destruct l1 as [|[]]; simpl; auto. destruct (Z.even m1); auto. }
  set (q := round_nearest_even m1 l1) in *.
  destruct (Z.ltb_spec q (2 ^ 53)) as [Hlt|Hge].
  - assert (Hd : Zdigits2 q = 53) by (apply Zdigits2_range; lia).
    rewrite shr_fexp_noshift; [|exact Hd|rewrite fexp_normal; lia].
    destruct q as [|m|m]; try lia.
    exists {| shr_m := Z.pos m; shr_r := false; shr_s := false |}, e1, m.
    repeat split; first [lia | exact Hd | reflexivity].
  - assert (Hq2 : q = 2 ^ 53) by lia. rewrite Hq2.
    unfold shr_fexp. change (Zdigits2 (2 ^ 53)) with 54.
    rewrite fexp_normal by lia.
    replace (54 + e1 - 53 - e1) with 1 by lia.
    exists {| shr_m := 2 ^ 52; shr_r := false; shr_s := false |}, (e1 + 1),
           4503599627370496%positive.
    repeat split; first [lia | reflexivity].
Qed.

(** Rounding a mantissa of at least 53 bits whose value lies in the
    normal range below [2^1023] gives a finite number of 53 bits. *)
Lemma binary_round_aux_normal (s : bool) (q e : Z) (l : location) :
  53 <= Zdigits2 q -> 0 < q -> -1074 <= Zdigits2 q + e - 53 -> Zdigits2 q + e <= 1023 ->
  exists m e2,
    binary_round_aux prec emax s q e l = S754_finite s m e2 /\
    Zdigits2 (Z.pos m) = 53 /\ -1074 <= e2 <= 971.
Proof.
  intros Hd Hq Hlo Hhi.
  assert (Hfirst : exists mrs,
            shr_fexp prec emax q e l = (mrs, Zdigits2 q + e - 53) /\
            2 ^ 52 <= shr_m mrs < 2 ^ 53).
  { unfold shr_fexp. rewrite fexp_normal by lia.
    destruct q as [|p|p]; try lia.
    pose proof (Zdigits2_bounds p) as Hb.
    remember (Zdigits2 (Z.pos p)) as d eqn:Heqd.
    assert (Hrec : shr_m (shr_record_of_loc (Z.pos p) l) = Z.pos p)
      by (destruct l as [|[]]; reflexivity).
    destruct (d + e - 53 - e) as [|n|n] eqn:Hn; try lia.
    - exists (shr_record_of_loc (Z.pos p) l). unfold shr. rewrite Hrec.
      split; [f_equal; lia|]. replace d with 53 in Hb by lia. exact Hb.
    - exists (iter_pos shr_1 n (shr_record_of_loc (Z.pos p) l)). unfold shr.
      split; [f_equal; lia|].
      rewrite shr_m_iter_pos by (rewrite Hrec; lia). rewrite Hrec.
      assert (Hp : 0 < 2 ^ Z.pos n) by (apply Z.pow_pos_nonneg; lia).
      assert (H52 : 2 ^ (d - 1) = 2 ^ 52 * 2 ^ Z.pos n)
        by (rewrite <- Z.pow_add_r by lia; f_equal; lia).
      assert (H53 : 2 ^ d = 2 ^ 53 * 2 ^ Z.pos n)
        by (rewrite <- Z.pow_add_r by lia; f_equal; lia).
      split.
      + apply Z.div_le_lower_bound; [exact Hp|]. lia.
      + apply Z.div_lt_upper_bound; [exact Hp|]. lia. }
  destruct Hfirst as (mrs & Hs1 & Hm1).
  destruct (round_carry (shr_m mrs) (Zdigits2 q + e - 53) (loc_of_shr_record mrs) Hm1 Hlo)
    as (mrs2 & e2 & m & Hs2 & Hm2 & Hd2 & He2).
  unfold binary_round_aux. rewrite Hs1, Hs2, Hm2.
  replace (e2 <=? emax - prec) with true
    by (symmetry; apply Z.leb_le; unfold emax, prec; lia).
  exists m, e2. repeat split; first [lia | exact Hd2].
Qed.

Lemma zero_not_infinity (s : bool) : is_infinity (SF2Prim (S754_zero s)) = false.
Proof.
  unfold is_infinity. rewrite eqb_spec, abs_spec, Prim2SF_SF2Prim by reflexivity.
  reflexivity.
Qed.

Lemma finite_53_not_infinity (s : bool) (m : positive) (e : Z) :
  Zdigits2 (Z.pos m) = 53 -> -1074 <= e <= 971 ->
  is_infinity (SF2Prim (S754_finite s m e)) = false.
Proof.
  intros Hd He. apply (finite_not_infinity _ s m e).
  apply finite_53_valid; [exact Hd|rewrite fexp_normal; lia|lia].
Qed.

(** What validity says of a finite float: at most 53 bits, exactly 53
    above the smallest exponent, and an exponent in range. *)
Lemma finite_valid (x : float) (s : bool) (m : positive) (e : Z) :
  Prim2SF x = S754_finite s m e ->
  -1074 <= e <= 971 /\ Z.pos m < 2 ^ 53 /\ (-1074 < e -> 2 ^ 52 <= Z.pos m).
Proof.
  intros H. pose proof (Prim2SF_valid x) as Hv. rewrite H in Hv.
  unfold SpecFloat.valid_binary, bounded, canonical_mantissa in Hv.
  apply andb_true_iff in Hv. destruct Hv as (Hc & Hb).
  apply Z.eqb_eq in Hc. apply Z.leb_le in Hb.
  pose proof (Zdigits2_bounds m) as Hm. simpl Zdigits2 in Hm.
  remember (Z.pos (digits2_pos m)) as d eqn:Hd.
  assert (Hd1 : 1 <= d) by (rewrite Hd; lia).
  unfold fexp, emin, prec, emax in *.
  assert (Hd53 : d <= 53) by lia.
  split; [lia|]. split.
  - apply Z.lt_le_trans with (2 ^ d); [lia|]. apply Z.pow_le_mono_r; lia.
  - intros He'. assert (E : d = 53) by lia. rewrite E in Hm. exact (proj1 Hm).
Qed.

(** A decimal with two fractional digits below [2^60/100] has a finite
    nearest float. *)
Lemma nearest_float_100_finite (s : bool) (k : Z) :
  0 <= k < 2 ^ 59 -> is_infinity (nearest_float s k 100) = false.
Proof.
  intros Hk. unfold nearest_float.
  destruct k as [|p|p]; [apply zero_not_infinity| |lia].
  unfold SFdiv_core_binary.
  pose proof (Zdigits2_bounds p) as Hb.
  remember (Zdigits2 (Z.pos p)) as d eqn:Hd.
  assert (Hd1 : 1 <= d) by (rewrite Hd; simpl; lia).
  assert (Hd60 : d <= 59).
  { destruct (Z.le_gt_cases d 59) as [|Hgt]; [assumption|].
    assert (2 ^ 59 <= 2 ^ (d - 1)) by (apply Z.pow_le_mono_r; lia). lia. }
  change (Zdigits2 100) with 7.
  replace (d + 0 - (7 + 0)) with (d - 7) by lia.
  rewrite fexp_normal by lia.
  replace (Z.min (d - 7 - 53) (0 - 0)) with (d - 60) by lia.
  replace (0 - 0 - (d - 60)) with (60 - d) by lia.
  assert (Hm' : match 60 - d with
                | 0 => Z.pos p
                | Z.pos _ => Z.shiftl (Z.pos p) (60 - d)
                | Z.neg _ => 0
                end = Z.pos p * 2 ^ (60 - d)).
  { destruct (60 - d) eqn:E; try lia. rewrite Z.shiftl_mul_pow2 by lia. reflexivity. }
  rewrite Hm'. rewrite div_eucl_div_mod.
  assert (H59 : 2 ^ 59 <= Z.pos p * 2 ^ (60 - d) < 2 ^ 60).
  { assert (Hp : 0 < 2 ^ (60 - d)) by (apply Z.pow_pos_nonneg; lia).
    assert (E1 : 2 ^ 59 = 2 ^ (d - 1) * 2 ^ (60 - d))
      by (rewrite <- Z.pow_add_r by lia; f_equal; lia).
    assert (E2 : 2 ^ 60 = 2 ^ d * 2 ^ (60 - d))
      by (rewrite <- Z.pow_add_r by lia; f_equal; lia).
    rewrite E1, E2. split; [apply Z.mul_le_mono_nonneg_r; lia|apply Z.mul_lt_mono_pos_r; lia]. }
  remember (Z.pos p * 2 ^ (60 - d)) as a eqn:Ha.
  assert (Hq : 2 ^ 52 <= a / 100 < 2 ^ 54).
  { split; [apply Z.div_le_lower_bound; lia|apply Z.div_lt_upper_bound; lia]. }
  remember (a / 100) as q eqn:Hq0.
  assert (Hdq : Zdigits2 q = 53 \/ Zdigits2 q = 54).
  { destruct (Z.lt_ge_cases q (2 ^ 53)).
    - left. apply Zdigits2_range; lia.
    - right. apply Zdigits2_range; lia. }
  destruct (binary_round_aux_normal s q (d - 60) (new_location 100 (a mod 100)))
    as (m & e2 & Hr & Hdm & He2); try lia.
  cbv beta iota zeta. rewrite Hr. apply finite_53_not_infinity; assumption.
Qed.

(** The decimal of an integral float is the float itself. *)
Lemma nearest_float_100_exact (s : bool) (m : positive) (e : Z) :
  2 ^ 52 <= Z.pos m < 2 ^ 53 -> 0 <= e <= 971 ->
  nearest_float s (Z.pos m * 2 ^ e * 100) 100 = SF2Prim (S754_finite s m e).
Proof.
  intros Hm He. unfold nearest_float.
  assert (Hp : 0 < 2 ^ e) by (apply Z.pow_pos_nonneg; lia).
  destruct (Z.pos m * 2 ^ e * 100) as [|k|k] eqn:Hk; try lia.
  unfold SFdiv_core_binary.
  remember (Z.min (fexp prec emax (Zdigits2 (Z.pos k) + 0 - (Zdigits2 100 + 0))) (0 - 0))
    as e1 eqn:He1.
  assert (Hle : e1 <= 0) by lia.
  assert (Hm' : match 0 - 0 - e1 with
                | 0 => Z.pos k
                | Z.pos _ => Z.shiftl (Z.pos k) (0 - 0 - e1)
                | Z.neg _ => 0
                end = Z.pos k * 2 ^ (- e1)).
  { destruct (0 - 0 - e1) eqn:E; try lia.
    - replace (- e1) with 0 by lia. lia.
    - rewrite Z.shiftl_mul_pow2 by lia. f_equal. f_equal. lia. }
  rewrite Hm', div_eucl_div_mod, <- Hk.
  assert (Hp1 : 0 < 2 ^ (- e1)) by (apply Z.pow_pos_nonneg; lia).
  assert (Hmul : Z.pos m * 2 ^ e * 100 * 2 ^ (- e1) = Z.pos m * 2 ^ (e - e1) * 100).
  { replace (e - e1) with (e + - e1) by lia. rewrite Z.pow_add_r by lia. ring. }
  rewrite Hmul, Z.div_mul, Z.mod_mul by lia.
  change (new_location 100 0) with loc_Exact. cbv beta iota zeta.
  assert (Hpj : 0 < 2 ^ (e - e1)) by (apply Z.pow_pos_nonneg; lia).
  assert (Hdq : Zdigits2 (Z.pos m * 2 ^ (e - e1)) = 53 + (e - e1)).
  { apply Zdigits2_range; [lia|].
    replace (53 + (e - e1) - 1) with (52 + (e - e1)) by lia.
    rewrite !Z.pow_add_r by lia. nia. }
  unfold binary_round_aux, shr_fexp at 1. rewrite Hdq.
  replace (53 + (e - e1) + e1) with (53 + e) by lia.
  rewrite fexp_normal by lia. replace (53 + e - 53 - e1) with (e - e1) by lia.
  assert (Hshr : shr (shr_record_of_loc (Z.pos m * 2 ^ (e - e1)) loc_Exact) e1 (e - e1)
                 = ({| shr_m := Z.pos m; shr_r := false; shr_s := false |}, e)).
  { unfold shr, shr_record_of_loc. destruct (e - e1) as [|j|j] eqn:Ej; try lia.
    - f_equal; [f_equal; lia|lia].
    - rewrite iter_pos_shr_exact by lia. f_equal. lia. }
  rewrite Hshr. cbn [shr_m loc_of_shr_record round_nearest_even].
  rewrite shr_fexp_noshift;
    [|apply Zdigits2_range; lia|rewrite fexp_normal; lia].
  cbn [shr_m shr_record_of_loc].
  replace (e <=? emax - prec) with true
    by (symmetry; apply Z.leb_le; unfold emax, prec; lia).
  reflexivity.
Qed.

(** [round(x, 2)] raises for no float: an integral float rounds to
    itself, a smaller one to a decimal below [2^53 + 1]. *)
Lemma py_round2_total (x : float) : exists r, py_round x 2 = Ok r.
Proof.
  unfold py_round, exact_pair.
  destruct (Prim2SF x) as [s|s| |s m e] eqn:Hx; try (eexists; reflexivity).
  destruct (finite_valid x s m e Hx) as (He & Hm & Hnorm).
  change (323 <? Z.of_nat 2) with false. change (10 ^ Z.of_nat 2) with 100.
  destruct (Z.leb_spec 0 e) as [Hpos|Hneg]; cbv beta iota zeta.
  - assert (Hr : round_half_even (Z.pos m * 2 ^ e * 100) 1 = Z.pos m * 2 ^ e * 100).
    { unfold round_half_even. rewrite Z.mod_1_r, Z.div_1_r. reflexivity. }
    rewrite Hr, nearest_float_100_exact by lia.
    rewrite <- Hx, SF2Prim_Prim2SF, (finite_not_infinity x s m e Hx).
    eexists. reflexivity.
  - assert (Hd : 2 <= 2 ^ (- e)).
    { change 2 with (2 ^ 1) at 1. apply Z.pow_le_mono_r; lia. }
    pose proof (round_half_even_bounds (Z.pos m * 100) (2 ^ (- e)) ltac:(lia)) as Hk.
    assert (Hq : 0 <= Z.pos m * 100 / 2 ^ (- e) < 100 * 2 ^ 52).
    { split; [apply Z.div_pos; lia|].
      apply Z.div_lt_upper_bound; [lia|].
      change (2 ^ 53) with (2 * 2 ^ 52) in Hm. nia. }
    rewrite nearest_float_100_finite by lia.
    eexists. reflexivity.
Qed.

(** [float(c)] is finite for every count below [2^1023]. *)
Lemma float_of_Z_finite (c : Z) :
  0 <= c < 2 ^ 1023 -> is_infinity (float_of_Z c) = false.
Proof.
  intros Hc. unfold float_of_Z, binary_normalize.
  destruct c as [|p|p]; [apply zero_not_infinity| |lia].
  unfold binary_round, shl_align.
  pose proof (Zdigits2_bounds p) as Hb. simpl Zdigits2 in Hb.
  remember (Z.pos (digits2_pos p)) as d eqn:Hd.
  assert (Hd1 : 1 <= d) by (rewrite Hd; lia).
  assert (Hd2 : d <= 1023).
  { destruct (Z.le_gt_cases d 1023) as [|Hgt]; [assumption|].
    assert (2 ^ 1023 <= 2 ^ (d - 1)) by (apply Z.pow_le_mono_r; lia). lia. }
  rewrite fexp_normal by lia.
  destruct (d + 0 - 53 - 0) as [|n|n] eqn:En.
  - destruct (binary_round_aux_normal false (Z.pos p) 0 loc_Exact) as (m & e2 & Hr & Hdm & He2);
      try (simpl Zdigits2; rewrite <- ?Hd; lia).
    rewrite Hr. apply finite_53_not_infinity; assumption.
  - destruct (binary_round_aux_normal false (Z.pos p) 0 loc_Exact) as (m & e2 & Hr & Hdm & He2);
      try (simpl Zdigits2; rewrite <- ?Hd; lia).
    rewrite Hr. apply finite_53_not_infinity; assumption.
  - assert (Hs : Z.pos (Pos.iter xO p n) = Z.pos p * 2 ^ Z.pos n).
    { change (Pos.iter xO p n) with (shift_pos n p). rewrite shift_pos_correct.
      change (Z.pow_pos 2 n) with (2 ^ Z.pos n). ring. }
    assert (Hpn : 0 < 2 ^ Z.pos n) by (apply Z.pow_pos_nonneg; lia).
    assert (Hdig : Zdigits2 (Z.pos (Pos.iter xO p n)) = 53).
    { rewrite Hs. apply Zdigits2_range; [lia|].
      assert (E1 : 2 ^ (53 - 1) = 2 ^ (d - 1) * 2 ^ Z.pos n)
        by (rewrite <- Z.pow_add_r by lia; f_equal; lia).
      assert (E2 : 2 ^ 53 = 2 ^ d * 2 ^ Z.pos n)
        by (rewrite <- Z.pow_add_r by lia; f_equal; lia).
      rewrite E1, E2. nia. }
    destruct (binary_round_aux_normal false (Z.pos (Pos.iter xO p n)) (d + 0 - 53) loc_Exact)
      as (m & e2 & Hr & Hdm & He2); try (rewrite Hdig; lia); try lia.
    rewrite Hr. apply finite_53_not_infinity; assumption.
Qed.

(** The average raises for no locals whose count a float can hold. *)
Lemma average_total (l : locals) :
  0 <= response_count l < 2 ^ 1023 -> exists a, average l = Ok a.
Proof.
  intros Hc. unfold average.
  destruct (response_count l =? 0); [eexists; reflexivity|].
  unfold int_to_float. rewrite float_of_Z_finite by exact Hc. cbn [bind].
  destruct (py_round2_total (response_sum l / float_of_Z (response_count l))%float)
    as (r & Hr).
  rewrite Hr. eexists. reflexivity.
Qed.

Lemma average_none (l : locals) (a : option float) :
  average l = Ok a -> (a = None <-> response_count l = 0).
Proof.
  unfold average. destruct (Z.eqb_spec (response_count l) 0) as [E|E].
  - intros H. injection H as <-. tauto.
  - destruct (int_to_float (response_count l)) as [c|e]; [cbn [bind]|discriminate].
    destruct (py_round _ 2) as [r|e]; [cbn [bind]|discriminate].
    intros H. injection H as <-. split; [discriminate|contradiction].
Qed.

(** ** Claim about the failures of the aggregation *)

Section FailureClaim.

Variable float_of_str : string -> option float.
Variable get_documents : string -> document -> option Z -> result (list document).

(** C6, as amended: on the documents the store returned, (1) a record
    whose response_minutes is present, not null and not convertible by
    float() makes the endpoint answer HTTP 500, without a summary;
    (2) so does a record whose type, severity or status holds a list or
    an embedded document; (3) when those three fields are missing or
    hold hashable values and every supplied response_minutes converts,
    the loop raises nothing, and (4) the endpoint then answers the
    summary, for every number of supplied response times a float can
    hold (fewer than 2^1023, as in every list Python builds): total
    counts all records, open those with an open status, the average is
    present exactly when a response time is supplied, records without
    type are counted under other and those without severity under
    medium, and a null or string label is counted under itself. *)
Theorem unconvertible_response_is_http_500
    (precinct period : option string) (docs : list document) :
  get_documents "incident" (summary_filters precinct) None = Ok docs ->
  ((exists d v e, In d docs /\ assoc_get d "response_minutes" = Some v /\
                  v <> VNone /\ py_float float_of_str v = Raise e) ->
   exists e', analytics_summary float_of_str get_documents precinct period
              = HTTPException 500 e') /\
  (forallb labels_hashable docs = false ->
   exists e', analytics_summary float_of_str get_documents precinct period
              = HTTPException 500 e') /\
  (forallb labels_hashable docs = true ->
   (forall v, In v (supplied docs) -> exists x, py_float float_of_str v = Ok x) ->
   exists l, loop float_of_str docs init_locals = Ok l) /\
  (forallb labels_hashable docs = true ->
   (forall v, In v (supplied docs) -> exists x, py_float float_of_str v = Ok x) ->
   count_docs supplies_response docs < 2 ^ 1023 ->
   exists s, analytics_summary float_of_str get_documents precinct period = Resp s /\
             total s = Z.of_nat (List.length docs) /\
             open s = count_docs has_open_status docs /\
             (avg_response_minutes s = None <-> count_docs supplies_response docs = 0) /\
             label_count (by_type s) (VStr "other") =
               count_docs (fun d => absent_field "type" d || str_field "type" "other" d) docs /\
             label_count (by_severity s) (VStr "medium") =
               count_docs (fun d => absent_field "severity" d
                                    || str_field "severity" "medium" d) docs /\
             (forall k, plain_key k ->
                label_count (by_type s) k =
                  count_docs (fun d => py_eq (get_default d "type" (VStr "other")) k) docs /\
                label_count (by_severity s) k =
                  count_docs (fun d => py_eq (get_default d "severity" (VStr "medium")) k)
                             docs)).
Proof.
  intros Hg. rewrite (endpoint_on float_of_str get_documents precinct period docs Hg).
  assert (Hfail : Exists (doc_raises float_of_str) docs ->
                  exists e', try_500 (aggregate float_of_str docs) = HTTPException 500 e').
  { intros Hex. destruct (loop_raises float_of_str docs Hex init_locals) as (e' & He').
    exists e'. unfold aggregate. rewrite He'. reflexivity. }
  split; [|split; [|split]].
  - intros (d & v & e & Hin & Hget & Hv & He). apply Hfail.
    apply Exists_exists. exists d. split; [exact Hin|]. right.
    unfold supplies_response, get_or_none, get_default. rewrite Hget.
    split; [destruct v; congruence|eauto].
  - intros Hh. apply Hfail. apply forallb_false_Exists in Hh.
    apply Exists_exists in Hh. destruct Hh as (d & Hin & Hd).
    apply Exists_exists. exists d. split; [exact Hin|now left].
  - intros Hh Hv. apply loop_completes; assumption.
  - intros Hh Hv Hc.
    destruct (loop_completes float_of_str docs Hh Hv init_locals) as (l & Hl).
    pose proof (loop_ok_inv _ _ _ _ Hl) as (_ & _ & Hopen & Hcnt & _).
    cbn [init_locals response_count open_cases] in Hcnt, Hopen.
    assert (Hc0 : 0 <= count_docs supplies_response docs) by (unfold count_docs; lia).
    destruct (average_total l) as (a & Ha); [lia|].
    assert (Hagg : aggregate float_of_str docs =
                   Ok {| total := Z.of_nat (List.length docs); open := open_cases l;
                         avg_response_minutes := a;
                         by_type := l_by_type l; by_severity := l_by_severity l |}).
    { unfold aggregate. rewrite Hl. cbn [bind]. rewrite Ha. reflexivity. }
    rewrite Hagg. eexists. split; [reflexivity|].
    cbn [total open avg_response_minutes by_type by_severity].
    pose proof (loop_default_labels float_of_str docs l Hl) as (_ & H1 & _ & H2).
    split; [reflexivity|]. split; [lia|].
    split; [rewrite (average_none l a Ha); lia|].
    split; [exact H1|]. split; [exact H2|].
    intros k Hk.
    pose proof (loop_label_counts float_of_str k docs init_locals l Hk Hl) as (H3 & H4).
    cbn [init_locals l_by_type l_by_severity] in H3, H4.
    split; [exact H3|exact H4].
Qed.

End FailureClaim.

(** Records with a null type, without type and with response times as
    int, string and float are aggregated; a record whose
    response_minutes is the string soon makes the endpoint answer 500. *)
Lemma unconvertible_response_is_http_500_example :
  (exists e', analytics_summary float_of_digits (memory_get_documents bad_docs) None (Some "7d")
              = HTTPException 500 e') /\
  (exists s, analytics_summary float_of_digits (memory_get_documents example_docs)
               None (Some "7d") = Resp s /\
             total s = 3 /\ open s = 1 /\
             label_count (by_type s) (VStr "other") = 1 /\
             label_count (by_type s) VNone = 1).
Proof.
  split.
  - apply (proj1 (unconvertible_response_is_http_500 float_of_digits
                    (memory_get_documents bad_docs) None (Some "7d") bad_docs eq_refl)).
    exists [("type", VStr "theft"); ("response_minutes", VStr "soon")], (VStr "soon"), ValueError.
    repeat split.
    + right. left. reflexivity.
    + discriminate.
  - destruct (proj2 (proj2 (proj2 (unconvertible_response_is_http_500 float_of_digits
                (memory_get_documents example_docs) None (Some "7d") example_docs eq_refl))))
      as (s & Hs & Ht & Ho & _ & Hother & _ & Hk).
    + reflexivity.
    + intros v Hv. simpl in Hv.
      destruct Hv as [<-|[<-|[<-|[]]]]; eexists; vm_compute; reflexivity.
    + vm_compute. reflexivity.
    + exists s. split; [exact Hs|]. split; [exact Ht|]. split; [exact Ho|].
      split; [exact Hother|]. exact (proj1 (Hk VNone plain_key_none)).
Defined.

(** ** Claims about seeding *)

Lemma latitude_in_range (r : float) (m : positive) :
  Prim2SF r = S754_finite false m (-47) ->
  schemas.ge_ok (Some (-90)) r && schemas.le_ok (Some 90) r = true.
Proof.
  intros H. unfold schemas.ge_ok, schemas.le_ok.
  rewrite !leb_spec, H.
  replace (Prim2SF (float_of_Z (-90))) with (S754_finite true 6333186975989760 (-46))
    by (vm_compute; reflexivity).
  replace (Prim2SF (float_of_Z 90)) with (S754_finite false 6333186975989760 (-46))
    by (vm_compute; reflexivity).
  reflexivity.
Qed.

Lemma longitude_in_range (r : float) (m : positive) :
  Prim2SF r = S754_finite true m (-46) ->
  schemas.ge_ok (Some (-180)) r && schemas.le_ok (Some 180) r = true.
Proof.
  intros H. unfold schemas.ge_ok, schemas.le_ok.
  rewrite !leb_spec, H.
  replace (Prim2SF (float_of_Z (-180))) with (S754_finite true 6333186975989760 (-45))
    by (vm_compute; reflexivity).
  replace (Prim2SF (float_of_Z 180)) with (S754_finite false 6333186975989760 (-45))
    by (vm_compute; reflexivity).
  reflexivity.
Qed.

(** The integers [randint(2, 60)] returns convert to non-negative floats. *)
Lemma response_draw_converts (k : Z) :
  2 <= k <= 60 ->
  is_infinity (float_of_Z k) = false /\ (float_of_Z 0 <=? float_of_Z k)%float = true.
Proof.
  intros Hk.
  assert (Hall : forallb (fun k => negb (is_infinity (float_of_Z k))
                                   && (float_of_Z 0 <=? float_of_Z k)%float)
                         (map Z.of_nat (seq 2 59)) = true) by (vm_compute; reflexivity).
  rewrite forallb_forall in Hall. specialize (Hall k).
  assert (Hin : In k (map Z.of_nat (seq 2 59))).
  { apply in_map_iff. exists (Z.to_nat k). split; [lia|]. apply in_seq. lia. }
  apply Hall in Hin. apply andb_true_iff in Hin. destruct Hin as (H1 & H2).
  split; [now apply negb_true_iff in H1|exact H2].
Qed.

Lemma incl_mem (small big : list string) (s : string) :
  forallb (fun t => schemas.mem t big) small = true -> In s small -> schemas.mem s big = true.
Proof. intros H Hin. rewrite forallb_forall in H. now apply H. Qed.

Section SeedingClaims.

Variable py_str : value -> string.
Variable isoformat : Z -> string.
Variable lax_str : value -> option string.
Variable lax_float : value -> option float.
Variable Store : Type.
Variable create_document : string -> schemas.Incident -> Store -> result string * Store.

(** Every iteration builds a valid incident, whatever it draws. *)
Lemma seed_doc_ok (now : Z) (r : draw) :
  draw_ok r ->
  exists inc, seed_doc py_str isoformat lax_str lax_float now r = Ok inc /\
              field_constraints inc.
Proof.
  intros (Ht & Hsev & Hst & _ & _ & Hresp & _ & Hla1 & Hla2 & Hlo1 & Hlo2 & _ & _).
  destruct (round6_latitude _ Hla1 Hla2) as (lat & mla & Hlat & Hlatsf).
  destruct (round6_longitude _ Hlo1 Hlo2) as (lon & mlo & Hlon & Hlonsf).
  assert (Hnew : exists inc, seed_doc py_str isoformat lax_str lax_float now r = Ok inc).
  { unfold seed_doc. rewrite Hlat, Hlon. cbn [bind].
    unfold schemas.new_Incident.
    cbn [assoc_get String.eqb Ascii.eqb Bool.eqb schemas.optional_str schemas.literal bind].
    rewrite (incl_mem types schemas.TYPES _ eq_refl Ht).
    rewrite (incl_mem severities schemas.SEVERITIES _ eq_refl Hsev).
    rewrite (incl_mem statuses schemas.STATUSES _ eq_refl Hst).
    cbn [bind schemas.optional_float schemas.to_float].
    rewrite (latitude_in_range _ _ Hlatsf), (longitude_in_range _ _ Hlonsf).
    cbn [bind].
    destruct (negb (String.eqb (d_status r) "reported")).
    - cbn [schemas.optional_float schemas.to_float bind].
      destruct (response_draw_converts _ Hresp) as (Hfin & Hge).
      rewrite Hfin. cbn [bind schemas.ge_ok schemas.le_ok]. rewrite Hge.
      cbn [andb bind]. eexists. reflexivity.
    - cbn [schemas.optional_float bind]. eexists. reflexivity. }
  destruct Hnew as (inc & Hinc). exists inc. split; [exact Hinc|].
  unfold seed_doc in Hinc. rewrite Hlat, Hlon in Hinc. cbn [bind] in Hinc.
  now apply new_Incident_constraints in Hinc.
Qed.

Hypothesis store_accepts :
  forall inc st, exists id st', create_document "incident" inc st = (Ok id, st').

Lemma seed_loop_ok (now : Z) (rng : nat -> draw) (iters : list nat) :
  (forall i, In i iters -> draw_ok (rng i)) ->
  forall created st,
  exists incs st',
    seed_loop py_str isoformat lax_str lax_float Store create_document
      now rng iters created st
    = (Ok (created + Z.of_nat (List.length iters)), st') /\
    map Ok incs = map (fun i => seed_doc py_str isoformat lax_str lax_float now (rng i)) iters /\
    insert_all Store create_document incs st = Some st' /\
    Forall field_constraints incs.
Proof.
  induction iters as [|i iters IH]; intros Hok created st.
  - exists [], st. simpl. rewrite Z.add_0_r. repeat split; constructor.
  - destruct (seed_doc_ok now (rng i)) as (inc & Hinc & Hc); [apply Hok; now left|].
    destruct (store_accepts inc st) as (id & st1 & Hins).
    destruct (IH (fun j Hj => Hok j (or_intror Hj)) (created + 1) st1)
      as (incs & st' & Hloop & Hmap & Hall & Hcs).
    exists (inc :: incs), st'. cbn [seed_loop]. rewrite Hinc, Hins, Hloop.
    repeat split.
    + do 2 f_equal. cbn [List.length]. lia.
    + cbn [map]. rewrite Hinc, Hmap. reflexivity.
    + cbn [insert_all]. rewrite Hins. exact Hall.
    + constructor; assumption.
Qed.

(** C8: for n between 1 and 500, with draws as the random module
    documents them and a store that accepts every insertion, seeding
    answers created = n; the store then holds exactly the n incidents
    built from the n iterations, inserted in order, and each of them
    satisfies the field constraints of the data model.  Without n the
    endpoint seeds 50. *)
Theorem seeding_creates_n_valid_incidents (n now : Z) (rng : nat -> draw) (st : Store) :
  1 <= n <= 500 ->
  (forall i, (i < Z.to_nat n)%nat -> draw_ok (rng i)) ->
  (exists incs st',
     seed_incidents py_str isoformat lax_str lax_float Store create_document
       (Some n) now rng st
     = (Resp {| created := n |}, st') /\
     List.length incs = Z.to_nat n /\
     map Ok incs = map (fun i => seed_doc py_str isoformat lax_str lax_float now (rng i))
                       (seq 0 (Z.to_nat n)) /\
     insert_all Store create_document incs st = Some st' /\
     Forall field_constraints incs) /\
  seed_incidents py_str isoformat lax_str lax_float Store create_document None now rng st
  = seed_incidents py_str isoformat lax_str lax_float Store create_document
      (Some 50) now rng st.
Proof.
  intros Hn Hdraws. split; [|reflexivity].
  destruct (seed_loop_ok now rng (seq 0 (Z.to_nat n))) with (created := 0) (st := st)
    as (incs & st' & Hloop & Hmap & Hall & Hcs).
  { intros i Hi. apply Hdraws. apply in_seq in Hi. lia. }
  exists incs, st'. unfold seed_incidents.
  replace ((1 <=? n) && (n <=? 500)) with true
    by (symmetry; apply andb_true_iff; split; apply Z.leb_le; lia).
  rewrite Hloop. rewrite length_seq, Z2Nat.id by lia. cbn [bind try_500].
  repeat split; try assumption.
  apply (f_equal (@List.length _)) in Hmap. rewrite !length_map, length_seq in Hmap.
  exact Hmap.
Qed.

End SeedingClaims.

(** The example draws are within the documented ranges. *)
Lemma example_draw_ok : draw_ok example_draw.
Proof.
  unfold draw_ok, example_draw, types, severities, statuses, precincts.
  cbn [d_type d_severity d_status d_when d_report d_response d_incident
       d_lat d_lon d_precinct d_officer In].
  repeat match goal with |- _ /\ _ => split end;
    try lia; try (vm_compute; reflexivity); tauto.
Qed.

(** Seeding three incidents into an empty in-memory store. *)
Lemma seeding_creates_n_valid_incidents_example :
  exists incs st',
    seed_incidents str_of_value microsecond_stamp no_lax no_lax
      (list schemas.Incident) memory_create_document
      (Some 3) 1700000000000000 (fun _ => example_draw) []
    = (Resp {| created := 3 |}, st') /\
    List.length incs = 3%nat /\
    insert_all (list schemas.Incident) memory_create_document incs [] = Some st' /\
    Forall field_constraints incs.
Proof.
  destruct (seeding_creates_n_valid_incidents str_of_value microsecond_stamp no_lax no_lax
              (list schemas.Incident) memory_create_document
              (fun inc st => ex_intro _ _ (ex_intro _ _ eq_refl))
              3 1700000000000000 (fun _ => example_draw) [])
    as ((incs & st' & H1 & H2 & _ & H3 & H4) & _).
  - lia.
  - intros i _. exact example_draw_ok.
  - exists incs, st'. auto.
Defined.

(** Three seeded incidents, evaluated: the coordinates are rounded to
    six decimals and the open status gets a response time. *)
Example seeding_three :
  seed_incidents str_of_value microsecond_stamp no_lax no_lax
    (list schemas.Incident) memory_create_document
    (Some 3) 1700000000000000 (fun _ => example_draw) []
  = (Resp {| created := 3 |},
     repeat {| schemas.incident_id := Some "INC-123456";
               schemas.type := "burglary";
               schemas.description := Some "Random burglary incident";
               schemas.severity := "high";
               schemas.status := "on_scene";
               schemas.latitude := Some 37.77493%float;
               schemas.longitude := Some (-122.419416)%float;
               schemas.occurred_at := Some "1699994600000000";
               schemas.reported_at := Some "1699995500000000";
               schemas.response_minutes := Some 7%float;
               schemas.precinct := Some "North";
               schemas.officer_id := Some "4711" |} 3).
Proof. vm_compute. reflexivity. Qed.


(** ** Further properties of the endpoints *)

(** The period parameter of the summary endpoint has no effect on the
    answer: the same documents are fetched and aggregated whatever
    window is named. *)
Theorem period_is_ignored
    (float_of_str : string -> option float)
    (get_documents : string -> document -> option Z -> result (list document))
    (precinct period1 period2 : option string) :
  analytics_summary float_of_str get_documents precinct period1 =
  analytics_summary float_of_str get_documents precinct period2.
Proof. reflexivity. Qed.

(** Every incident that passes validation satisfies the field
    constraints of the data model. *)
Theorem validated_incident_meets_constraints
    (lax_str : value -> option string) (lax_float : value -> option float)
    (fields : document) (inc : schemas.Incident) :
  schemas.new_Incident lax_str lax_float fields = Ok inc -> field_constraints inc.
Proof. apply new_Incident_constraints. Qed.

(** A body with an out-of-range latitude is rejected; one with valid
    fields is validated and meets the constraints. *)
Lemma validated_incident_meets_constraints_example :
  schemas.new_Incident no_lax no_lax [("latitude", VFloat 91%float)]
  = Raise ValidationError /\
  exists inc,
    schemas.new_Incident no_lax no_lax
      [("type", VStr "fraud"); ("latitude", VFloat 37.5%float); ("response_minutes", VInt 4)]
    = Ok inc /\ field_constraints inc.
Proof.
  split; [vm_compute; reflexivity|].
  eexists. split; [vm_compute; reflexivity|].
  apply (validated_incident_meets_constraints no_lax no_lax
           [("type", VStr "fraud"); ("latitude", VFloat 37.5%float);
            ("response_minutes", VInt 4)]).
  vm_compute. reflexivity.
Defined.

(** Seeding with n outside 1..500 is refused with 422 before anything
    is inserted. *)
Theorem seed_out_of_range_is_refused
    (py_str : value -> string) (isoformat : Z -> string)
    (lax_str : value -> option string) (lax_float : value -> option float)
    (Store : Type)
    (create_document : string -> schemas.Incident -> Store -> result string * Store)
    (n now : Z) (rng : nat -> draw) (st : Store) :
  n < 1 \/ 500 < n ->
  seed_incidents py_str isoformat lax_str lax_float Store create_document
    (Some n) now rng st
  = (HTTPException 422 ValidationError, st).
Proof.
  intros Hn. unfold seed_incidents.
  replace ((1 <=? n) && (n <=? 500)) with false; [reflexivity|].
  symmetry. apply andb_false_iff.
  destruct Hn; [left; apply Z.leb_gt; lia|right; apply Z.leb_gt; lia].
Qed.

(** Seeding 501 incidents is refused and the store stays empty. *)
Lemma seed_out_of_range_is_refused_example :
  seed_incidents str_of_value microsecond_stamp no_lax no_lax
    (list schemas.Incident) memory_create_document
    (Some 501) 1700000000000000 (fun _ => example_draw) []
  = (HTTPException 422 ValidationError, []).
Proof.
  apply (seed_out_of_range_is_refused str_of_value microsecond_stamp no_lax no_lax
           (list schemas.Incident) memory_create_document
           501 1700000000000000 (fun _ => example_draw) []).
  right. lia.
Defined.

(** ** Further properties of the listing *)

Lemma insert_desc_perm {A : Type} (key : A -> value) (x : A) (l r : list A) :
  insert_desc key x l = Ok r -> Permutation (x :: l) r.
Proof.
  revert r. induction l as [|y l IH]; intros r H; simpl in H.
  - injection H as <-. apply Permutation_refl.
  - destruct (py_lt (key x) (key y)) as [[|]|]; simpl in H; try discriminate.
    + destruct (insert_desc key x l) as [r'|]; [|discriminate].
      simpl in H. injection H as <-.
      eapply perm_trans; [apply perm_swap|]. apply perm_skip. now apply IH.
    + injection H as <-. apply Permutation_refl.
Qed.

Lemma sort_reverse_perm {A : Type} (key : A -> value) (l r : list A) :
  sort_reverse key l = Ok r -> Permutation l r.
Proof.
  revert r. induction l as [|x l IH]; intros r H; simpl in H.
  - injection H as <-. apply perm_nil.
  - destruct (sort_reverse key l) as [s|]; [|discriminate]. simpl in H.
    apply insert_desc_perm in H.
    eapply perm_trans; [apply perm_skip; apply IH; reflexivity|exact H].
Qed.

(** Two values [<] orders are of one kind. *)
Lemma py_lt_ok_kind (a b : value) (r : bool) :
  py_lt a b = Ok r -> exists c, kind_of a = Some c /\ kind_of b = Some c.
Proof.
  destruct a, b; simpl; intros H; try discriminate; eauto.
Qed.

(** The keys of a sorted list of two or more elements are of one kind. *)
Lemma sort_reverse_ok_kind {A : Type} (key : A -> value) (l r : list A) :
  sort_reverse key l = Ok r -> (2 <= List.length l)%nat ->
  exists c, Forall (fun a => kind_of (key a) = Some c) l.
Proof.
  revert r. induction l as [|x l IH]; intros r H Hlen; [simpl in Hlen; lia|].
  simpl in H. destruct (sort_reverse key l) as [s|] eqn:Hs; [|discriminate].
  simpl in H. pose proof (sort_reverse_length _ _ _ Hs) as Hls.
  pose proof (sort_reverse_perm _ _ _ Hs) as Hperm.
  destruct s as [|y s]; [simpl in Hls, Hlen; lia|].
  simpl in H. destruct (py_lt (key x) (key y)) as [b|] eqn:Hlt; [|discriminate].
  apply py_lt_ok_kind in Hlt. destruct Hlt as (c & Hx & Hy).
  assert (Hin : In y l).
  { eapply Permutation_in; [apply Permutation_sym; exact Hperm|now left]. }
  exists c. constructor; [exact Hx|].
  destruct l as [|z [|z' l]].
  - destruct Hin.
  - destruct Hin as [<-|[]]. constructor; [exact Hy|constructor].
  - destruct (IH (y :: s) eq_refl) as (c' & Hall); [simpl; lia|].
    rewrite Forall_forall in Hall. pose proof (Hall y Hin) as Hy'.
    rewrite Hy in Hy'. injection Hy' as <-. now apply Forall_forall.
Qed.

Lemma string_ltb_irrefl (s : string) : String.ltb s s = false.
Proof.
  unfold String.ltb.
  replace (String.compare s s) with Eq; [reflexivity|].
  symmetry. induction s as [|a s IH]; simpl; [reflexivity|].
  unfold Ascii.compare. now rewrite N.compare_refl.
Qed.

Section StableSort.

Context {A : Type}.
Variable key : A -> value.
Variable skey : A -> string.
Variable t : string.

Lemma insert_desc_same_key (x : A) (l r : list A) :
  keyed key skey x -> Forall (keyed key skey) l ->
  insert_desc key x l = Ok r ->
  filter (fun a => String.eqb (skey a) t) r
  = filter (fun a => String.eqb (skey a) t) (x :: l).
Proof.
  intros Hx. revert r. induction l as [|y l IH]; intros r Hl H; simpl in H.
  - injection H as <-. reflexivity.
  - inversion Hl as [|? ? Hy Hl']; subst.
    rewrite Hx, Hy in H. simpl in H.
    destruct (String.ltb (skey x) (skey y)) eqn:E.
    + destruct (insert_desc key x l) as [r'|] eqn:Hr; [|discriminate].
      simpl in H. injection H as <-.
      cbn [filter]. rewrite (IH r' Hl' eq_refl). cbn [filter].
      destruct (String.eqb (skey x) t) eqn:Ex, (String.eqb (skey y) t) eqn:Ey;
        try reflexivity.
      apply String.eqb_eq in Ex, Ey. rewrite Ex, Ey, string_ltb_irrefl in E.
      discriminate.
    + injection H as <-. reflexivity.
Qed.

Lemma sort_reverse_same_key (l r : list A) :
  Forall (keyed key skey) l ->
  sort_reverse key l = Ok r ->
  filter (fun a => String.eqb (skey a) t) r = filter (fun a => String.eqb (skey a) t) l.
Proof.
  revert r. induction l as [|x l IH]; intros r Hl H; simpl in H.
  - injection H as <-. reflexivity.
  - inversion Hl as [|? ? Hx Hl']; subst.
    destruct (sort_reverse key l) as [s|] eqn:Hs; [|discriminate]. simpl in H.
    assert (Hfs : Forall (keyed key skey) s).
    { eapply Permutation_Forall; [apply (sort_reverse_perm _ _ _ Hs)|exact Hl']. }
    rewrite (insert_desc_same_key x s r Hx Hfs H).
    cbn [filter]. now rewrite (IH s Hl' eq_refl).
Qed.

End StableSort.

Lemma assoc_get_remove_same {A : Type} (d : list (string * A)) (k : string) :
  assoc_get (assoc_remove d k) k = None.
Proof.
  induction d as [|[j v] d IH]; simpl; [reflexivity|].
  destruct (String.eqb j k) eqn:E; [exact IH|]. simpl. now rewrite E.
Qed.

Lemma assoc_get_set_same {A : Type} (d : list (string * A)) (k : string) (v : A) :
  assoc_get (assoc_set d k v) k = Some v.
Proof.
  induction d as [|[j w] d IH]; simpl.
  - now rewrite String.eqb_refl.
  - destruct (String.eqb j k) eqn:E; simpl; now rewrite E.
Qed.

Section ListingFurther.

Variable py_str : value -> string.
Variable get_documents : string -> document -> option Z -> result (list document).

Lemma keyed_when_str_or_absent (docs : list document) :
  forallb timestamp_str_or_absent docs = true ->
  Forall (keyed sort_key timestamp) (map (rename_id py_str) docs).
Proof.
  intros Hk. apply Forall_forall. intros d' Hin. apply in_map_iff in Hin.
  destruct Hin as (d & <- & Hin).
  rewrite forallb_forall in Hk. specialize (Hk d Hin).
  unfold keyed. rewrite sort_key_rename_id, timestamp_rename_id.
  unfold timestamp_str_or_absent in Hk. unfold sort_key, get_default, timestamp.
  destruct (assoc_get d "reported_at") as [v|]; [|reflexivity].
  destruct v; try discriminate. reflexivity.
Qed.

(** The filters hold exactly the query parameters that are given and
    not empty, in the order type, severity, status, precinct; an empty
    string is the same as no parameter, also for the precinct of the
    summary endpoint. *)
Theorem filters_hold_nonempty_parameters (type severity status precinct : option string) :
  listing_filters type severity status precinct =
    filter_binding "type" type ++ filter_binding "severity" severity ++
    filter_binding "status" status ++ filter_binding "precinct" precinct /\
  summary_filters precinct = filter_binding "precinct" precinct /\
  filter_binding "type" (Some "") = filter_binding "type" None.
Proof.
  repeat split.
  - unfold listing_filters, add_filter, filter_binding, truthy.
    destruct type as [t|], severity as [s|], status as [st|], precinct as [p|];
      repeat match goal with
             | |- context [String.eqb ?x ""] => destruct (String.eqb x "")
             end; reflexivity.
  - unfold summary_filters, filter_binding, truthy.
    destruct precinct as [p|]; [destruct (String.eqb p "")|]; reflexivity.
Qed.

(** A limit outside 1..1000 is refused with 422, whatever the
    filters are and whatever the store holds or does. *)
Theorem listing_limit_out_of_range_is_refused
    (type severity status precinct : option string) (limit : Z) :
  limit < 1 \/ 1000 < limit ->
  list_incidents py_str get_documents type severity status precinct (Some limit)
  = HTTPException 422 ValidationError.
Proof.
  intros Hl. unfold list_incidents.
  replace ((1 <=? limit) && (limit <=? 1000)) with false; [reflexivity|].
  symmetry. apply andb_false_iff.
  destruct Hl; [left|right]; apply Z.leb_gt; lia.
Qed.

(** Whenever the listing answers, its items are the fetched documents,
    each with its _id removed and, when it had one, id set to the text
    of that _id; every other field is as fetched, and no document is
    lost or added. *)
Theorem listing_answers_renamed_documents
    (type severity status precinct : option string) (limit : Z)
    (docs items : list document) :
  1 <= limit <= 1000 ->
  get_documents "incident" (listing_filters type severity status precinct) (Some limit)
  = Ok docs ->
  list_incidents py_str get_documents type severity status precinct (Some limit)
  = Resp items ->
  Permutation (map (rename_id py_str) docs) items /\
  List.length items = List.length docs /\
  Forall (fun d => assoc_get d "_id" = None) items /\
  (forall d v, assoc_get d "_id" = Some v ->
               assoc_get (rename_id py_str d) "id" = Some (VStr (py_str v))) /\
  (forall d k, assoc_get d "_id" = None \/ (k <> "_id" /\ k <> "id") ->
               assoc_get (rename_id py_str d) k = assoc_get d k).
Proof.
  intros Hl Hg H. rewrite (list_incidents_on _ _ _ _ _ _ _ _ Hl Hg) in H.
  unfold list_items in H.
  destruct (sort_reverse sort_key (map (rename_id py_str) docs)) as [r|] eqn:Hs;
    [|discriminate].
  simpl in H. injection H as <-.
  pose proof (sort_reverse_perm _ _ _ Hs) as Hp.
  assert (Hno : forall d, assoc_get (rename_id py_str d) "_id" = None).
  { intros d. unfold rename_id. destruct (assoc_get d "_id") eqn:E; [|exact E].
    rewrite assoc_get_set_other by reflexivity. apply assoc_get_remove_same. }
  repeat split.
  - exact Hp.
  - rewrite <- (Permutation_length Hp). apply length_map.
  - eapply Permutation_Forall; [exact Hp|]. apply Forall_forall.
    intros d' Hin. apply in_map_iff in Hin. destruct Hin as (d & <- & _). apply Hno.
  - intros d v Hd. unfold rename_id. rewrite Hd. apply assoc_get_set_same.
  - intros d k [Hd|(Hk1 & Hk2)]; unfold rename_id.
    + now rewrite Hd.
    + destruct (assoc_get d "_id"); [|reflexivity].
      rewrite assoc_get_set_other by (apply String.eqb_neq; congruence).
      apply assoc_get_remove_other. apply String.eqb_neq. congruence.
Qed.

(** With no or one fetched document the listing always answers: the
    sort compares nothing, whatever reported_at holds. *)
Theorem listing_of_at_most_one_document_answers
    (type severity status precinct : option string) (limit : Z) (docs : list document) :
  1 <= limit <= 1000 ->
  get_documents "incident" (listing_filters type severity status precinct) (Some limit)
  = Ok docs ->
  (List.length docs <= 1)%nat ->
  list_incidents py_str get_documents type severity status precinct (Some limit)
  = Resp (map (rename_id py_str) docs).
Proof.
  intros Hl Hg Hlen. rewrite (list_incidents_on _ _ _ _ _ _ _ _ Hl Hg).
  destruct docs as [|d [|d' docs]]; [reflexivity|reflexivity|simpl in Hlen; lia].
Qed.

(** With two or more fetched documents, one whose reported_at is
    present and null makes the listing answer HTTP 500, whatever the
    other documents hold (also when all of them are null). *)
Theorem null_timestamp_among_several_fails
    (type severity status precinct : option string) (limit : Z)
    (docs : list document) (d : document) :
  1 <= limit <= 1000 ->
  get_documents "incident" (listing_filters type severity status precinct) (Some limit)
  = Ok docs ->
  (2 <= List.length docs)%nat ->
  In d docs -> assoc_get d "reported_at" = Some VNone ->
  list_incidents py_str get_documents type severity status precinct (Some limit)
  = HTTPException 500 TypeError.
Proof.
  intros Hl Hg Hlen Hin Hd. rewrite (list_incidents_on _ _ _ _ _ _ _ _ Hl Hg).
  unfold list_items.
  destruct (sort_reverse sort_key (map (rename_id py_str) docs)) as [r|e] eqn:Hs; simpl.
  - exfalso. apply sort_reverse_ok_no_none in Hs; [|now rewrite length_map].
    rewrite Forall_forall in Hs.
    apply (Hs (rename_id py_str d)); [now apply in_map|].
    rewrite sort_key_rename_id. unfold sort_key, get_default. now rewrite Hd.
  - f_equal. now apply (sort_reverse_raises_TypeError sort_key _ _ Hs).
Qed.

(** Two fetched documents whose sort keys are of different kinds (a
    number and a string, a string and a datetime, ...; a missing
    reported_at counts as a string) make the listing answer HTTP 500. *)
Theorem timestamps_of_different_kinds_fail
    (type severity status precinct : option string) (limit : Z)
    (docs : list document) (d1 d2 : document) :
  1 <= limit <= 1000 ->
  get_documents "incident" (listing_filters type severity status precinct) (Some limit)
  = Ok docs ->
  In d1 docs -> In d2 docs ->
  kind_of (sort_key d1) <> kind_of (sort_key d2) ->
  list_incidents py_str get_documents type severity status precinct (Some limit)
  = HTTPException 500 TypeError.
Proof.
  intros Hl Hg Hin1 Hin2 Hk. rewrite (list_incidents_on _ _ _ _ _ _ _ _ Hl Hg).
  unfold list_items.
  destruct (sort_reverse sort_key (map (rename_id py_str) docs)) as [r|e] eqn:Hs; simpl.
  - exfalso. apply sort_reverse_ok_kind in Hs.
    + destruct Hs as (c & Hall). rewrite Forall_forall in Hall.
      pose proof (Hall _ (in_map (rename_id py_str) _ _ Hin1)) as H1.
      pose proof (Hall _ (in_map (rename_id py_str) _ _ Hin2)) as H2.
      rewrite sort_key_rename_id in H1, H2. congruence.
    + rewrite length_map. apply (two_members docs d1 d2 Hin1 Hin2). congruence.
  - f_equal. now apply (sort_reverse_raises_TypeError sort_key _ _ Hs).
Qed.

(** The sort is stable: among the fetched documents whose reported_at
    is a string or absent, those with the same timestamp stay in the
    order in which the store returned them. *)
Theorem listing_keeps_order_of_equal_timestamps
    (type severity status precinct : option string) (limit : Z) (docs : list document) :
  1 <= limit <= 1000 ->
  get_documents "incident" (listing_filters type severity status precinct) (Some limit)
  = Ok docs ->
  forallb timestamp_str_or_absent docs = true ->
  exists items,
    list_incidents py_str get_documents type severity status precinct (Some limit)
    = Resp items /\
    forall t, with_timestamp t items = with_timestamp t (map (rename_id py_str) docs).
Proof.
  intros Hl Hg Hk. rewrite (list_incidents_on _ _ _ _ _ _ _ _ Hl Hg).
  pose proof (keyed_when_str_or_absent docs Hk) as Hkeyed.
  destruct (sort_reverse_keyed sort_key timestamp _ Hkeyed) as (items & Hs & _).
  exists items. unfold list_items. rewrite Hs. split; [reflexivity|].
  intros t. unfold with_timestamp.
  now apply (sort_reverse_same_key sort_key timestamp t _ _ Hkeyed).
Qed.

End ListingFurther.

(** ** Claim about the order of the listing *)

Lemma all_empty_sorted (l : list document) :
  Forall (fun d => timestamp d = "") l -> StronglySorted not_older l.
Proof.
  induction 1 as [|d l Hd Hl IH]; constructor; [exact IH|].
  eapply Forall_impl; [|exact Hl]. intros b Hb.
  unfold not_older. rewrite Hd, Hb. reflexivity.
Qed.

(** A sort key is the record's timestamp, or the record has none. *)
Lemma keyed_or_empty (d : document) :
  (exists s, sort_key d = VStr s) -> keyed sort_key timestamp d.
Proof.
  unfold keyed, sort_key, get_default, timestamp. intros (s & H).
  destruct (assoc_get d "reported_at") as [v|]; [|reflexivity].
  rewrite H. reflexivity.
Qed.

Lemma not_string_empty (d : document) :
  (forall s, sort_key d <> VStr s) -> timestamp d = "".
Proof.
  unfold sort_key, get_default, timestamp. intros H.
  destruct (assoc_get d "reported_at") as [v|]; [|reflexivity].
  destruct v; try reflexivity. exfalso. apply (H s). reflexivity.
Qed.

(** Whatever the sort answers is in descending order of the timestamps. *)
Lemma sort_reverse_not_older (l r : list document) :
  sort_reverse sort_key l = Ok r -> StronglySorted not_older r.
Proof.
  intros Hs.
  assert (Hcases : Forall (keyed sort_key timestamp) l \/
                   Forall (fun d => timestamp d = "") l).
  { destruct l as [|a [|b l']].
    - left. constructor.
    - destruct (sort_key a) as [| | | |s| | | |] eqn:Ea;
        try (right; constructor; [|constructor]; apply not_string_empty;
             intros s' Hs'; congruence).
      left. constructor; [|constructor]. apply keyed_or_empty. eauto.
    - destruct (sort_reverse_ok_kind sort_key _ _ Hs) as (c & Hc); [simpl; lia|].
      destruct c; try (right; eapply Forall_impl; [|exact Hc]; intros d Hd;
                        cbv beta in Hd; apply not_string_empty; intros s' Hs'; rewrite Hs' in Hd;
                        simpl in Hd; discriminate Hd).
      left. eapply Forall_impl; [|exact Hc]. intros d Hd. cbv beta in Hd.
      apply keyed_or_empty. destruct (sort_key d); simpl in Hd; try discriminate Hd. eauto. }
  destruct Hcases as [Hk|He].
  - destruct (sort_reverse_keyed sort_key timestamp l Hk) as (r' & Hr' & _ & Hsorted).
    rewrite Hs in Hr'. injection Hr' as <-. exact Hsorted.
  - apply all_empty_sorted.
    apply (Permutation_Forall (sort_reverse_perm sort_key l r Hs)). exact He.
Qed.

Section ListingOrderClaim.

Variable py_str : value -> string.
Variable get_documents : string -> document -> option Z -> result (list document).

(** C5: for every record set and every limit, whenever the listing
    answers, its items are the documents the store returned for the
    filters (their _id renamed), ordered so that no record stands before
    one with a greater raw timestamp string, the timestamp being
    reported_at where it is a string and the empty string otherwise; a
    record without reported_at has the empty string as sort key and is
    followed only by records with an empty timestamp.  The listing does answer
    when every fetched reported_at is a string or absent.  Dated
    2024-01-02, 2024-01-01 and undated records come out in that order. *)
Theorem listing_sorted_by_raw_timestamp
    (type severity status precinct : option string) (limit : option Z) :
  (forall items,
     list_incidents py_str get_documents type severity status precinct limit = Resp items ->
     exists docs,
       get_documents "incident" (listing_filters type severity status precinct)
         (Some (match limit with Some n => n | None => 100 end)) = Ok docs /\
       Permutation (map (rename_id py_str) docs) items /\
       StronglySorted not_older items /\
       (forall before d after,
          items = before ++ d :: after ->
          assoc_get d "reported_at" = None ->
          sort_key d = VStr "" /\ Forall (fun later => timestamp later = "") after)) /\
  (forall docs,
     1 <= match limit with Some n => n | None => 100 end <= 1000 ->
     get_documents "incident" (listing_filters type severity status precinct)
       (Some (match limit with Some n => n | None => 100 end)) = Ok docs ->
     forallb timestamp_str_or_absent docs = true ->
     exists items,
       list_incidents py_str get_documents type severity status precinct limit
       = Resp items) /\
  list_items py_str [undated; day1; day2] = Ok [day2; day1; undated] /\
  list_items py_str [day2; day1; undated] = Ok [day2; day1; undated].
Proof.
  split; [|split; [|split; reflexivity]].
  - intros items H. unfold list_incidents in H.
    destruct ((1 <=? match limit with Some n => n | None => 100 end) &&
              (match limit with Some n => n | None => 100 end <=? 1000));
      [|discriminate H].
    destruct (get_documents "incident" (listing_filters type severity status precinct)
                (Some match limit with Some n => n | None => 100 end))
      as [docs|e]; [cbn [bind] in H|discriminate H].
    destruct (list_items py_str docs) as [items'|e] eqn:Hs; [|discriminate H].
    injection H as <-. unfold list_items in Hs.
    exists docs. split; [reflexivity|].
    split; [exact (sort_reverse_perm sort_key _ _ Hs)|].
    pose proof (sort_reverse_not_older _ _ Hs) as Hsorted.
    split; [exact Hsorted|].
    intros before d after -> Hd.
    split; [unfold sort_key, get_default; now rewrite Hd|].
    apply StronglySorted_suffix in Hsorted.
    inversion Hsorted as [|? ? _ Hfa]; subst.
    eapply Forall_impl; [|exact Hfa]. intros later Hlater.
    unfold not_older, timestamp in Hlater. rewrite Hd in Hlater.
    now apply string_ltb_empty.
  - intros docs Hn Hg Hk.
    change (list_incidents py_str get_documents type severity status precinct limit)
      with (list_incidents py_str get_documents type severity status precinct
              (Some (match limit with Some n => n | None => 100 end))).
    rewrite (list_incidents_on py_str get_documents _ _ _ _ _ _ Hn Hg).
    destruct (sort_reverse_keyed sort_key timestamp (map (rename_id py_str) docs))
      as (items & Hs & _).
    { apply keyed_when_str_or_absent. exact Hk. }
    exists items. unfold list_items. rewrite Hs. reflexivity.
Qed.

End ListingOrderClaim.

(** The listing of the three-record store, with the default limit: the
    dated records first, newest first, the undated one last. *)
Lemma listing_sorted_by_raw_timestamp_example :
  list_incidents str_of_value (memory_get_documents stored3) None None None None None
  = Resp listed3 /\
  exists docs,
    memory_get_documents stored3 "incident" (listing_filters None None None None) (Some 100)
    = Ok docs /\
    Permutation (map (rename_id str_of_value) docs) listed3 /\
    StronglySorted not_older listed3.
Proof.
  split; [vm_compute; reflexivity|].
  destruct (proj1 (listing_sorted_by_raw_timestamp str_of_value (memory_get_documents stored3)
                     None None None None None) listed3) as (docs & Hg & Hp & Hs & _).
  - vm_compute. reflexivity.
  - exists docs. auto.
Defined.

(** ** Further properties of the summary *)

Lemma count_docs_perm (p : document -> bool) (docs docs' : list document) :
  Permutation docs docs' -> count_docs p docs = count_docs p docs'.
Proof.
  intros H. unfold count_docs. f_equal.
  induction H as [|x l l' _ IH|x y l|l l' l'' _ IH1 _ IH2]; simpl.
  - reflexivity.
  - destruct (p x); simpl; now rewrite IH.
  - destruct (p x), (p y); reflexivity.
  - now rewrite IH1.
Qed.

Lemma count_docs_app (p : document -> bool) (docs1 docs2 : list document) :
  count_docs p (docs1 ++ docs2) = count_docs p docs1 + count_docs p docs2.
Proof.
  unfold count_docs. rewrite filter_app, length_app. lia.
Qed.

Lemma pydict_store_keys (Q : value -> Prop) (d : pydict) (k : value) (v : Z) :
  Forall (fun kv => Q (fst kv)) d -> Q k ->
  Forall (fun kv => Q (fst kv)) (pydict_store d k v).
Proof.
  intros Hd Hk. induction d as [|[k' v'] d IH]; simpl.
  - constructor; [exact Hk|constructor].
  - inversion Hd as [|? ? Hk' Hd']; subst.
    destruct (py_eq k' k); constructor; auto.
Qed.

Lemma pydict_store_distinct (d : pydict) (k : value) (v : Z) :
  keys_distinct d -> keys_distinct (pydict_store d k v).
Proof.
  unfold keys_distinct. induction d as [|[k' v'] d IH]; intros Hd; simpl.
  - constructor; constructor.
  - inversion Hd as [|? ? Hhd Htl]; subst.
    destruct (py_eq k' k) eqn:E.
    + constructor; assumption.
    + constructor; [|now apply IH].
      apply (pydict_store_keys (fun x => py_eq k' x = false)); assumption.
Qed.

Lemma pydict_store_well_formed (d : pydict) (k : value) :
  hashable k = true -> counts_well_formed d ->
  counts_well_formed (pydict_store d k (label_count d k + 1)).
Proof.
  intros Hk (Hall & Hdist). split; [|now apply pydict_store_distinct].
  clear Hdist. unfold label_count.
  induction d as [|[k' v'] d IH]; simpl.
  - constructor; [simpl; split; [exact Hk|lia]|constructor].
  - inversion Hall as [|? ? (Hh & Hv) Hall']; subst. simpl in Hh, Hv.
    destruct (py_eq k' k); constructor; simpl; auto. split; [exact Hh|lia].
Qed.

Lemma pydict_count_le_sum (d : pydict) (k : value) (n : Z) :
  Forall (fun kv => 1 <= snd kv) d -> In (k, n) d -> n <= pydict_sum d.
Proof.
  induction d as [|[k' v'] d IH]; intros Hall Hin; [destruct Hin|].
  inversion Hall as [|? ? Hv Hall']; subst. simpl in Hv |- *.
  assert (0 <= pydict_sum d).
  { clear -Hall'. induction d as [|[j w] d IH]; simpl; [lia|].
    inversion Hall'; subst. simpl in *. specialize (IH H2). lia. }
  destruct Hin as [E|Hin]; [injection E as _ ->; lia|].
  specialize (IH Hall' Hin). lia.
Qed.

Lemma is_nan_Prim2SF (x : float) : is_nan x = true <-> Prim2SF x = S754_nan.
Proof.
  unfold is_nan. rewrite eqb_spec. unfold SFeqb, SFcompare.
  destruct (Prim2SF x) as [s|s| |s m e]; simpl.
  - split; discriminate.
  - destruct s; split; discriminate.
  - split; reflexivity.
  - rewrite Z.compare_refl.
    replace (Pos.compare_cont Eq m m) with Eq by (symmetry; apply Pos.compare_refl).
    destruct s; split; discriminate.
Qed.

Lemma add_nan_l (x y : float) : is_nan x = true -> is_nan (x + y)%float = true.
Proof.
  rewrite !is_nan_Prim2SF, add_spec. intros ->. reflexivity.
Qed.

Lemma add_nan_r (x y : float) : is_nan y = true -> is_nan (x + y)%float = true.
Proof.
  rewrite !is_nan_Prim2SF, add_spec. intros ->.
  destruct (Prim2SF x); reflexivity.
Qed.

Lemma fold_add_nan_acc (xs : list float) (acc : float) :
  is_nan acc = true -> is_nan (fold_left PrimFloat.add xs acc) = true.
Proof.
  revert acc. induction xs as [|x xs IH]; intros acc H; simpl; [exact H|].
  apply IH. now apply add_nan_l.
Qed.

Lemma fold_add_nan (xs : list float) (acc x : float) :
  In x xs -> is_nan x = true -> is_nan (fold_left PrimFloat.add xs acc) = true.
Proof.
  revert acc. induction xs as [|y xs IH]; intros acc Hin Hx; [destruct Hin|].
  simpl. destruct Hin as [->|Hin].
  - apply fold_add_nan_acc. now apply add_nan_r.
  - now apply IH.
Qed.

Section SummaryFurther.

Variable float_of_str : string -> option float.

Lemma floats_of_In_result (vs : list value) (xs : list float) (v : value) (x : float) :
  floats_of float_of_str vs = Ok xs -> In v vs ->
  py_float float_of_str v = Ok x -> In x xs.
Proof.
  revert xs. induction vs as [|w vs IH]; intros xs H Hin Hv; simpl in H.
  - destruct Hin.
  - destruct (py_float float_of_str w) as [y|] eqn:Hw; [|discriminate]. simpl in H.
    destruct (floats_of float_of_str vs) as [ys|]; [|discriminate].
    simpl in H. injection H as <-.
    destruct Hin as [<-|Hin]; [left; congruence|right; now apply (IH ys)].
Qed.

Lemma loop_well_formed (docs : list document) (l l' : locals) :
  loop float_of_str docs l = Ok l' ->
  counts_well_formed (l_by_type l) -> counts_well_formed (l_by_severity l) ->
  counts_well_formed (l_by_type l') /\ counts_well_formed (l_by_severity l').
Proof.
  revert l. induction docs as [|d docs IH]; intros l H Ht Hs.
  - simpl in H. injection H as <-. auto.
  - simpl in H. rewrite loop_body_eq in H.
    destruct (labels_hashable d) eqn:Hh; [|discriminate].
    unfold labels_hashable in Hh. apply andb_true_iff in Hh. destruct Hh as (Hh & _).
    apply andb_true_iff in Hh. destruct Hh as (Hht & Hhs).
    assert (Hn : exists x, loop float_of_str docs (next_locals l d x) = Ok l').
    { destruct (supplies_response d).
      - destruct (py_float float_of_str (get_or_none d "response_minutes")) as [x|];
          [|discriminate].
        now exists (Some x).
      - now exists None. }
    destruct Hn as (x & Hl). apply IH in Hl; [exact Hl| |];
      cbn [next_locals l_by_type l_by_severity];
      now apply pydict_store_well_formed.
Qed.

Lemma supplied_perm (docs docs' : list document) :
  Permutation docs docs' -> Permutation (supplied docs) (supplied docs').
Proof.
  intros H. unfold supplied. apply Permutation_map.
  induction H as [|x l l' _ IH|x y l|l l' l'' _ IH1 _ IH2]; simpl.
  - apply perm_nil.
  - destruct (supplies_response x); [now apply perm_skip|exact IH].
  - destruct (supplies_response x), (supplies_response y);
      try apply Permutation_refl. apply perm_swap.
  - eapply perm_trans; eassumption.
Qed.

(** The counts of the summary do not depend on the order in which the
    store returns the documents: if the aggregation answers for one
    order, the loop completes for every other, and total, open, the
    count under every None or string key and the nullness of the
    average are the same. *)
Theorem counts_do_not_depend_on_order (docs docs' : list document) (s : summary) :
  Permutation docs docs' ->
  aggregate float_of_str docs = Ok s ->
  (exists l', loop float_of_str docs' init_locals = Ok l') /\
  (forall s', aggregate float_of_str docs' = Ok s' ->
     total s' = total s /\ open s' = open s /\
     (avg_response_minutes s' = None <-> avg_response_minutes s = None) /\
     forall k, plain_key k ->
       label_count (by_type s') k = label_count (by_type s) k /\
       label_count (by_severity s') k = label_count (by_severity s) k).
Proof.
  intros Hp H. apply aggregate_inv in H.
  destruct H as (l & Hl & Ha & Ht & Ho & Hbt & Hbs).
  pose proof (loop_ok_inv _ _ _ _ Hl) as (_ & _ & Hopen & Hcnt & Hhash).
  pose proof (loop_response _ _ _ _ Hl) as (xs & Hxs & _).
  split.
  - apply loop_completes.
    + apply forallb_forall. intros d Hd. rewrite forallb_forall in Hhash.
      apply Hhash. eapply Permutation_in; [apply Permutation_sym; exact Hp|exact Hd].
    + intros v Hv. apply (floats_of_In float_of_str _ xs v Hxs).
      eapply Permutation_in; [apply Permutation_sym, supplied_perm; exact Hp|exact Hv].
  - intros s' H'. apply aggregate_inv in H'.
    destruct H' as (l' & Hl' & Ha' & Ht' & Ho' & Hbt' & Hbs').
    pose proof (loop_ok_inv _ _ _ _ Hl') as (_ & _ & Hopen' & Hcnt' & _).
    cbn [init_locals open_cases response_count] in Hopen, Hopen', Hcnt, Hcnt'.
    split; [|split; [|split; [split|]]].
    + rewrite Ht, Ht'. f_equal. symmetry. now apply Permutation_length.
    + rewrite Ho, Ho', Hopen, Hopen'. f_equal. symmetry. now apply count_docs_perm.
    + intros E. rewrite E in Ha'. unfold average in Ha, Ha'.
      destruct (response_count l' =? 0) eqn:E0.
      * apply Z.eqb_eq in E0.
        assert (E1 : response_count l = 0).
        { rewrite Hcnt, (count_docs_perm _ _ _ Hp), <- Hcnt'. exact E0. }
        rewrite E1 in Ha. simpl in Ha. congruence.
      * destruct (int_to_float (response_count l')); [|discriminate]. simpl in Ha'.
        destruct (py_round _ 2); discriminate.
    + intros E. rewrite E in Ha. unfold average in Ha, Ha'.
      destruct (response_count l =? 0) eqn:E0.
      * apply Z.eqb_eq in E0.
        assert (E1 : response_count l' = 0).
        { rewrite Hcnt', <- (count_docs_perm _ _ _ Hp), <- Hcnt. exact E0. }
        rewrite E1 in Ha'. simpl in Ha'. congruence.
      * destruct (int_to_float (response_count l)); [|discriminate]. simpl in Ha.
        destruct (py_round _ 2); discriminate.
    + intros k Hk.
      pose proof (loop_label_counts float_of_str k _ _ _ Hk Hl) as (H1 & H2).
      pose proof (loop_label_counts float_of_str k _ _ _ Hk Hl') as (H1' & H2').
      rewrite Hbt, Hbt', Hbs, Hbs', H1, H1', H2, H2'.
      split; f_equal; symmetry; now apply count_docs_perm.
Qed.

(** The counts of two batches add up: when the aggregation answers
    for both and for their concatenation, total, open and the count
    under every None or string key of the whole are the sums of those
    of the parts. *)
Theorem counts_of_batches_add_up (docs1 docs2 : list document) (s1 s2 s : summary) :
  aggregate float_of_str docs1 = Ok s1 ->
  aggregate float_of_str docs2 = Ok s2 ->
  aggregate float_of_str (docs1 ++ docs2) = Ok s ->
  total s = total s1 + total s2 /\
  open s = open s1 + open s2 /\
  forall k, plain_key k ->
    label_count (by_type s) k = label_count (by_type s1) k + label_count (by_type s2) k /\
    label_count (by_severity s) k
    = label_count (by_severity s1) k + label_count (by_severity s2) k.
Proof.
  intros H1 H2 H.
  apply aggregate_inv in H1. destruct H1 as (l1 & Hl1 & _ & Ht1 & Ho1 & Hbt1 & Hbs1).
  apply aggregate_inv in H2. destruct H2 as (l2 & Hl2 & _ & Ht2 & Ho2 & Hbt2 & Hbs2).
  apply aggregate_inv in H. destruct H as (l & Hl & _ & Ht & Ho & Hbt & Hbs).
  pose proof (loop_ok_inv _ _ _ _ Hl1) as (_ & _ & Hopen1 & _).
  pose proof (loop_ok_inv _ _ _ _ Hl2) as (_ & _ & Hopen2 & _).
  pose proof (loop_ok_inv _ _ _ _ Hl) as (_ & _ & Hopen & _).
  cbn [init_locals open_cases] in Hopen, Hopen1, Hopen2.
  split; [|split].
  - rewrite Ht, Ht1, Ht2, length_app. lia.
  - rewrite Ho, Ho1, Ho2, Hopen, Hopen1, Hopen2, count_docs_app. lia.
  - intros k Hk.
    pose proof (loop_label_counts float_of_str k _ _ _ Hk Hl1) as (E1 & F1).
    pose proof (loop_label_counts float_of_str k _ _ _ Hk Hl2) as (E2 & F2).
    pose proof (loop_label_counts float_of_str k _ _ _ Hk Hl) as (E & F).
    cbn [init_locals l_by_type l_by_severity] in E, E1, E2, F, F1, F2.
    rewrite Hbt, Hbt1, Hbt2, Hbs, Hbs1, Hbs2, E, E1, E2, F, F1, F2, !count_docs_app.
    unfold label_count. simpl. lia.
Qed.

(** The mappings of a summary are well formed: every key is hashable
    and stored once, every count is at least 1 and at most the total;
    open lies between 0 and the total. *)
Theorem summary_mappings_are_well_formed (docs : list document) (s : summary) :
  aggregate float_of_str docs = Ok s ->
  counts_well_formed (by_type s) /\
  counts_well_formed (by_severity s) /\
  (forall k n, In (k, n) (by_type s) -> 1 <= n <= total s) /\
  (forall k n, In (k, n) (by_severity s) -> 1 <= n <= total s) /\
  0 <= open s <= total s.
Proof.
  intros H. apply aggregate_inv in H.
  destruct H as (l & Hl & _ & Ht & Ho & Hbt & Hbs).
  pose proof (loop_ok_inv _ _ _ _ Hl) as (Hst & Hss & Hopen & _).
  assert (Hwf0 : counts_well_formed []).
  { split; constructor. }
  destruct (loop_well_formed _ _ _ Hl Hwf0 Hwf0) as (Hwt & Hws).
  cbn [init_locals l_by_type l_by_severity open_cases pydict_sum fold_right] in Hst, Hss, Hopen.
  rewrite Hbt, Hbs, Ht, Ho.
  assert (Hbound : forall d, counts_well_formed d ->
            pydict_sum d = 0 + Z.of_nat (List.length docs) ->
            forall k n, In (k, n) d -> 1 <= n <= Z.of_nat (List.length docs)).
  { intros d (Hall & _) Hsum k n Hin.
    assert (Hall1 : Forall (fun kv => 1 <= snd kv) d).
    { eapply Forall_impl; [|exact Hall]. intros kv (_ & Hv). exact Hv. }
    split.
    - rewrite Forall_forall in Hall1. apply (Hall1 (k, n) Hin).
    - pose proof (pydict_count_le_sum d k n Hall1 Hin). lia. }
  split; [exact Hwt|]. split; [exact Hws|].
  split; [apply (Hbound _ Hwt Hst)|]. split; [apply (Hbound _ Hws Hss)|].
  rewrite Hopen. unfold count_docs.
  pose proof (filter_length_le has_open_status docs). lia.
Qed.

(** One NaN poisons the average: when a supplied response_minutes
    converts to NaN (a stored NaN, or a string float() reads as one),
    the average of the whole summary is NaN. *)
Theorem nan_response_makes_average_nan
    (docs : list document) (s : summary) (d : document) (x : float) :
  aggregate float_of_str docs = Ok s ->
  In d docs -> supplies_response d = true ->
  py_float float_of_str (get_or_none d "response_minutes") = Ok x ->
  is_nan x = true ->
  exists r, avg_response_minutes s = Some r /\ is_nan r = true.
Proof.
  intros H Hin Hsup Hx Hnan. apply aggregate_inv in H.
  destruct H as (l & Hl & Ha & _).
  pose proof (loop_ok_inv _ _ _ _ Hl) as (_ & _ & _ & Hcnt & _).
  pose proof (loop_response _ _ _ _ Hl) as (xs & Hxs & Hsum & _).
  cbn [init_locals response_sum response_count] in Hcnt, Hsum.
  assert (Hxin : In x xs).
  { apply (floats_of_In_result _ xs (get_or_none d "response_minutes") x Hxs); [|exact Hx].
    unfold supplied.
    apply (in_map (fun d0 => get_or_none d0 "response_minutes")).
    apply filter_In. auto. }
  assert (Hpos : 0 < count_docs supplies_response docs).
  { unfold count_docs.
    assert (In d (filter supplies_response docs)) by (apply filter_In; auto).
    destruct (filter supplies_response docs); [contradiction|simpl; lia]. }
  unfold average in Ha.
  destruct (response_count l =? 0) eqn:E0; [apply Z.eqb_eq in E0; lia|].
  destruct (int_to_float (response_count l)) as [c|]; [|discriminate]. simpl in Ha.
  assert (Hq : is_nan (response_sum l / c)%float = true).
  { apply is_nan_Prim2SF. rewrite div_spec.
    assert (Hs : Prim2SF (response_sum l) = S754_nan).
    { apply is_nan_Prim2SF. rewrite Hsum. now apply (fold_add_nan xs _ x). }
    rewrite Hs. reflexivity. }
  assert (Hr : py_round (response_sum l / c)%float 2 = Ok (response_sum l / c)%float).
  { unfold py_round, exact_pair. apply is_nan_Prim2SF in Hq. rewrite Hq. reflexivity. }
  rewrite Hr in Ha. simpl in Ha. injection Ha as Ha.
  exists (response_sum l / c)%float. split; [now symmetry|exact Hq].
Qed.

End SummaryFurther.

(** ** Further properties of creation and seeding *)

Section StoreFurther.

Variable py_str : value -> string.
Variable isoformat : Z -> string.
Variable lax_str : value -> option string.
Variable lax_float : value -> option float.
Variable Store : Type.
Variable create_document : string -> schemas.Incident -> Store -> result string * Store.

(** The creation endpoint hands the store only validated incidents:
    either the body fails validation (422, the store untouched), or the
    store is asked once to insert an incident that satisfies the field
    constraints, and the answer is its id, or 500 when it raises. *)
Theorem create_incident_inserts_only_valid_incidents (body : document) (st : Store) :
  (exists e, schemas.new_Incident lax_str lax_float body = Raise e /\
             create_incident lax_str lax_float Store create_document body st
             = (HTTPException 422 e, st)) \/
  (exists inc st',
     schemas.new_Incident lax_str lax_float body = Ok inc /\ field_constraints inc /\
     ((exists id, create_document "incident" inc st = (Ok id, st') /\
                  create_incident lax_str lax_float Store create_document body st
                  = (Resp id, st')) \/
      (exists e, create_document "incident" inc st = (Raise e, st') /\
                 create_incident lax_str lax_float Store create_document body st
                 = (HTTPException 500 e, st')))).
Proof.
  unfold create_incident.
  destruct (schemas.new_Incident lax_str lax_float body) as [inc|e] eqn:H.
  - right. destruct (create_document "incident" inc st) as [[id|e] st'] eqn:Hc.
    + exists inc, st'. split; [reflexivity|].
      split; [now apply (new_Incident_constraints lax_str lax_float body)|].
      left. exists id. auto.
    + exists inc, st'. split; [reflexivity|].
      split; [now apply (new_Incident_constraints lax_str lax_float body)|].
      right. exists e. auto.
  - left. exists e. auto.
Qed.

(** The incident one iteration builds, field by field. *)
Lemma seed_doc_eq (now : Z) (r : draw) :
  draw_ok r ->
  exists lat lon,
    py_round (d_lat r) 6 = Ok lat /\ py_round (d_lon r) 6 = Ok lon /\
    seed_doc py_str isoformat lax_str lax_float now r =
    Ok {| schemas.incident_id := Some ("INC-" ++ py_str (VInt (d_incident r)))%string;
          schemas.type := d_type r;
          schemas.description := Some ("Random " ++ d_type r ++ " incident")%string;
          schemas.severity := d_severity r;
          schemas.status := d_status r;
          schemas.latitude := Some lat;
          schemas.longitude := Some lon;
          schemas.occurred_at := Some (isoformat (now - minutes (d_when r)));
          schemas.reported_at :=
            Some (isoformat (now - minutes (d_when r) + minutes (d_report r)));
          schemas.response_minutes :=
            if String.eqb (d_status r) "reported" then None
            else Some (float_of_Z (d_response r));
          schemas.precinct := Some (d_precinct r);
          schemas.officer_id := Some (py_str (VInt (d_officer r))) |}.
Proof.
  intros (Ht & Hsev & Hst & _ & _ & Hresp & _ & Hla1 & Hla2 & Hlo1 & Hlo2 & _ & _).
  destruct (round6_latitude _ Hla1 Hla2) as (lat & mla & Hlat & Hlatsf).
  destruct (round6_longitude _ Hlo1 Hlo2) as (lon & mlo & Hlon & Hlonsf).
  exists lat, lon. split; [exact Hlat|]. split; [exact Hlon|].
  unfold seed_doc. rewrite Hlat, Hlon. cbn [bind].
  unfold schemas.new_Incident.
  cbn [assoc_get String.eqb Ascii.eqb Bool.eqb schemas.optional_str schemas.literal bind].
  rewrite (incl_mem types schemas.TYPES _ eq_refl Ht).
  rewrite (incl_mem severities schemas.SEVERITIES _ eq_refl Hsev).
  rewrite (incl_mem statuses schemas.STATUSES _ eq_refl Hst).
  cbn [bind schemas.optional_float schemas.to_float].
  rewrite (latitude_in_range _ _ Hlatsf), (longitude_in_range _ _ Hlonsf).
  cbn [bind].
  destruct (String.eqb (d_status r) "reported"); cbn [negb].
  - cbn [schemas.optional_float bind]. reflexivity.
  - cbn [schemas.optional_float schemas.to_float bind].
    destruct (response_draw_converts _ Hresp) as (Hfin & Hge).
    rewrite Hfin. cbn [bind schemas.ge_ok schemas.le_ok]. rewrite Hge.
    cbn [andb bind]. reflexivity.
Qed.

(** A seeded incident follows its draws: its type is one of the nine
    seeded types (never homicide), it has a response time, a whole
    number of minutes, exactly when its status is not reported, it
    occurred between 14 days and 10 minutes before now, and it was
    reported between 0 and 120 minutes after it occurred (possibly
    after now). *)
Theorem seeded_incident_follows_its_draws (now : Z) (r : draw) (inc : schemas.Incident) :
  draw_ok r ->
  seed_doc py_str isoformat lax_str lax_float now r = Ok inc ->
  In (schemas.type inc) types /\ schemas.type inc <> "homicide" /\
  schemas.description inc = Some ("Random " ++ schemas.type inc ++ " incident")%string /\
  (schemas.status inc = "reported" -> schemas.response_minutes inc = None) /\
  (schemas.status inc <> "reported" ->
   exists k, 2 <= k <= 60 /\ schemas.response_minutes inc = Some (float_of_Z k)) /\
  (exists occurred reported,
     schemas.occurred_at inc = Some (isoformat occurred) /\
     schemas.reported_at inc = Some (isoformat reported) /\
     now - minutes (60 * 24 * 14) <= occurred <= now - minutes 10 /\
     occurred <= reported <= occurred + minutes 120) /\
  (exists p, schemas.precinct inc = Some p /\ In p precincts).
Proof.
  intros Hok H. destruct (seed_doc_eq now r Hok) as (lat & lon & _ & _ & Heq).
  rewrite Heq in H. injection H as <-.
  destruct Hok as (Ht & _ & _ & Hwhen & Hrep & Hresp & _ & _ & _ & _ & _ & Hp & _).
  cbn [schemas.type schemas.description schemas.status schemas.response_minutes
       schemas.occurred_at schemas.reported_at schemas.precinct].
  split; [exact Ht|]. split.
  { intros E. rewrite E in Ht. simpl in Ht.
    repeat (destruct Ht as [Ht|Ht]; [discriminate|]). exact Ht. }
  split; [reflexivity|]. split.
  { intros E. rewrite E. reflexivity. }
  split.
  { intros E. apply String.eqb_neq in E. rewrite E. exists (d_response r). auto. }
  split.
  { exists (now - minutes (d_when r)), (now - minutes (d_when r) + minutes (d_report r)).
    unfold minutes. repeat split; lia. }
  exists (d_precinct r). auto.
Qed.

Lemma seed_loop_app (now : Z) (rng : nat -> draw) (it1 it2 : list nat)
    (c : Z) (st : Store) :
  seed_loop py_str isoformat lax_str lax_float Store create_document
    now rng (it1 ++ it2) c st =
  match seed_loop py_str isoformat lax_str lax_float Store create_document
          now rng it1 c st with
  | (Ok c1, st1) =>
      seed_loop py_str isoformat lax_str lax_float Store create_document
        now rng it2 c1 st1
  | (Raise e, st1) => (Raise e, st1)
  end.
Proof.
  revert c st. induction it1 as [|i it1 IH]; intros c st; simpl; [reflexivity|].
  destruct (seed_doc py_str isoformat lax_str lax_float now (rng i)); [|reflexivity].
  destruct (create_document "incident" a st) as [[id|e] st1]; [apply IH|reflexivity].
Qed.

Lemma seed_loop_inserted (now : Z) (rng : nat -> draw) (iters : list nat) :
  forall (incs : list schemas.Incident) (c : Z) (st st' : Store),
  map Ok incs = map (fun i => seed_doc py_str isoformat lax_str lax_float now (rng i)) iters ->
  insert_all Store create_document incs st = Some st' ->
  seed_loop py_str isoformat lax_str lax_float Store create_document now rng iters c st
  = (Ok (c + Z.of_nat (List.length iters)), st').
Proof.
  induction iters as [|i iters IH]; intros [|inc incs] c st st' Hmap Hins;
    try discriminate.
  - simpl in Hins. injection Hins as <-. simpl. now rewrite Z.add_0_r.
  - cbn [map] in Hmap. injection Hmap as Hi Hmap.
    cbn [seed_loop]. rewrite <- Hi. cbn [insert_all] in Hins.
    destruct (create_document "incident" inc st) as [[id|e] st1]; [|discriminate].
    rewrite (IH incs (c + 1) st1 st' Hmap Hins). do 2 f_equal.
    cbn [List.length]. lia.
Qed.

(** Seeding does not roll back: when the first k iterations insert
    their incidents and the store raises on the next one, the endpoint
    answers 500 with that exception and the k incidents stay inserted. *)
Theorem seeding_failure_keeps_earlier_insertions
    (n now : Z) (rng : nat -> draw) (st : Store) (k : nat)
    (incs : list schemas.Incident) (inc : schemas.Incident) (st_k st_f : Store) (e : exn) :
  1 <= n <= 500 -> (k < Z.to_nat n)%nat ->
  map Ok incs = map (fun i => seed_doc py_str isoformat lax_str lax_float now (rng i))
                    (seq 0 k) ->
  insert_all Store create_document incs st = Some st_k ->
  seed_doc py_str isoformat lax_str lax_float now (rng k) = Ok inc ->
  create_document "incident" inc st_k = (Raise e, st_f) ->
  seed_incidents py_str isoformat lax_str lax_float Store create_document
    (Some n) now rng st
  = (HTTPException 500 e, st_f).
Proof.
  intros Hn Hk Hmap Hins Hinc Hfail. unfold seed_incidents.
  replace ((1 <=? n) && (n <=? 500)) with true
    by (symmetry; apply andb_true_iff; split; apply Z.leb_le; lia).
  replace (seq 0 (Z.to_nat n)) with (seq 0 k ++ k :: seq (S k) (Z.to_nat n - S k)).
  - rewrite seed_loop_app, (seed_loop_inserted now rng _ incs 0 st st_k Hmap Hins).
    cbn [seed_loop]. rewrite Hinc, Hfail. reflexivity.
  - change (k :: seq (S k) (Z.to_nat n - S k)) with (seq k (S (Z.to_nat n - S k))).
    rewrite <- seq_app. f_equal. lia.
Qed.

End StoreFurther.

(** ** The diagnostic endpoint *)

Section DiagnosticsFurther.

Variable db : option db_handle.
Variable getenv : string -> option string.
Variable short_text : exn -> string.

(** The diagnostics never tell which database is connected: whatever
    the handle is and holds, database_url and database_name say only
    whether the environment variables DATABASE_URL and DATABASE_NAME
    are set and not empty, and backend is always the running text. *)
Theorem diagnostics_report_environment_only :
  database_url (test_database db getenv short_text)
  = Some (if truthy (getenv "DATABASE_URL") then "✅ Set" else "❌ Not Set") /\
  database_name (test_database db getenv short_text)
  = Some (if truthy (getenv "DATABASE_NAME") then "✅ Set" else "❌ Not Set") /\
  backend (test_database db getenv short_text) = "✅ Running".
Proof.
  unfold test_database.
  destruct db as [h|]; [destruct (list_collection_names h)|]; repeat split.
Qed.

(** The connection part of the diagnostics: without a handle nothing
    is connected or listed; with a handle the status is Connected and
    the collections are the first ten names, or none when listing them
    raises; at most ten collections are ever reported, and the initial
    text of database is reported in no case. *)
Theorem diagnostics_describe_the_connection :
  (db = None ->
   database (test_database db getenv short_text) = "⚠️  Available but not initialized" /\
   connection_status (test_database db getenv short_text) = "Not Connected" /\
   collections (test_database db getenv short_text) = []) /\
  (forall h names, db = Some h -> list_collection_names h = Ok names ->
   database (test_database db getenv short_text) = "✅ Connected & Working" /\
   connection_status (test_database db getenv short_text) = "Connected" /\
   collections (test_database db getenv short_text) = firstn 10 names) /\
  (forall h e, db = Some h -> list_collection_names h = Raise e ->
   database (test_database db getenv short_text)
   = ("⚠️  Connected but Error: " ++ short_text e)%string /\
   connection_status (test_database db getenv short_text) = "Connected" /\
   collections (test_database db getenv short_text) = []) /\
  (List.length (collections (test_database db getenv short_text)) <= 10)%nat /\
  database (test_database db getenv short_text) <> "❌ Not Available".
Proof.
  unfold test_database. split; [|split; [|split; [|split]]].
  - intros ->. repeat split.
  - intros h names -> ->. repeat split.
  - intros h e -> ->. repeat split.
  - destruct db as [h|]; [destruct (list_collection_names h) as [names|e]|].
    + exact (firstn_le_length 10 names).
    + simpl. lia.
    + simpl. lia.
  - destruct db as [h|]; [destruct (list_collection_names h) as [names|e]|]; simpl;
      discriminate.
Qed.

End DiagnosticsFurther.

(** ** The example schemas *)

Section ExampleSchemas.

Variable lax_str : value -> option string.
Variable lax_float : value -> option float.
Variable lax_int : value -> option Z.
Variable lax_bool : value -> option bool.

Lemma required_str_given (fields : document) (k s : string) :
  example_schemas.required_str lax_str (assoc_get fields k) = Ok s -> given fields k.
Proof.
  unfold given. destruct (assoc_get fields k) as [v|]; [|discriminate].
  intros H. exists v. split; [reflexivity|]. intros ->. discriminate.
Qed.

Lemma leb_not_nan (x f : float) : (x <=? f)%float = true -> is_nan f = false.
Proof.
  intros H. destruct (is_nan f) eqn:E; [|reflexivity].
  apply (proj1 (is_nan_Prim2SF f)) in E.
  rewrite leb_spec, E in H. unfold SFleb, SFcompare in H.
  destruct (Prim2SF x) as [s|s| |s m e]; discriminate H.
Qed.

Lemma optional_int_bounds (ge le : Z) (v : option value) (z : Z) :
  example_schemas.optional_int lax_int ge le v = Ok (Some z) -> ge <= z <= le.
Proof.
  unfold example_schemas.optional_int. intros H.
  destruct v as [x|]; [|discriminate H].
  destruct x; try discriminate H;
    (destruct (example_schemas.to_int lax_int _) as [z'|e'];
       [cbn [bind] in H|discriminate H];
     destruct ((ge <=? z') && (z' <=? le)) eqn:Hb; [|discriminate H];
     injection H as <-; apply andb_true_iff in Hb; lia).
Qed.

Lemma required_float_given (fields : document) (k : string) (f : float) :
  example_schemas.required_float lax_float 0 (assoc_get fields k) = Ok f ->
  given fields k /\ (0 <=? f)%float = true.
Proof.
  unfold example_schemas.required_float, given. intros H.
  destruct (assoc_get fields k) as [v|]; [|discriminate H].
  assert (Hv : v <> VNone) by (intros ->; discriminate H).
  split; [exists v; auto|].
  destruct v; try (exfalso; apply Hv; reflexivity);
    (destruct (schemas.to_float lax_float _) as [f'|e'];
       [cbn [bind] in H|discriminate H];
     destruct (schemas.ge_ok (Some 0) f') eqn:Hge; [|discriminate H];
     injection H as <-; exact Hge).
Qed.

(** A validated user has all of name, email and address, given and
    not null; an age, when present, lies in 0..120; an absent age
    stays None and an absent is_active is True. *)
Theorem validated_user_meets_constraints (fields : document) (u : example_schemas.User) :
  example_schemas.new_User lax_str lax_int lax_bool fields = Ok u ->
  given fields "name" /\ given fields "email" /\ given fields "address" /\
  (forall a, example_schemas.age u = Some a -> 0 <= a <= 120) /\
  (assoc_get fields "age" = None -> example_schemas.age u = None) /\
  (assoc_get fields "is_active" = None -> example_schemas.is_active u = true).
Proof.
  unfold example_schemas.new_User. intros H.
  bind_ok H. bind_ok H. bind_ok H. bind_ok H. bind_ok H.
  injection H as <-. cbn [example_schemas.age example_schemas.is_active].
  split; [now apply required_str_given in E|].
  split; [now apply required_str_given in E0|].
  split; [now apply required_str_given in E1|].
  split; [|split].
  - intros z ->. exact (optional_int_bounds _ _ _ _ E2).
  - intros Ha. rewrite Ha in E2. simpl in E2. congruence.
  - intros Ha. rewrite Ha in E3. simpl in E3. congruence.
Qed.

(** A validated product has title, price and category, given and not
    null; its price is at least 0, hence not NaN; an absent in_stock
    is True and an absent description None. *)
Theorem validated_product_meets_constraints
    (fields : document) (p : example_schemas.Product) :
  example_schemas.new_Product lax_str lax_float lax_bool fields = Ok p ->
  given fields "title" /\ given fields "price" /\ given fields "category" /\
  (0 <=? example_schemas.price p)%float = true /\
  is_nan (example_schemas.price p) = false /\
  (assoc_get fields "description" = None -> example_schemas.description p = None) /\
  (assoc_get fields "in_stock" = None -> example_schemas.in_stock p = true).
Proof.
  unfold example_schemas.new_Product. intros H.
  bind_ok H. bind_ok H. bind_ok H. bind_ok H. bind_ok H.
  injection H as <-.
  cbn [example_schemas.price example_schemas.description example_schemas.in_stock].
  destruct (required_float_given _ _ _ E1) as (Hp & Hge).
  split; [now apply required_str_given in E|].
  split; [exact Hp|].
  split; [now apply required_str_given in E2|].
  split; [exact Hge|].
  split; [exact (leb_not_nan _ _ Hge)|].
  split.
  - intros Ha. rewrite Ha in E0. simpl in E0. congruence.
  - intros Ha. rewrite Ha in E3. simpl in E3. congruence.
Qed.

End ExampleSchemas.

(** ** Worked examples of the further properties *)

(** A limit of 0 is refused. *)
Lemma listing_limit_out_of_range_is_refused_example :
  list_incidents str_of_value (memory_get_documents stored3) None None None None (Some 0)
  = HTTPException 422 ValidationError.
Proof.
  apply (listing_limit_out_of_range_is_refused str_of_value (memory_get_documents stored3)).
  left. lia.
Defined.

(** The listing of the three stored records holds the three renamed
    records, none with an _id. *)
Lemma listing_answers_renamed_documents_example :
  list_incidents str_of_value (memory_get_documents stored3) None None None None (Some 100)
  = Resp listed3 /\
  Permutation (map (rename_id str_of_value) stored3) listed3 /\
  List.length listed3 = List.length stored3 /\
  Forall (fun d => assoc_get d "_id" = None) listed3.
Proof.
  split; [vm_compute; reflexivity|].
  destruct (listing_answers_renamed_documents str_of_value (memory_get_documents stored3)
              None None None None 100 stored3 listed3) as (H1 & H2 & H3 & _).
  - lia.
  - reflexivity.
  - vm_compute. reflexivity.
  - auto.
Defined.

(** A single record with a null reported_at is listed. *)
Lemma listing_of_at_most_one_document_answers_example :
  list_incidents str_of_value (memory_get_documents [null_dated])
    None None None None (Some 100)
  = Resp (map (rename_id str_of_value) [null_dated]).
Proof.
  apply (listing_of_at_most_one_document_answers str_of_value
           (memory_get_documents [null_dated]) None None None None 100 [null_dated]).
  - lia.
  - reflexivity.
  - simpl. lia.
Defined.

(** Two records, both with a null reported_at: HTTP 500. *)
Lemma null_timestamp_among_several_fails_example :
  list_incidents str_of_value (memory_get_documents [null_dated; null_dated])
    None None None None (Some 100)
  = HTTPException 500 TypeError.
Proof.
  apply (null_timestamp_among_several_fails str_of_value
           (memory_get_documents [null_dated; null_dated]) None None None None 100
           [null_dated; null_dated] null_dated).
  - lia.
  - reflexivity.
  - simpl. lia.
  - left. reflexivity.
  - reflexivity.
Defined.

(** A string timestamp and a numeric one: HTTP 500. *)
Lemma timestamps_of_different_kinds_fail_example :
  list_incidents str_of_value (memory_get_documents [day1; numeric_dated])
    None None None None (Some 100)
  = HTTPException 500 TypeError.
Proof.
  apply (timestamps_of_different_kinds_fail str_of_value
           (memory_get_documents [day1; numeric_dated]) None None None None 100
           [day1; numeric_dated] day1 numeric_dated).
  - lia.
  - reflexivity.
  - left. reflexivity.
  - right. left. reflexivity.
  - vm_compute. discriminate.
Defined.

(** The two thefts of the same day keep their order around the later
    record. *)
Lemma listing_keeps_order_of_equal_timestamps_example :
  exists items,
    list_incidents str_of_value (memory_get_documents [theft_a; day2; theft_b])
      None None None None (Some 100)
    = Resp items /\
    with_timestamp "2024-01-01" items = [theft_a; theft_b].
Proof.
  destruct (listing_keeps_order_of_equal_timestamps str_of_value
              (memory_get_documents [theft_a; day2; theft_b]) None None None None 100
              [theft_a; day2; theft_b]) as (items & H1 & H2).
  - lia.
  - reflexivity.
  - reflexivity.
  - exists items. split; [exact H1|]. rewrite H2. reflexivity.
Defined.

(** The example records in reverse order give the same counts. *)
Lemma counts_do_not_depend_on_order_example :
  aggregate float_of_digits example_docs = Ok example_summary /\
  exists s',
    aggregate float_of_digits (rev example_docs) = Ok s' /\
    total s' = total example_summary /\ open s' = open example_summary /\
    label_count (by_type s') VNone = label_count (by_type example_summary) VNone.
Proof.
  split; [vm_compute; reflexivity|].
  destruct (counts_do_not_depend_on_order float_of_digits example_docs (rev example_docs)
              example_summary) as (_ & H).
  - apply Permutation_rev.
  - vm_compute. reflexivity.
  - eexists. split; [vm_compute; reflexivity|].
    destruct (H _ ltac:(vm_compute; reflexivity)) as (H1 & H2 & _ & H3).
    split; [exact H1|]. split; [exact H2|].
    exact (proj1 (H3 VNone plain_key_none)).
Defined.

(** The example records followed by two answered calls. *)
Lemma counts_of_batches_add_up_example :
  exists s2 s,
    aggregate float_of_digits example_docs = Ok example_summary /\
    aggregate float_of_digits [rm 3; rm 2] = Ok s2 /\
    aggregate float_of_digits (example_docs ++ [rm 3; rm 2]) = Ok s /\
    total s = total example_summary + total s2 /\
    open s = open example_summary + open s2.
Proof.
  eexists. eexists.
  split; [vm_compute; reflexivity|].
  split; [vm_compute; reflexivity|].
  split; [vm_compute; reflexivity|].
  destruct (counts_of_batches_add_up float_of_digits example_docs [rm 3; rm 2]
              example_summary _ _
              ltac:(vm_compute; reflexivity) ltac:(vm_compute; reflexivity)
              ltac:(vm_compute; reflexivity)) as (H1 & H2 & _).
  split; [exact H1|exact H2].
Defined.

(** The mappings of the example summary. *)
Lemma summary_mappings_are_well_formed_example :
  aggregate float_of_digits example_docs = Ok example_summary /\
  counts_well_formed (by_type example_summary) /\
  counts_well_formed (by_severity example_summary) /\
  0 <= open example_summary <= total example_summary.
Proof.
  split; [vm_compute; reflexivity|].
  destruct (summary_mappings_are_well_formed float_of_digits example_docs example_summary)
    as (H1 & H2 & _ & _ & H3).
  - vm_compute. reflexivity.
  - auto.
Defined.

(** One stored NaN among answered calls. *)
Lemma nan_response_makes_average_nan_example :
  exists s r,
    aggregate float_of_digits [rm 3; nan_doc; rm 2] = Ok s /\
    avg_response_minutes s = Some r /\ is_nan r = true.
Proof.
  eexists.
  destruct (nan_response_makes_average_nan float_of_digits [rm 3; nan_doc; rm 2] _
              nan_doc nan ltac:(vm_compute; reflexivity)) as (r & H1 & H2).
  - right. left. reflexivity.
  - reflexivity.
  - reflexivity.
  - reflexivity.
  - exists r. split; [reflexivity|]. split; [exact H1|exact H2].
Defined.

(** The incident built from the example draw. *)
Lemma seeded_incident_follows_its_draws_example :
  seed_doc str_of_value microsecond_stamp no_lax no_lax 1700000000000000 example_draw
  = Ok example_incident /\
  In (schemas.type example_incident) types /\
  exists k, 2 <= k <= 60 /\ schemas.response_minutes example_incident = Some (float_of_Z k).
Proof.
  split; [vm_compute; reflexivity|].
  destruct (seeded_incident_follows_its_draws str_of_value microsecond_stamp no_lax no_lax
              1700000000000000 example_draw example_incident example_draw_ok)
    as (H1 & _ & _ & _ & H2 & _).
  - vm_compute. reflexivity.
  - split; [exact H1|]. apply H2. simpl. discriminate.
Defined.

(** Seeding three incidents into a store with room for two: HTTP 500,
    and the two stay. *)
Lemma seeding_failure_keeps_earlier_insertions_example :
  seed_incidents str_of_value microsecond_stamp no_lax no_lax
    (list schemas.Incident) (bounded_create_document 2)
    (Some 3) 1700000000000000 (fun _ => example_draw) []
  = (HTTPException 500 (StoreError "store is full"), [example_incident; example_incident]).
Proof.
  apply (seeding_failure_keeps_earlier_insertions str_of_value microsecond_stamp
           no_lax no_lax (list schemas.Incident) (bounded_create_document 2)
           3 1700000000000000 (fun _ => example_draw) [] 2
           [example_incident; example_incident] example_incident
           [example_incident; example_incident]).
  - lia.
  - simpl. lia.
  - vm_compute. reflexivity.
  - vm_compute. reflexivity.
  - vm_compute. reflexivity.
  - vm_compute. reflexivity.
Defined.

(** A user without an age, and one aged 121. *)
Lemma validated_user_meets_constraints_example :
  example_schemas.new_User no_lax no_lax no_lax
    [("name", VStr "Ada"); ("email", VStr "ada@example.org"); ("address", VStr "1 Main St");
     ("age", VInt 121)]
  = Raise ValidationError /\
  exists u,
    example_schemas.new_User no_lax no_lax no_lax
      [("name", VStr "Ada"); ("email", VStr "ada@example.org"); ("address", VStr "1 Main St")]
    = Ok u /\
    example_schemas.age u = None /\ example_schemas.is_active u = true.
Proof.
  split; [vm_compute; reflexivity|].
  eexists. split; [vm_compute; reflexivity|].
  destruct (validated_user_meets_constraints no_lax no_lax no_lax
              [("name", VStr "Ada"); ("email", VStr "ada@example.org");
               ("address", VStr "1 Main St")] _ ltac:(vm_compute; reflexivity))
    as (_ & _ & _ & _ & H1 & H2).
  split; [apply H1|apply H2]; reflexivity.
Defined.

(** A product with a NaN price is rejected; one priced 3 is valid. *)
Lemma validated_product_meets_constraints_example :
  example_schemas.new_Product no_lax no_lax no_lax
    [("title", VStr "Radio"); ("price", VFloat nan); ("category", VStr "audio")]
  = Raise ValidationError /\
  exists p,
    example_schemas.new_Product no_lax no_lax no_lax
      [("title", VStr "Radio"); ("price", VInt 3); ("category", VStr "audio")]
    = Ok p /\
    (0 <=? example_schemas.price p)%float = true /\ example_schemas.in_stock p = true.
Proof.
  split; [vm_compute; reflexivity|].
  eexists. split; [vm_compute; reflexivity|].
  destruct (validated_product_meets_constraints no_lax no_lax no_lax
              [("title", VStr "Radio"); ("price", VInt 3); ("category", VStr "audio")]
              _ ltac:(vm_compute; reflexivity))
    as (_ & _ & _ & H1 & _ & _ & H2).
  split; [exact H1|apply H2; reflexivity].
Defined.
